(** * Ledger system: the reporting and filtering query engine

    A shallow embedding of [app/main.py] and [app/models.py]:
    money conversion ([parse_amount_to_cents], [cents_to_display]), the
    session and the role guards, registration and seeding, the
    transaction listing, the CSV export, the dashboard, the budget pages,
    the report page, the administration pages and the create handlers.

    Conventions.
    - Python [int] is [Z]; Python [str] is [string], a character standing
      for a code point below 256 (ASCII and Latin-1), with Python's white
      space and case mapping on that range; the code points from 256 on
      are outside the model.
    - A raised Python exception is the [Raise] case of [result].
    - A table is the list of its rows in insertion order; a query is a
      list computation over it.  SQL leaves the relative order of rows
      with equal sort keys open; the model keeps insertion order there.
    - [decimal] and [float] are modelled from the documented behaviour of
      the Python library under its default context (28 digits,
      ROUND_HALF_EVEN; IEEE-754 binary64); the [Decimal] constructor is
      the one of CPython's C implementation on a 64-bit machine, which
      converts exactly and rejects what its widest context cannot hold.
    - An [INTEGER] column of SQLite holds 64 bits: storing an integer
      outside that range fails with [OverflowError]. *)

From Stdlib Require Import ZArith List String Ascii Bool Lia.
From Stdlib Require Import Sorting.Sorted Sorting.Permutation.
Import ListNotations.

Open Scope string_scope.
Open Scope Z_scope.

(** ** Exceptions and the error monad *)

Inductive exn : Type :=
| ValueError (msg : string)
| InvalidOperation                     (* decimal.InvalidOperation *)
| Overflow                             (* decimal.Overflow *)
| OverflowError
| ZeroDivisionError
| AttributeError
| HTTPException (status_code : Z) (detail : string).

Inductive result (A : Type) : Type :=
| Return (a : A)
| Raise (e : exn).

Arguments Return {A} a.
Arguments Raise {A} e.

Definition bind {A B : Type} (m : result A) (k : A -> result B) : result B :=
  match m with
  | Return a => k a
  | Raise e => Raise e
  end.

Notation "x <- m ;; k" := (bind m (fun x => k))
  (at level 61, m at next level, right associativity).

Definition is_value_error (e : exn) : bool :=
  match e with ValueError _ => true | _ => false end.

(** ** Characters and text *)

Definition code (c : ascii) : Z := Z.of_N (N_of_ascii c).

Definition is_digit (c : ascii) : bool := (48 <=? code c) && (code c <=? 57).

Definition digit_value (c : ascii) : Z := code c - 48.

(** [str.isspace] below 256: TAB, LF, VT, FF, CR, FS, GS, RS, US, SPACE,
    NEL (133) and the no-break space (160). *)
Definition is_space (c : ascii) : bool :=
  ((9 <=? code c) && (code c <=? 13)) ||
  ((28 <=? code c) && (code c <=? 32)) ||
  (code c =? 133) || (code c =? 160).

Definition is_upper (c : ascii) : bool := (65 <=? code c) && (code c <=? 90).

Definition lower_char (c : ascii) : ascii :=
  if is_upper c then ascii_of_N (N_of_ascii c + 32) else c.

(** SQL [lower], which in SQLite changes the letters A-Z only. *)
Fixpoint lower (s : string) : string :=
  match s with
  | EmptyString => EmptyString
  | String c r => String (lower_char c) (lower r)
  end.

(** [str.lower] below 256: the letters A-Z and the Latin-1 capitals
    192-222, the multiplication sign 215 apart, move up by 32. *)
Definition str_lower_char (c : ascii) : ascii :=
  if is_upper c
     || ((192 <=? code c) && (code c <=? 222) && negb (code c =? 215))
  then ascii_of_N (N_of_ascii c + 32)
  else c.

Fixpoint str_lower (s : string) : string :=
  match s with
  | EmptyString => EmptyString
  | String c r => String (str_lower_char c) (str_lower r)
  end.

Fixpoint lstrip (s : string) : string :=
  match s with
  | EmptyString => EmptyString
  | String c r => if is_space c then lstrip r else s
  end.

Fixpoint rstrip (s : string) : string :=
  match s with
  | EmptyString => EmptyString
  | String c r =>
      match rstrip r with
      | EmptyString => if is_space c then EmptyString else String c EmptyString
      | r' => String c r'
      end
  end.

(** [str.strip()] *)
Definition strip (s : string) : string := rstrip (lstrip s).

(** [s.replace("_", "")] *)
Fixpoint remove_underscores (s : string) : string :=
  match s with
  | EmptyString => EmptyString
  | String c r =>
      if (c =? "_")%char then remove_underscores r
      else String c (remove_underscores r)
  end.

(** The longest prefix of decimal digits, and what follows it. *)
Fixpoint span_digits (s : string) : string * string :=
  match s with
  | EmptyString => (EmptyString, EmptyString)
  | String c r =>
      if is_digit c then
        let '(d, rest) := span_digits r in (String c d, rest)
      else (EmptyString, s)
  end.

(** [int(ds)] for a string of decimal digits, most significant first;
    [digits_value_from acc ds] continues from the value [acc]. *)
Fixpoint digits_value_from (acc : Z) (ds : string) : Z :=
  match ds with
  | EmptyString => acc
  | String c r => digits_value_from (10 * acc + digit_value c) r
  end.

Definition digits_value (ds : string) : Z := digits_value_from 0 ds.

(** Truthiness of an optional request parameter: present and not empty. *)
Definition truthy (p : option string) : option string :=
  match p with
  | Some EmptyString => None
  | other => other
  end.

(** ** Rounding *)

(** [n / d] rounded to the nearest integer, ties to the even one
    ([0 <= n], [0 < d]). *)
Definition round_half_even (n d : Z) : Z :=
  let q := n / d in
  let r := n mod d in
  if 2 * r <? d then q
  else if d <? 2 * r then q + 1
  else if Z.even q then q else q + 1.

(** Number of decimal digits of [n] ([len(str(n))] for [0 <= n]). *)
Fixpoint ndigits_fuel (fuel : nat) (n : Z) : Z :=
  match fuel with
  | O => 1
  | S f => if n <? 10 then 1 else 1 + ndigits_fuel f (n / 10)
  end.

Definition ndigits (n : Z) : Z := ndigits_fuel (Z.to_nat (Z.log2 n)) n.

(** ** Python's [decimal.Decimal] under the default context *)

Module Decimal.

Definition prec : Z := 28.
Definition Emax : Z := 999999.
Definition Emin : Z := -999999.
Definition Etiny : Z := Emin - prec + 1.
Definition Etop : Z := Emax - prec + 1.

(** A decimal is [(-1)^sign * coeff * 10^exp], an infinity or a NaN
    (the diagnostic payload of a NaN is not kept). *)
Inductive t : Type :=
| Finite (sign : bool) (coeff : Z) (exp : Z)
| Inf (sign : bool)
| NaN (sign : bool) (signaling : bool).

Definition of_int (n : Z) : t := Finite (n <? 0) (Z.abs n) 0.

Definition adjusted (coeff exp : Z) : Z := exp + ndigits coeff - 1.

(** *** Parsing: [Decimal(text)] *)

(** The bounds of the widest context ([decimal.MAX_EMAX],
    [decimal.MIN_ETINY]), in which the constructor converts the text. *)
Definition MAX_EMAX : Z := 999999999999999999.
Definition MIN_ETINY : Z := -1999999999999999997.

(** The conversion is exact: a number that the widest context would have
    to round or clamp is refused. *)
Definition representable (coeff exp : Z) : bool :=
  (MIN_ETINY <=? exp) && (adjusted coeff exp <=? MAX_EMAX).

Definition split_sign (s : string) : bool * string :=
  match s with
  | String "-" r => (true, r)
  | String "+" r => (false, r)
  | _ => (false, s)
  end.

(** The exponent part [E[+-]?\d+] followed by the end of the text;
    the empty text is exponent 0. *)
Definition parse_exponent (s : string) : option Z :=
  match s with
  | EmptyString => Some 0
  | String c r =>
      if (lower_char c =? "e")%char then
        let '(neg, r') := split_sign r in
        match span_digits r' with
        | (String d ds, EmptyString) =>
            let v := digits_value (String d ds) in
            Some (if neg then - v else v)
        | _ => None
        end
      else None
  end.

(** The numeric alternative: digits, an optional fraction, an optional
    exponent, with at least one digit before the exponent.  Returns the
    coefficient and the exponent. *)
Definition parse_number (s : string) : option (Z * Z) :=
  let '(intpart, rest) := span_digits s in
  let '(fracpart, rest') :=
    match rest with
    | String "." r => span_digits r
    | _ => (EmptyString, rest)
    end in
  match (intpart ++ fracpart)%string with
  | EmptyString => None
  | ds =>
      match parse_exponent rest' with
      | Some e => Some (digits_value ds, e - Z.of_nat (String.length fracpart))
      | None => None
      end
  end.

Definition is_infinity_text (s : string) : bool :=
  let l := lower s in (l =? "inf")%string || (l =? "infinity")%string.

(** [s?NaN\d*]: returns whether the NaN is signaling. *)
Definition parse_nan (s : string) : option bool :=
  let l := lower s in
  let '(signaling, body) :=
    match l with
    | String "s" r => (true, r)
    | _ => (false, l)
    end in
  match body with
  | String "n" (String "a" (String "n" diag)) =>
      match span_digits diag with
      | (_, EmptyString) => Some signaling
      | _ => None
      end
  | _ => None
  end.

(** [Decimal(text)]; [None] is the [InvalidOperation] raised by the
    constructor, for a text outside the syntax and for a number outside
    the widest context.  (The constructor also refuses a coefficient of
    more than 999999999999999999 digits; no text is that long.) *)
Definition of_string (text : string) : option t :=
  let '(sign, body) := split_sign (remove_underscores (strip text)) in
  match parse_number body with
  | Some (c, e) => if representable c e then Some (Finite sign c e) else None
  | None =>
      if is_infinity_text body then Some (Inf sign)
      else match parse_nan body with
           | Some sg => Some (NaN sign sg)
           | None => None
           end
  end.

(** *** Arithmetic *)

(** [Decimal._fix]: round to the context precision and exponent range. *)
Definition fix_ (d : t) : result t :=
  match d with
  | Finite s c e =>
      if c =? 0 then
        Return (Finite s 0 (Z.min (Z.max e Etiny) Emax))
      else
        let exp_min := ndigits c + e - prec in
        if Etop <? exp_min then Raise Overflow
        else
          let exp_min := if exp_min <? Etiny then Etiny else exp_min in
          if e <? exp_min then
            let digits := ndigits c + e - exp_min in
            let '(c1, e1) := if digits <? 0 then (1, exp_min - 1) else (c, e) in
            let coeff := round_half_even c1 (10 ^ (exp_min - e1)) in
            let '(coeff, exp_min) :=
              if prec <? ndigits coeff then (coeff / 10, exp_min + 1)
              else (coeff, exp_min) in
            if Etop <? exp_min then Raise Overflow
            else Return (Finite s coeff exp_min)
          else Return d
  | _ => Return d
  end.

(** [Decimal.__mul__] *)
Definition mul (a b : t) : result t :=
  match a, b with
  | NaN _ true, _ => Raise InvalidOperation
  | _, NaN _ true => Raise InvalidOperation
  | NaN _ false, _ => Return a
  | _, NaN _ false => Return b
  | Inf sa, Inf sb => Return (Inf (xorb sa sb))
  | Inf sa, Finite sb cb _ =>
      if cb =? 0 then Raise InvalidOperation else Return (Inf (xorb sa sb))
  | Finite sa ca _, Inf sb =>
      if ca =? 0 then Raise InvalidOperation else Return (Inf (xorb sa sb))
  | Finite sa ca ea, Finite sb cb eb =>
      fix_ (Finite (xorb sa sb) (ca * cb) (ea + eb))
  end.

(** [Decimal._rescale] with ROUND_HALF_EVEN, on a finite decimal. *)
Definition rescale (s : bool) (c e exp : Z) : t :=
  if c =? 0 then Finite s 0 exp
  else if exp <=? e then Finite s (c * 10 ^ (e - exp)) exp
  else
    let digits := ndigits c + e - exp in
    let '(c1, e1) := if digits <? 0 then (1, exp - 1) else (c, e) in
    Finite s (round_half_even c1 (10 ^ (exp - e1))) exp.

(** [Decimal.quantize] *)
Definition quantize (self exp : t) : result t :=
  match self, exp with
  | NaN _ true, _ => Raise InvalidOperation
  | _, NaN _ true => Raise InvalidOperation
  | NaN _ false, _ => Return self
  | _, NaN _ false => Return exp
  | Inf _, Inf _ => Return self
  | Inf _, Finite _ _ _ => Raise InvalidOperation
  | Finite _ _ _, Inf _ => Raise InvalidOperation
  | Finite s c e, Finite _ _ xe =>
      if negb ((Etiny <=? xe) && (xe <=? Emax)) then Raise InvalidOperation
      else if c =? 0 then fix_ (Finite s 0 xe)
      else if Emax <? adjusted c e then Raise InvalidOperation
      else if prec <? adjusted c e - xe + 1 then Raise InvalidOperation
      else
        match rescale s c e xe with
        | Finite s' c' e' =>
            if Emax <? adjusted c' e' then Raise InvalidOperation
            else if prec <? ndigits c' then Raise InvalidOperation
            else fix_ (Finite s' c' e')
        | other => Return other
        end
  end.

(** [Decimal.__int__] *)
Definition to_int (d : t) : result Z :=
  match d with
  | NaN _ _ => Raise (ValueError "cannot convert NaN to integer")
  | Inf _ => Raise OverflowError
  | Finite s c e =>
      let v := if 0 <=? e then c * 10 ^ e else c / 10 ^ (- e) in
      Return (if s then - v else v)
  end.

End Decimal.

(** ** Money representation ([main.py], lines 56-65) *)

(** The return expression, [int((value * 100).quantize(Decimal("1")))]. *)
Definition scale_to_cents (value : Decimal.t) : result Z :=
  scaled <- Decimal.mul value (Decimal.of_int 100) ;;
  quantized <- Decimal.quantize scaled (Decimal.of_int 1) ;;
  Decimal.to_int quantized.

Definition parse_amount_to_cents (amount_str : string) : result Z :=
  match Decimal.of_string amount_str with
  | None => Raise (ValueError "Invalid amount")
  | Some value => scale_to_cents value
  end.

(** ** Printing integers *)

Definition digit_char (d : Z) : ascii := ascii_of_N (Z.to_N (48 + d)).

(** The decimal digits of [n] in front of [acc], for [0 <= n]. *)
Fixpoint str_digits_fuel (fuel : nat) (n : Z) (acc : string) : string :=
  match fuel with
  | O => acc
  | S f =>
      let acc' := String (digit_char (n mod 10)) acc in
      if n <? 10 then acc' else str_digits_fuel f (n / 10) acc'
  end.

(** [str(n)] for [0 <= n]. *)
Definition str_nonneg (n : Z) : string :=
  str_digits_fuel (S (Z.to_nat (Z.log2 n))) n EmptyString.

(** ** Python's [float] (IEEE-754 binary64), as far as [cents / 100]
    and the [.2f] format need it *)

Module Float.

(** The finite value [(-1)^sign * mant * 2^expo]. *)
Record t : Type := mk { sign : bool; mant : Z; expo : Z }.

(** [floor (log2 (n / d))] for [0 < n], [0 < d]. *)
Definition floor_log2_ratio (n d : Z) : Z :=
  let k := Z.log2 n - Z.log2 d in
  let below := if 0 <=? k then n <? d * 2 ^ k else n * 2 ^ (- k) <? d in
  if below then k - 1 else k.

(** [n / (d * 2^shift)] rounded to the nearest integer, ties to even. *)
Definition round_scaled (n d shift : Z) : Z :=
  if 0 <=? shift then round_half_even n (d * 2 ^ shift)
  else round_half_even (n * 2 ^ (- shift)) d.

(** The binary64 value nearest to [n / d] (53-bit significand, least
    exponent -1074), for [0 <= n], [0 < d]. *)
Definition of_ratio (neg : bool) (n d : Z) : result t :=
  if n =? 0 then Return (mk neg 0 0)
  else
    let shift := Z.max (floor_log2_ratio n d - 52) (-1074) in
    let m := round_scaled n d shift in
    if 1024 <=? Z.log2 m + shift then Raise OverflowError
    else Return (mk neg m shift).

(** [a / b] on Python integers: the correctly rounded quotient. *)
Definition true_divide (a b : Z) : result t :=
  if b =? 0 then Raise ZeroDivisionError
  else of_ratio (xorb (a <? 0) (b <? 0)) (Z.abs a) (Z.abs b).

(** The value times 100, rounded to the nearest integer, ties to even:
    the digits the [.2f] format prints. *)
Definition hundredths (x : t) : Z :=
  if 0 <=? expo x then mant x * 2 ^ expo x * 100
  else round_half_even (mant x * 100) (2 ^ (- expo x)).

(** [format(x, ".2f")] *)
Definition format_2f (x : t) : string :=
  let h := hundredths x in
  ((if sign x then "-" else "") ++ str_nonneg (h / 100) ++ "."
     ++ String (digit_char (h mod 100 / 10))
          (String (digit_char (h mod 10)) EmptyString))%string.

End Float.

Definition cents_to_display (cents : Z) : result string :=
  x <- Float.true_divide cents 100 ;;
  Return (Float.format_2f x).

(** ** Calendar dates ([datetime.date]) *)

Module Date.

Record t : Type := mk { year : Z; month : Z; day : Z }.

Definition eqb (a b : t) : bool :=
  (year a =? year b) && (month a =? month b) && (day a =? day b).

(** [a <= b] *)
Definition leb (a b : t) : bool :=
  (year a <? year b) ||
  ((year a =? year b) &&
   ((month a <? month b) || ((month a =? month b) && (day a <=? day b)))).

(** [a < b] *)
Definition ltb (a b : t) : bool := negb (leb b a).

Definition is_leap (y : Z) : bool :=
  ((y mod 4 =? 0) && negb (y mod 100 =? 0)) || (y mod 400 =? 0).

Definition days_in_month (y m : Z) : Z :=
  if m =? 2 then (if is_leap y then 29 else 28)
  else if (m =? 4) || (m =? 6) || (m =? 9) || (m =? 11) then 30
  else 31.

(** [date(year, month, day)] *)
Definition make (y m d : Z) : result t :=
  if (1 <=? y) && (y <=? 9999) && (1 <=? m) && (m <=? 12)
     && (1 <=? d) && (d <=? days_in_month y m)
  then Return (mk y m d)
  else Raise (ValueError "date value out of range").

Definition in_range (lo hi : Z) (c : ascii) : bool :=
  (lo <=? digit_value c) && (digit_value c <=? hi) && is_digit c.

(** [%Y]: exactly four digits. *)
Definition parse_year (s : string) : option (Z * string) :=
  match s with
  | String a (String b (String c (String d r))) =>
      if is_digit a && is_digit b && is_digit c && is_digit d
      then Some (digits_value (String a (String b (String c (String d EmptyString)))), r)
      else None
  | _ => None
  end.

(** The alternatives of [%m], [1[0-2]|0[1-9]|[1-9]], in order: for each
    one that matches, the value and the rest of the text. *)
Definition month_alternatives (s : string) : list (Z * string) :=
  (match s with
   | String "1" (String b r) => if in_range 0 2 b then [(10 + digit_value b, r)] else []
   | _ => []
   end ++
   match s with
   | String "0" (String b r) => if in_range 1 9 b then [(digit_value b, r)] else []
   | _ => []
   end ++
   match s with
   | String a r => if in_range 1 9 a then [(digit_value a, r)] else []
   | _ => []
   end)%list.

(** The alternatives of [%d], [3[01]|[12]\d|0[1-9]|[1-9]| [1-9]]. *)
Definition day_alternatives (s : string) : list (Z * string) :=
  (match s with
   | String "3" (String b r) => if in_range 0 1 b then [(30 + digit_value b, r)] else []
   | _ => []
   end ++
   match s with
   | String a (String b r) =>
       if in_range 1 2 a && is_digit b then [(10 * digit_value a + digit_value b, r)] else []
   | _ => []
   end ++
   match s with
   | String "0" (String b r) => if in_range 1 9 b then [(digit_value b, r)] else []
   | _ => []
   end ++
   match s with
   | String a r => if in_range 1 9 a then [(digit_value a, r)] else []
   | _ => []
   end ++
   match s with
   | String " " (String b r) => if in_range 1 9 b then [(digit_value b, r)] else []
   | _ => []
   end)%list.

(** The first alternative after which the rest of the pattern matches. *)
Fixpoint first_match {A B : Type} (k : A -> option B) (alts : list A) : option B :=
  match alts with
  | [] => None
  | a :: rest => match k a with Some b => Some b | None => first_match k rest end
  end.

Definition expect_dash (s : string) : option string :=
  match s with
  | String "-" r => Some r
  | _ => None
  end.

(** The format [%Y-%m-%d] matched at the start of the text: the three
    fields and the unconverted rest. *)
Definition match_ymd (s : string) : option (Z * Z * Z * string) :=
  match parse_year s with
  | None => None
  | Some (y, r1) =>
      match expect_dash r1 with
      | None => None
      | Some r2 =>
          first_match
            (fun '(m, r3) =>
               match expect_dash r3 with
               | None => None
               | Some r4 =>
                   match day_alternatives r4 with
                   | (d, r5) :: _ => Some (y, m, d, r5)
                   | [] => None
                   end
               end)
            (month_alternatives r2)
      end
  end.

(** [datetime.strptime(text, "%Y-%m-%d").date()] *)
Definition strptime (text : string) : result t :=
  match match_ymd text with
  | None => Raise (ValueError "time data does not match format")
  | Some (y, m, d, EmptyString) => make y m d
  | Some _ => Raise (ValueError "unconverted data remains")
  end.

Definition pad2 (n : Z) : string :=
  String (digit_char (n / 10 mod 10)) (String (digit_char (n mod 10)) EmptyString).

(** [date.isoformat()] *)
Definition isoformat (d : t) : string :=
  (pad2 (year d / 100) ++ pad2 (year d) ++ "-" ++ pad2 (month d) ++ "-" ++ pad2 (day d))%string.

End Date.

(** ** Python's [int(text)] and SQL [LIKE] *)

(** White space for [int]: what C's [isspace] accepts, and the white
    space above 127, which the conversion replaces by a space first. *)
Definition is_int_space (c : ascii) : bool :=
  ((9 <=? code c) && (code c <=? 13)) || (code c =? 32)
  || (code c =? 133) || (code c =? 160).

Fixpoint skip_int_space (s : string) : string :=
  match s with
  | EmptyString => EmptyString
  | String c r => if is_int_space c then skip_int_space r else s
  end.

(** The run of digits and underscores at the head of the literal: its
    value, its number of digits and what follows it; [None] when two
    underscores meet or an underscore ends the run. *)
Fixpoint int_run (after_underscore : bool) (acc count : Z) (s : string)
  : option (Z * Z * string) :=
  match s with
  | EmptyString => if after_underscore then None else Some (acc, count, s)
  | String c r =>
      if is_digit c then int_run false (10 * acc + digit_value c) (count + 1) r
      else if (c =? "_")%char then
        if after_underscore then None else int_run true acc count r
      else if after_underscore then None else Some (acc, count, s)
  end.

Definition invalid_literal : exn :=
  ValueError "invalid literal for int() with base 10".

(** [int(text)] in base 10: white space, a sign, digits that single
    underscores may separate, white space.  A literal of more than 4300
    digits is refused (the default of [sys.set_int_max_str_digits]). *)
Definition py_int (text : string) : result Z :=
  let '(neg, body) := Decimal.split_sign (skip_int_space text) in
  match body with
  | String "_" _ => Raise invalid_literal
  | _ =>
      match int_run false 0 0 body with
      | None => Raise invalid_literal
      | Some (v, count, rest) =>
          if count =? 0 then Raise invalid_literal
          else if 4300 <? count then
            Raise (ValueError
                     "Exceeds the limit (4300 digits) for integer string conversion")
          else
            match skip_int_space rest with
            | EmptyString => Return (if neg then - v else v)
            | _ => Raise invalid_literal
            end
      end
  end.

(** SQLite compares the characters of a [LIKE] pattern and of the text
    without regard to the case of the letters A-Z. *)
Definition same_char (p c : ascii) : bool :=
  (lower_char p =? lower_char c)%char.

(** A pattern against a text: [%] matches any run of characters, [_]
    any single character, any other character itself. *)
Fixpoint like_chars (pattern : string) : string -> bool :=
  match pattern with
  | EmptyString => fun text => match text with EmptyString => true | _ => false end
  | String p rest =>
      if (p =? "%")%char then
        fix star (text : string) : bool :=
          like_chars rest text ||
          match text with
          | EmptyString => false
          | String _ t => star t
          end
      else
        fun text =>
          match text with
          | EmptyString => false
          | String c t => ((p =? "_")%char || same_char p c) && like_chars rest t
          end
  end.

(** The text up to its first NUL character. *)
Fixpoint c_string (s : string) : string :=
  match s with
  | EmptyString => EmptyString
  | String c r => if code c =? 0 then EmptyString else String c (c_string r)
  end.

(** [text LIKE pattern], without an escape character.  SQLite reads both
    operands as C strings: each ends at its first NUL character. *)
Definition like (pattern text : string) : bool :=
  like_chars (c_string pattern) (c_string text).

(** [coalesce(column, "")] *)
Definition coalesce (column : option string) : string :=
  match column with
  | Some s => s
  | None => EmptyString
  end.

(** ** Domain model ([models.py]) *)

Module User.
Record t : Type := mk { id : Z; org_id : Z; name : string; email : string; role : string }.
End User.

Module Account.
Record t : Type := mk { id : Z; org_id : Z; name : string; type : string; currency : string }.
End Account.

Module Category.
Record t : Type := mk { id : Z; org_id : Z; name : string; type : string }.
End Category.

Module Transaction.
Record t : Type := mk {
  id : Z;
  org_id : Z;
  user_id : Z;
  account_id : Z;
  category_id : Z;
  amount_cents : Z;
  type : string;
  occurred_at : Date.t;
  note : option string;
  tags : option string
}.
End Transaction.

Module Budget.
Record t : Type := mk {
  id : Z;
  org_id : Z;
  name : string;
  period : string;
  category_id : option Z;
  amount_cents : Z;
  start_date : Date.t;
  end_date : Date.t
}.
End Budget.

(** The database session: one list of rows per table. *)
Record DB : Type := mkDB {
  users : list User.t;
  accounts : list Account.t;
  categories : list Category.t;
  transactions : list Transaction.t;
  budgets : list Budget.t
}.

(** The primary key the store gives to the next inserted row. *)
Definition next_id {A : Type} (id : A -> Z) (rows : list A) : Z :=
  1 + fold_right (fun r m => Z.max (id r) m) 0 rows.

(** What a handler hands back when it does not raise. *)
Inductive response (A : Type) : Type :=
| Redirect (location : string)
| Page (context : A).

Arguments Redirect {A} location.
Arguments Page {A} context.

(** ** Access policy ([main.py], lines 39-53) *)

Definition ROLE_ADMIN : string := "admin".
Definition ROLE_USER : string := "user".
Definition ROLE_READONLY : string := "readonly".

Definition require_role (user : User.t) (allowed : list string) : result unit :=
  if existsb (String.eqb (User.role user)) allowed then Return tt
  else Raise (HTTPException 403 "Access denied").

(** ** Query building blocks *)

(** [db.query(Transaction).filter(Transaction.org_id == user.org_id)],
    narrowed to the user's own rows for [ROLE_USER]: the opening lines of
    [dashboard], [transactions_list], [reports_page] and [export_csv]. *)
Definition scoped_query (db : DB) (user : User.t) : list Transaction.t :=
  let query :=
    filter (fun tx => Transaction.org_id tx =? User.org_id user) (transactions db) in
  if (User.role user =? ROLE_USER)%string
  then filter (fun tx => Transaction.user_id tx =? User.id user) query
  else query.

(** [with_entities(func.coalesce(func.sum(Transaction.amount_cents), 0)).scalar()] *)
Definition sum_amount_cents (query : list Transaction.t) : Z :=
  fold_right (fun tx total => Transaction.amount_cents tx + total) 0 query.

Definition of_type (ty : string) (query : list Transaction.t) : list Transaction.t :=
  filter (fun tx => (Transaction.type tx =? ty)%string) query.

Definition since (start : Date.t) (query : list Transaction.t) : list Transaction.t :=
  filter (fun tx => Date.leb start (Transaction.occurred_at tx)) query.

(** Stable insertion: [x] goes in front of the first row [y] that
    [ahead y x] does not keep in front of it. *)
Fixpoint insert_sorted {A : Type} (ahead : A -> A -> bool) (x : A) (l : list A) : list A :=
  match l with
  | [] => [x]
  | y :: rest => if ahead y x then y :: insert_sorted ahead x rest else x :: l
  end.

Definition sort_by {A : Type} (ahead : A -> A -> bool) (l : list A) : list A :=
  fold_right (insert_sorted ahead) [] l.

(** [order_by(Transaction.occurred_at.desc())]: a row moves ahead of an
    earlier-inserted one only when its date is strictly later. *)
Definition order_by_occurred_at_desc (query : list Transaction.t) : list Transaction.t :=
  sort_by
    (fun y x => Date.ltb (Transaction.occurred_at x) (Transaction.occurred_at y))
    query.

(** The keyword clause shared by the listing and the export: the
    pattern is built by Python ([keyword.lower()]), the columns are
    lowered by SQL.  (SQLite refuses a pattern of more than 50000 bytes
    when it evaluates the clause on a row; the properties of the clause
    are stated for keywords below that length.) *)
Definition keyword_clause (keyword : string) (tx : Transaction.t) : bool :=
  let pattern := ("%" ++ str_lower keyword ++ "%")%string in
  like pattern (lower (coalesce (Transaction.note tx)))
  || like pattern (lower (coalesce (Transaction.tags tx))).

(** The request's query string. *)
Record query_params : Type := mkParams {
  start_date : option string;
  end_date : option string;
  category_id : option string;
  account_id : option string;
  min_amount : option string;
  max_amount : option string;
  q : option string
}.

(** [try: d = strptime(raw) except ValueError: d = None], under [if raw:]. *)
Definition parse_date_param (raw : option string) : result (option Date.t) :=
  match truthy raw with
  | None => Return None
  | Some text =>
      match Date.strptime text with
      | Return d => Return (Some d)
      | Raise (ValueError _) => Return None
      | Raise e => Raise e
      end
  end.

Definition clause : Type := Transaction.t -> bool.

(** [if raw: filters.append(column == int(raw))] *)
Definition id_clause (raw : option string) (column : Transaction.t -> Z)
  : result (list clause) :=
  match truthy raw with
  | None => Return []
  | Some text => v <- py_int text ;; Return [fun tx => column tx =? v]
  end.

(** [if raw: try: filters.append(cmp(amount_cents, parse_amount_to_cents(raw)))
    except ValueError: pass] *)
Definition amount_clause (raw : option string) (cmp : Z -> Z -> bool)
  : result (list clause) :=
  match truthy raw with
  | None => Return []
  | Some text =>
      match parse_amount_to_cents text with
      | Return bound => Return [fun tx => cmp (Transaction.amount_cents tx) bound]
      | Raise (ValueError _) => Return []
      | Raise e => Raise e
      end
  end.

Definition date_clause (d : option Date.t) (cmp : Date.t -> Date.t -> bool)
  : list clause :=
  match d with
  | Some d => [fun tx => cmp (Transaction.occurred_at tx) d]
  | None => []
  end.

Definition keyword_clauses (raw : option string) : list clause :=
  match truthy raw with
  | Some keyword => [keyword_clause keyword]
  | None => []
  end.

(** [and_] applied to the unpacked list of filters. *)
Definition and_ (filters : list clause) (tx : Transaction.t) : bool :=
  forallb (fun f => f tx) filters.

(** [if filters: query = query.filter(and_ ...)] *)
Definition apply_filters (filters : list clause) (query : list Transaction.t)
  : list Transaction.t :=
  match filters with
  | [] => query
  | _ => filter (and_ filters) query
  end.

(** ** Transaction listing ([transactions_list], lines 230-323) *)

(** Lines 249-286: the list of filters built from the query string. *)
Definition listing_filters (params : query_params) : result (list clause) :=
  start <- parse_date_param (start_date params) ;;
  end_ <- parse_date_param (end_date params) ;;
  let f_start := date_clause start (fun occurred d => Date.leb d occurred) in
  let f_end := date_clause end_ (fun occurred d => Date.leb occurred d) in
  f_category <- id_clause (category_id params) Transaction.category_id ;;
  f_account <- id_clause (account_id params) Transaction.account_id ;;
  f_min <- amount_clause (min_amount params) Z.geb ;;
  f_max <- amount_clause (max_amount params) Z.leb ;;
  Return (f_start ++ f_end ++ f_category ++ f_account ++ f_min ++ f_max
            ++ keyword_clauses (q params))%list.

(** Lines 245-289: the scoped and filtered query. *)
Definition listing_query (db : DB) (user : User.t) (params : query_params)
  : result (list Transaction.t) :=
  filters <- listing_filters params ;;
  Return (apply_filters filters (scoped_query db user)).

Record listing_context : Type := mkListing {
  listing_transactions : list Transaction.t;
  listing_income_cents : Z;
  listing_expense_cents : Z;
  listing_income : string;
  listing_expense : string;
  listing_balance : string
}.

(** The page context keeps the two sums next to their display text; the
    lists of categories and accounts for the filter form are left out. *)
Definition transactions_list (db : DB) (user : option User.t) (params : query_params)
  : result (response listing_context) :=
  match user with
  | None => Return (Redirect "/login")
  | Some user =>
      query <- listing_query db user params ;;
      let transactions := firstn 500 (order_by_occurred_at_desc query) in
      let income := sum_amount_cents (of_type "income" query) in
      let expense := sum_amount_cents (of_type "expense" query) in
      income_text <- cents_to_display income ;;
      expense_text <- cents_to_display expense ;;
      balance_text <- cents_to_display (income - expense) ;;
      Return (Page (mkListing transactions income expense
                      income_text expense_text balance_text))
  end.

(** ** CSV export ([export_csv], lines 617-694) *)

(** [if raw: try: d = strptime(raw); query = query.filter(cmp) except
    ValueError: pass] *)
Definition export_date_step (raw : option string) (cmp : Date.t -> Date.t -> bool)
  (query : list Transaction.t) : result (list Transaction.t) :=
  match truthy raw with
  | None => Return query
  | Some text =>
      match Date.strptime text with
      | Return d => Return (filter (fun tx => cmp (Transaction.occurred_at tx) d) query)
      | Raise (ValueError _) => Return query
      | Raise e => Raise e
      end
  end.

Definition export_id_step (raw : option string) (column : Transaction.t -> Z)
  (query : list Transaction.t) : result (list Transaction.t) :=
  match truthy raw with
  | None => Return query
  | Some text => v <- py_int text ;; Return (filter (fun tx => column tx =? v) query)
  end.

(** Lines 623-658: the rows the export writes, in order. *)
Definition export_query (db : DB) (user : User.t) (params : query_params)
  : result (list Transaction.t) :=
  let query := scoped_query db user in
  query <- export_date_step (start_date params) (fun occurred d => Date.leb d occurred) query ;;
  query <- export_date_step (end_date params) (fun occurred d => Date.leb occurred d) query ;;
  query <- export_id_step (category_id params) Transaction.category_id query ;;
  query <- export_id_step (account_id params) Transaction.account_id query ;;
  let query :=
    match truthy (q params) with
    | Some keyword => filter (keyword_clause keyword) query
    | None => query
    end in
  Return (order_by_occurred_at_desc query).

(** A relationship attribute: the name of the row with the given key;
    a missing row is [None.name]. *)
Definition related_name {A : Type} (id : A -> Z) (name : A -> string)
  (rows : list A) (key : Z) : result string :=
  match find (fun r => id r =? key) rows with
  | Some r => Return (name r)
  | None => Raise AttributeError
  end.

Definition export_header : list string :=
  ["date"; "type"; "amount"; "category"; "account"; "note"; "tags"; "user"].

Definition export_row (db : DB) (tx : Transaction.t) : result (list string) :=
  amount <- cents_to_display (Transaction.amount_cents tx) ;;
  category <- related_name Category.id Category.name (categories db)
                (Transaction.category_id tx) ;;
  account <- related_name Account.id Account.name (accounts db)
               (Transaction.account_id tx) ;;
  user <- related_name User.id User.name (users db) (Transaction.user_id tx) ;;
  Return [Date.isoformat (Transaction.occurred_at tx); Transaction.type tx; amount;
          category; account; coalesce (Transaction.note tx);
          coalesce (Transaction.tags tx); user].

Fixpoint map_result {A B : Type} (f : A -> result B) (l : list A) : result (list B) :=
  match l with
  | [] => Return []
  | x :: rest => y <- f x ;; ys <- map_result f rest ;; Return (y :: ys)
  end.

(** The rows handed to the CSV writer, header first. *)
Definition export_csv (db : DB) (user : option User.t) (params : query_params)
  : result (response (list (list string))) :=
  match user with
  | None => Return (Redirect "/login")
  | Some user =>
      transactions <- export_query db user params ;;
      rows <- map_result (export_row db) transactions ;;
      Return (Page (export_header :: rows))
  end.

(** ** Dashboard and budgets ([dashboard], [budgets_page]) *)

Definition month_start (today : Date.t) : Date.t :=
  Date.mk (Date.year today) (Date.month today) 1.

Definition year_start (today : Date.t) : Date.t :=
  Date.mk (Date.year today) 1 1.

(** Lines 102-113: the month's income and expense over the scoped query. *)
Definition dashboard_month_sums (db : DB) (user : User.t) (today : Date.t) : Z * Z :=
  let month_query := since (month_start today) (scoped_query db user) in
  (sum_amount_cents (of_type "income" month_query),
   sum_amount_cents (of_type "expense" month_query)).

(** Truthiness of a nullable integer column: neither [None] nor 0. *)
Definition truthy_int (v : option Z) : option Z :=
  match v with
  | Some n => if n =? 0 then None else Some n
  | None => None
  end.

(** Lines 118-125 and 465-472: the rows a budget's spend is summed over. *)
Definition budget_query (db : DB) (user : User.t) (budget : Budget.t)
  : list Transaction.t :=
  let query :=
    filter
      (fun tx =>
         (Transaction.org_id tx =? User.org_id user)
         && (Transaction.type tx =? "expense")%string
         && Date.leb (Budget.start_date budget) (Transaction.occurred_at tx)
         && Date.leb (Transaction.occurred_at tx) (Budget.end_date budget))
      (transactions db) in
  match truthy_int (Budget.category_id budget) with
  | Some c => filter (fun tx => Transaction.category_id tx =? c) query
  | None => query
  end.

Definition budget_spent (db : DB) (user : User.t) (budget : Budget.t) : Z :=
  sum_amount_cents (budget_query db user budget).

Record budget_summary : Type := mkSummary {
  summary_budget : Budget.t;
  summary_spent : Z;
  summary_remaining : Z
}.

Definition org_budgets (db : DB) (user : User.t) : list Budget.t :=
  filter (fun b => Budget.org_id b =? User.org_id user) (budgets db).

Definition budget_summaries (db : DB) (user : User.t) : list budget_summary :=
  map (fun b =>
         let spent := budget_spent db user b in
         mkSummary b spent (Budget.amount_cents b - spent))
      (org_budgets db user).

Record dashboard_context : Type := mkDashboard {
  dashboard_income : string;
  dashboard_expense : string;
  dashboard_balance : string;
  dashboard_budgets : list budget_summary
}.

Definition dashboard (db : DB) (user : option User.t) (today : Date.t)
  : result (response dashboard_context) :=
  match user with
  | None => Return (Redirect "/login")
  | Some user =>
      let '(income, expense) := dashboard_month_sums db user today in
      let summaries := budget_summaries db user in
      income_text <- cents_to_display income ;;
      expense_text <- cents_to_display expense ;;
      balance_text <- cents_to_display (income - expense) ;;
      Return (Page (mkDashboard income_text expense_text balance_text summaries))
  end.

(** [budgets_page]: budgets newest first, each with its spend. *)
Definition budgets_page (db : DB) (user : option User.t)
  : result (response (list (Budget.t * Z))) :=
  match user with
  | None => Return (Redirect "/login")
  | Some user =>
      let ordered :=
        sort_by (fun y x => Budget.id x <? Budget.id y) (org_budgets db user) in
      Return (Page (map (fun b => (b, budget_spent db user b)) ordered))
  end.

(** ** Reports ([reports_page], lines 517-573) *)

(** [sum_for_range] over [base_query]. *)
Definition sum_for_range (base_query : list Transaction.t) (start : Date.t) : Z * Z :=
  (sum_amount_cents
     (filter (fun tx => Date.leb start (Transaction.occurred_at tx)
                        && (Transaction.type tx =? "income")%string) base_query),
   sum_amount_cents
     (filter (fun tx => Date.leb start (Transaction.occurred_at tx)
                        && (Transaction.type tx =? "expense")%string) base_query)).

(** Lines 548-554: [Category JOIN Transaction] on the category key, with
    the three conditions of the filter; one (name, amount) pair per
    joined row. *)
Definition breakdown_rows (db : DB) (user : User.t) (today : Date.t)
  : list (string * Z) :=
  flat_map
    (fun c =>
       map (fun tx => (Category.name c, Transaction.amount_cents tx))
         (filter
            (fun tx =>
               (Transaction.category_id tx =? Category.id c)
               && (Transaction.org_id tx =? User.org_id user)
               && (Transaction.type tx =? "expense")%string
               && Date.leb (month_start today) (Transaction.occurred_at tx))
            (transactions db)))
    (categories db).

Fixpoint add_to_group (name : string) (amount : Z) (groups : list (string * Z))
  : list (string * Z) :=
  match groups with
  | [] => [(name, amount)]
  | (n, total) :: rest =>
      if (n =? name)%string then (n, total + amount) :: rest
      else (n, total) :: add_to_group name amount rest
  end.

(** [group_by(Category.name)] with the sum of each group. *)
Definition group_by_name (rows : list (string * Z)) : list (string * Z) :=
  fold_left (fun groups '(name, amount) => add_to_group name amount groups) rows [].

(** Lines 547-558. *)
Definition category_breakdown (db : DB) (user : User.t) (today : Date.t)
  : list (string * Z) :=
  sort_by (fun y x => snd x <? snd y) (group_by_name (breakdown_rows db user today)).

Record reports_context : Type := mkReports {
  month_income : string;
  month_expense : string;
  month_balance : string;
  year_income : string;
  year_expense : string;
  year_balance : string;
  report_breakdown : list (string * Z)
}.

Definition reports_page (db : DB) (user : option User.t) (today : Date.t)
  : result (response reports_context) :=
  match user with
  | None => Return (Redirect "/login")
  | Some user =>
      let base_query := scoped_query db user in
      let '(m_income, m_expense) := sum_for_range base_query (month_start today) in
      let '(y_income, y_expense) := sum_for_range base_query (year_start today) in
      let breakdown := category_breakdown db user today in
      mi <- cents_to_display m_income ;;
      me <- cents_to_display m_expense ;;
      mb <- cents_to_display (m_income - m_expense) ;;
      yi <- cents_to_display y_income ;;
      ye <- cents_to_display y_expense ;;
      yb <- cents_to_display (y_income - y_expense) ;;
      Return (Page (mkReports mi me mb yi ye yb breakdown))
  end.

(** ** Write paths ([transaction_create], [budgets_create]) *)

(** [text or None] *)
Definition or_none (text : string) : option string :=
  match text with
  | EmptyString => None
  | _ => Some text
  end.

Definition add_transaction (db : DB) (tx : Transaction.t) : DB :=
  mkDB (users db) (accounts db) (categories db) (transactions db ++ [tx]) (budgets db).

Definition add_budget (db : DB) (b : Budget.t) : DB :=
  mkDB (users db) (accounts db) (categories db) (transactions db) (budgets db ++ [b]).

Definition add_user (db : DB) (u : User.t) : DB :=
  mkDB (users db ++ [u]) (accounts db) (categories db) (transactions db) (budgets db).

(** What an [INTEGER] column holds; [None] is SQL [NULL]. *)
Definition fits_int64 (n : Z) : bool :=
  (-9223372036854775808 <=? n) && (n <=? 9223372036854775807).

Definition fits_int64_or_null (v : option Z) : bool :=
  match v with
  | Some n => fits_int64 n
  | None => true
  end.

Record transaction_form : Type := mkTxForm {
  form_amount : string;
  form_type : string;
  form_occurred_at : string;
  form_category_id : Z;
  form_account_id : Z;
  form_note : string;
  form_tags : string
}.

(** Returns the tables after the request and the handler's outcome; the
    tables change only when [db.commit()] succeeds, and it fails with
    [OverflowError] when an integer of the new row does not fit its
    column. *)
Definition transaction_create (db : DB) (user : option User.t) (form : transaction_form)
  : DB * result (response unit) :=
  match user with
  | None => (db, Return (Redirect "/login"))
  | Some user =>
      if (User.role user =? ROLE_READONLY)%string
      then (db, Raise (HTTPException 403 "Read-only"))
      else
        match parse_amount_to_cents (form_amount form) with
        | Raise e => (db, Raise e)
        | Return amount_cents =>
            match Date.strptime (form_occurred_at form) with
            | Raise e => (db, Raise e)
            | Return occurred =>
                let tx :=
                  Transaction.mk (next_id Transaction.id (transactions db))
                    (User.org_id user) (User.id user)
                    (form_account_id form) (form_category_id form)
                    amount_cents (form_type form) occurred
                    (or_none (form_note form)) (or_none (form_tags form)) in
                if fits_int64 (form_account_id form)
                   && fits_int64 (form_category_id form)
                   && fits_int64 amount_cents
                then (add_transaction db tx, Return (Redirect "/transactions"))
                else (db, Raise OverflowError)
            end
        end
  end.

Record budget_form : Type := mkBudgetForm {
  form_name : string;
  form_period : string;
  form_budget_amount : string;
  form_start_date : string;
  form_end_date : string;
  form_budget_category_id : option Z
}.

Definition budgets_create (db : DB) (user : option User.t) (form : budget_form)
  : DB * result (response unit) :=
  match user with
  | None => (db, Return (Redirect "/login"))
  | Some user =>
      if (User.role user =? ROLE_READONLY)%string
      then (db, Raise (HTTPException 403 "Read-only"))
      else
        match parse_amount_to_cents (form_budget_amount form) with
        | Raise e => (db, Raise e)
        | Return amount_cents =>
            match Date.strptime (form_start_date form) with
            | Raise e => (db, Raise e)
            | Return start =>
                match Date.strptime (form_end_date form) with
                | Raise e => (db, Raise e)
                | Return end_ =>
                    let budget :=
                      Budget.mk (next_id Budget.id (budgets db)) (User.org_id user)
                        (form_name form) (form_period form)
                        (form_budget_category_id form) amount_cents start end_ in
                    if fits_int64_or_null (form_budget_category_id form)
                       && fits_int64 amount_cents
                    then (add_budget db budget, Return (Redirect "/budgets"))
                    else (db, Raise OverflowError)
                end
            end
        end
  end.

(** ** The remaining handlers ([main.py]) and the constraints of the
    schema ([models.py]) *)

Module Organization.
Record t : Type := mk { id : Z; name : string }.
End Organization.

(** What a request that writes ends in: the handler's own result, or the
    [IntegrityError] that [flush] or [commit] raises when a row breaks a
    [UniqueConstraint] of the schema. *)
Inductive outcome (A : Type) : Type :=
| Handled (r : result A)
| IntegrityError.

Arguments Handled {A} r.
Arguments IntegrityError {A}.

(** [uq_user_email_org] *)
Definition user_email_taken (db : DB) (org_id : Z) (email : string) : bool :=
  existsb (fun u => (User.org_id u =? org_id) && (User.email u =? email)%string)
    (users db).

(** [users_create], lines 590-614: the new user's role is the submitted
    text as it is. *)
Definition users_create (db : DB) (user : option User.t) (name email role : string)
  : DB * outcome (response unit) :=
  match user with
  | None => (db, Handled (Return (Redirect "/login")))
  | Some user =>
      match require_role user [ROLE_ADMIN] with
      | Raise e => (db, Handled (Raise e))
      | Return _ =>
          if user_email_taken db (User.org_id user) email then (db, IntegrityError)
          else
            (add_user db (User.mk (next_id User.id (users db)) (User.org_id user)
                            name email role),
             Handled (Return (Redirect "/admin/users")))
      end
  end.

(** [get_current_user]: the session's [user_id], when truthy, looked up by
    primary key. *)
Definition get_current_user (session : option Z) (db : DB) : option User.t :=
  match truthy_int session with
  | None => None
  | Some user_id => find (fun u => User.id u =? user_id) (users db)
  end.

Definition add_category (db : DB) (c : Category.t) : DB :=
  mkDB (users db) (accounts db) (categories db ++ [c]) (transactions db) (budgets db).

Definition add_account (db : DB) (a : Account.t) : DB :=
  mkDB (users db) (accounts db ++ [a]) (categories db) (transactions db) (budgets db).

Definition org_categories (db : DB) (org_id : Z) : list Category.t :=
  filter (fun c => Category.org_id c =? org_id) (categories db).

Definition org_accounts (db : DB) (org_id : Z) : list Account.t :=
  filter (fun a => Account.org_id a =? org_id) (accounts db).

Definition org_users (db : DB) (org_id : Z) : list User.t :=
  filter (fun u => User.org_id u =? org_id) (users db).

(** The [defaults] of [seed_defaults]. *)
Definition default_categories : list (string * string) :=
  [("Salary", "income"); ("Bonus", "income"); ("Food", "expense");
   ("Rent", "expense"); ("Transport", "expense")].

(** [seed_defaults(db, org)], lines 74-86. *)
Definition seed_defaults (db : DB) (org_id : Z) : DB :=
  let db :=
    match org_categories db org_id with
    | [] =>
        fold_left
          (fun d '(name, ctype) =>
             add_category d
               (Category.mk (next_id Category.id (categories d)) org_id name ctype))
          default_categories db
    | _ => db
    end in
  match org_accounts db org_id with
  | [] =>
      add_account db
        (Account.mk (next_id Account.id (accounts db)) org_id "Cash" "cash" "CNY")
  | _ => db
  end.

(** [order_by(X.name)], bytewise. *)
Definition order_by_name {A : Type} (name : A -> string) (rows : list A) : list A :=
  sort_by (fun y x => (name y <? name x)%string) rows.

(** [accounts_page], lines 387-398. *)
Definition accounts_page (db : DB) (user : option User.t)
  : result (response (list Account.t)) :=
  match user with
  | None => Return (Redirect "/login")
  | Some user =>
      _ <- require_role user [ROLE_ADMIN] ;;
      Return (Page (order_by_name Account.name (org_accounts db (User.org_id user))))
  end.

(** [uq_account_name_org] *)
Definition account_name_taken (db : DB) (org_id : Z) (name : string) : bool :=
  existsb (fun a => (Account.org_id a =? org_id) && (Account.name a =? name)%string)
    (accounts db).

(** [accounts_create], lines 401-416. *)
Definition accounts_create (db : DB) (user : option User.t)
  (name type currency : string) : DB * outcome (response unit) :=
  match user with
  | None => (db, Handled (Return (Redirect "/login")))
  | Some user =>
      match require_role user [ROLE_ADMIN] with
      | Raise e => (db, Handled (Raise e))
      | Return _ =>
          if account_name_taken db (User.org_id user) name then (db, IntegrityError)
          else
            (add_account db
               (Account.mk (next_id Account.id (accounts db)) (User.org_id user)
                  name type currency),
             Handled (Return (Redirect "/accounts")))
      end
  end.

(** [categories_page], lines 419-432. *)
Definition categories_page (db : DB) (user : option User.t)
  : result (response (list Category.t)) :=
  match user with
  | None => Return (Redirect "/login")
  | Some user =>
      _ <- require_role user [ROLE_ADMIN] ;;
      Return (Page (order_by_name Category.name (org_categories db (User.org_id user))))
  end.

(** [uq_category_name_org] *)
Definition category_taken (db : DB) (org_id : Z) (name type : string) : bool :=
  existsb
    (fun c => (Category.org_id c =? org_id) && (Category.name c =? name)%string
              && (Category.type c =? type)%string)
    (categories db).

(** [categories_create], lines 435-449. *)
Definition categories_create (db : DB) (user : option User.t) (name type : string)
  : DB * outcome (response unit) :=
  match user with
  | None => (db, Handled (Return (Redirect "/login")))
  | Some user =>
      match require_role user [ROLE_ADMIN] with
      | Raise e => (db, Handled (Raise e))
      | Return _ =>
          if category_taken db (User.org_id user) name type then (db, IntegrityError)
          else
            (add_category db
               (Category.mk (next_id Category.id (categories db)) (User.org_id user)
                  name type),
             Handled (Return (Redirect "/categories")))
      end
  end.

(** [users_page], lines 576-587. *)
Definition users_page (db : DB) (user : option User.t)
  : result (response (list User.t)) :=
  match user with
  | None => Return (Redirect "/login")
  | Some user =>
      _ <- require_role user [ROLE_ADMIN] ;;
      Return (Page (order_by_name User.name (org_users db (User.org_id user))))
  end.

Record transaction_form_context : Type := mkFormContext {
  form_categories : list Category.t;
  form_accounts : list Account.t;
  form_today : string
}.

(** [transaction_new_page], lines 326-349. *)
Definition transaction_new_page (db : DB) (user : option User.t) (today : Date.t)
  : result (response transaction_form_context) :=
  match user with
  | None => Return (Redirect "/login")
  | Some user =>
      if (User.role user =? ROLE_READONLY)%string
      then Raise (HTTPException 403 "Read-only")
      else
        Return (Page (mkFormContext
                        (order_by_name Category.name
                           (org_categories db (User.org_id user)))
                        (order_by_name Account.name
                           (org_accounts db (User.org_id user)))
                        (Date.isoformat today)))
  end.

(** The organizations next to the session's other tables. *)
Record App : Type := mkApp {
  organizations : list Organization.t;
  store : DB
}.

(** [register], lines 199-227: returns the tables, the session's
    [user_id] and the outcome.  The password only reaches the hash column,
    which the model of [User] does not keep. *)
Definition register (app : App) (session : option Z)
  (org_name name email password : string)
  : App * option Z * outcome (response unit) :=
  match users (store app) with
  | _ :: _ => (app, session, Handled (Return (Redirect "/login")))
  | [] =>
      if existsb (fun o => (Organization.name o =? org_name)%string) (organizations app)
      then (app, session, IntegrityError)
      else
        let org :=
          Organization.mk (next_id Organization.id (organizations app)) org_name in
        let admin :=
          User.mk (next_id User.id (users (store app))) (Organization.id org)
            name email ROLE_ADMIN in
        (mkApp (organizations app ++ [org])
           (seed_defaults (add_user (store app) admin) (Organization.id org)),
         Some (User.id admin),
         Handled (Return (Redirect "/")))
  end.

(** [logout]: the session is cleared. *)
Definition logout (session : option Z) : option Z * response unit :=
  (None, Redirect "/login").

(** ** Notions used to state the properties *)

(** [k] occurs in [s] as a run of consecutive characters. *)
Definition is_substring (k s : string) : Prop :=
  exists pre post, s = (pre ++ k ++ post)%string.

(** No [LIKE] wildcard occurs in the text. *)
Fixpoint no_wildcard (k : string) : bool :=
  match k with
  | EmptyString => true
  | String c r => negb (c =? "%")%char && negb (c =? "_")%char && no_wildcard r
  end.

(** No NUL character occurs in the text. *)
Fixpoint no_nul (s : string) : bool :=
  match s with
  | EmptyString => true
  | String c r => negb (code c =? 0) && no_nul r
  end.

(** Every character of the text is an ASCII character. *)
Fixpoint ascii_text (s : string) : bool :=
  match s with
  | EmptyString => true
  | String c r => (code c <? 128) && ascii_text r
  end.

(** [r] is the integer nearest to [num / den], with ties going to the
    even integer ([0 < den]). *)
Definition nearest_even (num den r : Z) : Prop :=
  2 * Z.abs (r * den - num) <= den /\
  (2 * Z.abs (r * den - num) = den -> Z.even r = true).

Fixpoint all_digits (s : string) : bool :=
  match s with
  | EmptyString => true
  | String c r => is_digit c && all_digits r
  end.

(** A plain decimal numeral: an optional sign, then digits with an
    optional fractional part, at least one digit in all. *)
Definition plain_numeral (s : string) : bool :=
  let '(_, body) := Decimal.split_sign s in
  let '(intpart, rest) := span_digits body in
  match rest with
  | EmptyString => negb (intpart =? "")%string
  | String "." frac => all_digits frac && negb ((intpart ++ frac) =? "")%string
  | _ => false
  end.

(** The number [cents / 100] written with exactly two fractional digits
    and no grouping separators, by integer arithmetic. *)
Definition two_decimal_form (cents : Z) : string :=
  let a := Z.abs cents in
  let negative := cents <? 0 in
  ((if negative then "-" else "") ++ str_nonneg (a / 100) ++ "."
     ++ String (digit_char (a mod 100 / 10))
          (String (digit_char (a mod 10)) EmptyString))%string.

(** The number a decimal text denotes, in cents, when that is a whole
    number of cents. *)
Definition exact_cents (s : string) : option Z :=
  match Decimal.of_string s with
  | Some (Decimal.Finite sign c e) =>
      if -2 <=? e then Some ((if sign then -1 else 1) * (c * 10 ^ (e + 2)))
      else None
  | _ => None
  end.

(** The normalized two-decimal form of a decimal text with at most two
    fractional digits: the two-decimal writing of the number it denotes. *)
Definition normalizedTwoDecimalForm (s : string) : option string :=
  match exact_cents s with
  | Some c => Some (two_decimal_form c)
  | None => None
  end.

(** Characters that [strip] and the removal of underscores leave alone. *)
Definition plain_char (c : ascii) : bool :=
  negb (is_space c) && negb (c =? "_")%char.

Fixpoint plain_text (s : string) : bool :=
  match s with
  | EmptyString => true
  | String c r => plain_char c && plain_text r
  end.

(** What the conversion to cents can raise once the constructor has
    accepted the text. *)
Definition arithmetic_error (e : exn) : Prop :=
  e = InvalidOperation \/ e = Overflow \/ e = OverflowError
  \/ e = ValueError "cannot convert NaN to integer".

(** The bound, in cents, below which [cents / 100] keeps both decimals
    exact in binary64. *)
Definition display_range : Z := 100 * 2 ^ 46.

(** ** Sample data *)

Module Sample.

Definition today : Date.t := Date.mk 2024 5 20.

Definition alice : User.t := User.mk 1 1 "Alice" "alice@example.com" "admin".
Definition bob : User.t := User.mk 2 1 "Bob" "bob@example.com" "user".
Definition rita : User.t := User.mk 3 1 "Rita" "rita@example.com" "readonly".
Definition gus : User.t := User.mk 4 1 "Gus" "gus@example.com" "guest".

Definition cash : Account.t := Account.mk 1 1 "Cash" "cash" "CNY".
Definition food : Category.t := Category.mk 3 1 "Food" "expense".
Definition rent : Category.t := Category.mk 4 1 "Rent" "expense".

Definition tx (id user_id category_id amount : Z) (ty : string) (d : Date.t)
  (note tags : option string) : Transaction.t :=
  Transaction.mk id 1 user_id 1 category_id amount ty d note tags.

(** Alice's coffee (10.00) and flight (50.00), and her salary. *)
Definition coffee : Transaction.t :=
  tx 1 1 3 1000 "expense" (Date.mk 2024 5 20) (Some "coffee") (Some "morning").
Definition flight : Transaction.t :=
  tx 2 1 4 5000 "expense" (Date.mk 2024 5 19) (Some "flight") (Some "trip").
Definition salary : Transaction.t :=
  tx 3 1 3 100000 "income" (Date.mk 2024 5 20) (Some "salary") (Some "income").

Definition db : DB :=
  mkDB [alice; bob; rita; gus] [cash] [food; rent] [coffee; flight; salary] [].

Definition no_params : query_params :=
  mkParams None None None None None None None.

Definition form (amount : string) : transaction_form :=
  mkTxForm amount "expense" "2024-05-20" 3 1 "lunch" "".

(** A budget whose category key is 0. *)
Definition budget_zero : Budget.t :=
  Budget.mk 1 1 "Zero" "monthly" (Some 0) 3000 (Date.mk 2024 5 1) (Date.mk 2024 5 31).

Definition budget_food : Budget.t :=
  Budget.mk 2 1 "Food" "monthly" (Some 3) 500 (Date.mk 2024 5 1) (Date.mk 2024 5 31).

Definition budget_form_food : budget_form :=
  mkBudgetForm "Food" "monthly" "300.00" "2024-05-01" "2024-05-31" (Some 3).

Definition db_with_budgets : DB :=
  mkDB [alice; bob; rita; gus] [cash] [food; rent] [coffee; flight; salary]
    [budget_zero; budget_food].

(** A transaction with no note and upper-case tags. *)
Definition trip : Transaction.t :=
  tx 9 1 4 700 "expense" (Date.mk 2024 5 18) None (Some "TRIP").

(** A transaction with neither note nor tags. *)
Definition blank : Transaction.t :=
  tx 8 1 3 100 "expense" (Date.mk 2024 5 17) None None.

(** The word CAFE in capitals with an acute accent on the E (the code
    point 201), and a transaction whose note is that word. *)
Definition cafe : string := "CAF" ++ String "201" EmptyString.

Definition outing : Transaction.t :=
  tx 10 1 3 450 "expense" (Date.mk 2024 5 11) (Some cafe) None.

Definition amounts_20_to_60 : query_params :=
  mkParams None None None None (Some "20") (Some "60") None.

Definition min_infinity : query_params :=
  mkParams None None None None (Some "Infinity") None None.

End Sample.

(** Later dates first. *)
Definition not_before (a b : Transaction.t) : Prop :=
  Date.leb (Transaction.occurred_at b) (Transaction.occurred_at a) = true.

(** ** Invariants of the store *)

(** No two category rows share organization, name and type; no two account
    rows share organization and name. *)
Definition categories_unique (db : DB) : Prop :=
  NoDup (map (fun c => (Category.org_id c, Category.name c, Category.type c))
           (categories db)).

Definition accounts_unique (db : DB) : Prop :=
  NoDup (map (fun a => (Account.org_id a, Account.name a)) (accounts db)).

(** A valid calendar date. *)
Definition valid_date (d : Date.t) : Prop :=
  Date.make (Date.year d) (Date.month d) (Date.day d) = Return d.

(** The row a successful [transaction_create] stores. *)
Definition created_row (db : DB) (user : User.t) (form : transaction_form)
  (cents : Z) (d : Date.t) : Transaction.t :=
  Transaction.mk (next_id Transaction.id (transactions db))
    (User.org_id user) (User.id user)
    (form_account_id form) (form_category_id form)
    cents (form_type form) d
    (or_none (form_note form)) (or_none (form_tags form)).

(** The conditions under which [budget_query] keeps a row. *)
Definition counts_for_budget (viewer : User.t) (b : Budget.t) (tx : Transaction.t)
  : bool :=
  (Transaction.org_id tx =? User.org_id viewer)
  && (Transaction.type tx =? "expense")%string
  && Date.leb (Budget.start_date b) (Transaction.occurred_at tx)
  && Date.leb (Transaction.occurred_at tx) (Budget.end_date b)
  && match truthy_int (Budget.category_id b) with
     | Some c => Transaction.category_id tx =? c
     | None => true
     end.

(** The sum of the totals of a breakdown. *)
Definition sum_totals (groups : list (string * Z)) : Z :=
  fold_right (fun g total => snd g + total) 0 groups.

(** The rows of the organization that the category breakdown is about:
    its expenses dated from the first day of the month. *)
Definition month_expenses (db : DB) (user : User.t) (today : Date.t)
  : list Transaction.t :=
  filter
    (fun tx =>
       (Transaction.org_id tx =? User.org_id user)
       && (Transaction.type tx =? "expense")%string
       && Date.leb (month_start today) (Transaction.occurred_at tx))
    (transactions db).

(** The number of category rows a transaction's [category_id] refers to. *)
Definition category_matches (db : DB) (tx : Transaction.t) : nat :=
  List.length
    (filter (fun c => Transaction.category_id tx =? Category.id c) (categories db)).

(** The primary key of [users]. *)
Definition user_ids_unique (db : DB) : Prop :=
  NoDup (map User.id (users db)).

(** * Rounding *)

Lemma round_half_even_cases (n d : Z) :
  0 < d ->
  let q := n / d in
  let r := n mod d in
  n = d * q + r /\ 0 <= r < d /\
  ((2 * r < d /\ round_half_even n d = q) \/
   (d < 2 * r /\ round_half_even n d = q + 1) \/
   (2 * r = d /\ Z.even q = true /\ round_half_even n d = q) \/
   (2 * r = d /\ Z.even q = false /\ round_half_even n d = q + 1)).
Proof.
  intros Hd q r.
  pose proof (Z.div_mod n d ltac:(lia)) as Hdm.
  pose proof (Z.mod_pos_bound n d Hd) as Hr.
  fold q r in Hdm, Hr.
  split; [exact Hdm|]. split; [exact Hr|].
  unfold round_half_even. fold q r.
  destruct (Z.ltb_spec (2 * r) d) as [H1|H1]; [left; auto|].
  destruct (Z.ltb_spec d (2 * r)) as [H2|H2]; [right; left; auto|].
  destruct (Z.even q) eqn:He.
  - right; right; left. repeat split; auto; lia.
  - right; right; right. repeat split; auto; lia.
Qed.

Lemma round_half_even_nearest (n d : Z) :
  0 < d -> nearest_even n d (round_half_even n d).
Proof.
  intros Hd.
  destruct (round_half_even_cases n d Hd) as (Hn & Hr & Hc).
  set (q := n / d) in *. set (r := n mod d) in *.
  unfold nearest_even.
  destruct Hc as [(H & ->)|[(H & ->)|[(H & He & ->)|(H & He & ->)]]].
  - replace (q * d - n) with (- r) by lia. rewrite Z.abs_opp, Z.abs_eq by lia. lia.
  - replace ((q + 1) * d - n) with (d - r) by lia. rewrite Z.abs_eq by lia. lia.
  - replace (q * d - n) with (- r) by lia. rewrite Z.abs_opp, Z.abs_eq by lia.
    split; [lia|auto].
  - replace ((q + 1) * d - n) with (d - r) by lia. rewrite Z.abs_eq by lia.
    split; [lia|]. intros _. rewrite Z.add_1_r, Z.even_succ, <- Z.negb_even, He. reflexivity.
Qed.

Lemma round_half_even_bounds (n d : Z) :
  0 < d -> n / d <= round_half_even n d <= n / d + 1.
Proof.
  intros Hd.
  destruct (round_half_even_cases n d Hd) as (_ & _ & Hc).
  destruct Hc as [(_ & ->)|[(_ & ->)|[(_ & _ & ->)|(_ & _ & ->)]]]; lia.
Qed.

Lemma round_half_even_nonneg (n d : Z) :
  0 <= n -> 0 < d -> 0 <= round_half_even n d.
Proof.
  intros Hn Hd. pose proof (round_half_even_bounds n d Hd).
  pose proof (Z.div_pos n d Hn Hd). lia.
Qed.

Lemma round_half_even_unique (n d q : Z) :
  0 < d -> 2 * Z.abs (q * d - n) < d -> round_half_even n d = q.
Proof.
  intros Hd Hq.
  destruct (round_half_even_cases n d Hd) as (Hn & Hr & Hc).
  set (q0 := n / d) in *. set (r := n mod d) in *.
  assert (Hcmp : q = q0 \/ q = q0 + 1) by nia.
  destruct Hc as [(H & ->)|[(H & ->)|[(H & _ & ->)|(H & _ & ->)]]];
    destruct Hcmp as [->| ->]; try reflexivity; exfalso; nia.
Qed.

Lemma round_half_even_small (n d : Z) :
  0 <= n -> 2 * n < d -> round_half_even n d = 0.
Proof.
  intros Hn Hd. apply round_half_even_unique; [lia|].
  rewrite Z.mul_0_l, Z.sub_0_l, Z.abs_opp, Z.abs_eq; lia.
Qed.
Lemma log2_div10 (n : Z) : 10 <= n -> Z.log2 (n / 10) < Z.log2 n.
Proof.
  intros Hn.
  assert (H10 : 0 < n / 10) by (apply Z.div_str_pos; lia).
  apply Z.log2_lt_pow2; [lia|].
  pose proof (Z.log2_spec n ltac:(lia)) as [_ Hhi].
  rewrite Z.pow_succ_r in Hhi by apply Z.log2_nonneg.
  pose proof (Z.div_mod n 10 ltac:(lia)). pose proof (Z.mod_pos_bound n 10 ltac:(lia)).
  lia.
Qed.

Lemma ndigits_fuel_spec (fuel : nat) :
  forall n, 0 < n -> Z.log2 n <= Z.of_nat fuel ->
  1 <= ndigits_fuel fuel n /\
  10 ^ (ndigits_fuel fuel n - 1) <= n < 10 ^ ndigits_fuel fuel n.
Proof.
  induction fuel as [|fuel IH]; intros n Hn Hlog.
  - simpl. assert (n < 2).
    { destruct (Z.lt_ge_cases n 2) as [|H2]; [assumption|].
      assert (1 <= Z.log2 n) by (apply Z.log2_le_pow2; [lia|simpl; lia]). lia. }
    simpl. lia.
  - cbn [ndigits_fuel].
    destruct (Z.ltb_spec n 10) as [Hs|Hb].
    + simpl. lia.
    + assert (H10 : 0 < n / 10) by (apply Z.div_str_pos; lia).
      pose proof (log2_div10 n Hb) as Hl.
      destruct (IH (n / 10) H10 ltac:(lia)) as (Hk & Hlo & Hhi).
      set (k := ndigits_fuel fuel (n / 10)) in *.
      pose proof (Z.div_mod n 10 ltac:(lia)). pose proof (Z.mod_pos_bound n 10 ltac:(lia)).
      split; [lia|].
      replace (1 + k - 1) with (k - 1 + 1) by lia.
      replace (1 + k) with (k + 1) by lia.
      rewrite !Z.pow_add_r by lia. change (10 ^ 1) with 10.
      lia.
Qed.

Lemma ndigits_spec (n : Z) :
  0 < n -> 1 <= ndigits n /\ 10 ^ (ndigits n - 1) <= n < 10 ^ ndigits n.
Proof.
  intros Hn. unfold ndigits. apply ndigits_fuel_spec; [assumption|].
  rewrite Z2Nat.id by apply Z.log2_nonneg. lia.
Qed.

Lemma ndigits_zero : ndigits 0 = 1.
Proof. reflexivity. Qed.

Lemma ndigits_pos (n : Z) : 0 <= n -> 1 <= ndigits n.
Proof.
  intros Hn. destruct (Z.eq_dec n 0) as [->|Hz]; [rewrite ndigits_zero; lia|].
  apply ndigits_spec. lia.
Qed.

Lemma ndigits_le (n k : Z) : 0 <= n < 10 ^ k -> 1 <= k -> ndigits n <= k.
Proof.
  intros [Hn Hk] Hk1.
  destruct (Z.eq_dec n 0) as [->|Hz]; [rewrite ndigits_zero; lia|].
  destruct (ndigits_spec n ltac:(lia)) as (H1 & Hlo & _).
  destruct (Z.le_gt_cases (ndigits n) k) as [|Hgt]; [assumption|exfalso].
  assert (10 ^ k <= 10 ^ (ndigits n - 1)) by (apply Z.pow_le_mono_r; lia).
  lia.
Qed.

Lemma ndigits_upper (n : Z) : 0 <= n -> n < 10 ^ ndigits n.
Proof.
  intros Hn. destruct (Z.eq_dec n 0) as [->|Hz]; [rewrite ndigits_zero; simpl; lia|].
  apply ndigits_spec. lia.
Qed.

Lemma ndigits_lower (n : Z) : 0 < n -> 10 ^ (ndigits n - 1) <= n.
Proof. intros Hn. apply ndigits_spec. assumption. Qed.

(** * Decimal arithmetic inside the context's range *)

Lemma Etiny_value : Decimal.Etiny = -1000026.
Proof. reflexivity. Qed.

Lemma fix_zero (s : bool) (e : Z) :
  Decimal.fix_ (Decimal.Finite s 0 e)
  = Return (Decimal.Finite s 0 (Z.min (Z.max e Decimal.Etiny) Decimal.Emax)).
Proof. reflexivity. Qed.

Lemma fix_unchanged (s : bool) (c e : Z) :
  0 < c -> c < 10 ^ 28 -> Decimal.Etiny <= e -> ndigits c + e <= 28 ->
  Decimal.fix_ (Decimal.Finite s c e) = Return (Decimal.Finite s c e).
Proof.
  intros Hc Hhi He Hn.
  pose proof Etiny_value as HE.
  unfold Decimal.fix_.
  destruct (Z.eqb_spec c 0) as [|_]; [lia|].
  change Decimal.prec with 28. change Decimal.Etop with 999972.
  destruct (Z.ltb_spec 999972 (ndigits c + e - 28)) as [|_]; [lia|].
  pose proof (ndigits_le c 28 ltac:(lia) ltac:(lia)) as Hnd.
  destruct (Z.ltb_spec (ndigits c + e - 28) Decimal.Etiny) as [_|_].
  - destruct (Z.ltb_spec e Decimal.Etiny) as [|_]; [lia|reflexivity].
  - destruct (Z.ltb_spec e (ndigits c + e - 28)) as [|_]; [lia|reflexivity].
Qed.

Lemma div_pow10_le (c k : Z) : 0 <= c -> 1 <= k -> c / 10 ^ k <= c / 10.
Proof.
  intros Hc Hk. apply Z.div_le_compat_l; [assumption|].
  split; [lia|]. replace k with (1 + (k - 1)) by lia.
  rewrite Z.pow_add_r by lia. change (10 ^ 1) with 10.
  pose proof (Z.pow_pos_nonneg 10 (k - 1) ltac:(lia) ltac:(lia)). lia.
Qed.

Lemma round_pow10_lt (c k : Z) :
  0 <= c -> c < 10 ^ 28 -> 1 <= k ->
  0 <= round_half_even c (10 ^ k) < 10 ^ 28.
Proof.
  intros Hc Hhi Hk.
  assert (Hp : 0 < 10 ^ k) by (apply Z.pow_pos_nonneg; lia).
  pose proof (round_half_even_bounds c (10 ^ k) Hp).
  pose proof (round_half_even_nonneg c (10 ^ k) Hc Hp).
  pose proof (div_pow10_le c k Hc Hk).
  assert (c / 10 < 10 ^ 27).
  { apply Z.div_lt_upper_bound; [lia|]. change (10 * 10 ^ 27) with (10 ^ 28). lia. }
  change (10 ^ 28) with (10 * 10 ^ 27). lia.
Qed.

Lemma round_one_ten : round_half_even 1 10 = 0.
Proof. reflexivity. Qed.

Lemma fix_subnormal (s : bool) (c e : Z) :
  0 < c -> c < 10 ^ 28 -> e < Decimal.Etiny ->
  exists c', Decimal.fix_ (Decimal.Finite s c e) = Return (Decimal.Finite s c' Decimal.Etiny)
             /\ 0 <= c' < 10 ^ 28.
Proof.
  intros Hc Hhi He.
  pose proof Etiny_value as HE.
  pose proof (ndigits_le c 28 ltac:(lia) ltac:(lia)) as Hnd.
  pose proof (ndigits_pos c ltac:(lia)) as Hnp.
  unfold Decimal.fix_.
  destruct (Z.eqb_spec c 0) as [|_]; [lia|].
  change Decimal.prec with 28. change Decimal.Etop with 999972.
  destruct (Z.ltb_spec 999972 (ndigits c + e - 28)) as [|_]; [lia|].
  destruct (Z.ltb_spec (ndigits c + e - 28) Decimal.Etiny) as [_|]; [|lia].
  destruct (Z.ltb_spec e Decimal.Etiny) as [_|]; [|lia].
  destruct (Z.ltb_spec (ndigits c + e - Decimal.Etiny) 0) as [Hd|Hd].
  - replace (Decimal.Etiny - (Decimal.Etiny - 1)) with 1 by lia.
    change (10 ^ 1) with 10. rewrite round_one_ten, ndigits_zero.
    change (28 <? 1) with false. cbv beta iota.
    destruct (Z.ltb_spec 999972 Decimal.Etiny) as [|_]; [lia|].
    exists 0. split; [reflexivity|]. split; [lia|]. apply Z.pow_pos_nonneg; lia.
  - pose proof (round_pow10_lt c (Decimal.Etiny - e) ltac:(lia) Hhi ltac:(lia)) as Hr.
    set (r := round_half_even c (10 ^ (Decimal.Etiny - e))) in *.
    pose proof (ndigits_le r 28 Hr ltac:(lia)) as Hrd.
    destruct (Z.ltb_spec 28 (ndigits r)) as [|_]; [lia|].
    cbv beta iota.
    destruct (Z.ltb_spec 999972 Decimal.Etiny) as [|_]; [lia|].
    exists r. split; [reflexivity|assumption].
Qed.

Lemma quantize_one_zero (s : bool) (e : Z) :
  Decimal.quantize (Decimal.Finite s 0 e) (Decimal.of_int 1)
  = Return (Decimal.Finite s 0 0).
Proof. reflexivity. Qed.

Lemma to_int_exp0 (s : bool) (c : Z) :
  Decimal.to_int (Decimal.Finite s c 0) = Return (if s then - c else c).
Proof. unfold Decimal.to_int. change (0 <=? 0) with true. cbv iota. rewrite Z.pow_0_r, Z.mul_1_r. reflexivity. Qed.

(** The checks [quantize] makes after rescaling, on a coefficient that
    fits the precision. *)
Lemma quantize_finish (s : bool) (r : Z) :
  0 <= r < 10 ^ 28 ->
  (if Decimal.Emax <? Decimal.adjusted r 0 then Raise InvalidOperation
   else if Decimal.prec <? ndigits r then Raise InvalidOperation
   else Decimal.fix_ (Decimal.Finite s r 0))
  = Return (Decimal.Finite s r 0).
Proof.
  intros Hr.
  pose proof (ndigits_le r 28 Hr ltac:(lia)) as Hnd.
  pose proof (ndigits_pos r ltac:(lia)) as Hnp.
  unfold Decimal.adjusted. change Decimal.Emax with 999999. change Decimal.prec with 28.
  destruct (Z.ltb_spec 999999 (0 + ndigits r - 1)) as [|_]; [lia|].
  destruct (Z.ltb_spec 28 (ndigits r)) as [|_]; [lia|].
  destruct (Z.eq_dec r 0) as [->|Hz]; [reflexivity|].
  apply fix_unchanged; try lia. rewrite Etiny_value. lia.
Qed.

Lemma nearest_even_zero (n d : Z) : 0 <= n -> 2 * n < d -> nearest_even n d 0.
Proof.
  intros Hn Hd. unfold nearest_even.
  rewrite Z.mul_0_l, Z.sub_0_l, Z.abs_opp, Z.abs_eq by lia. split; lia.
Qed.

(** [quantize] to exponent 0 of a nonzero decimal within the precision. *)
Lemma quantize_one_in_range (s : bool) (c e : Z) :
  0 < c -> c < 10 ^ 28 -> Decimal.Etiny <= e -> ndigits c + e <= 28 ->
  exists r,
    Decimal.quantize (Decimal.Finite s c e) (Decimal.of_int 1)
    = Return (Decimal.Finite s r 0)
    /\ 0 <= r
    /\ (0 <= e -> r = c * 10 ^ e)
    /\ (e < 0 -> nearest_even c (10 ^ (- e)) r).
Proof.
  intros Hc Hhi He Hn.
  pose proof Etiny_value as HE.
  pose proof (ndigits_pos c ltac:(lia)) as Hnp.
  unfold Decimal.quantize, Decimal.of_int.
  change (1 <? 0) with false. change (Z.abs 1) with 1.
  change (negb ((Decimal.Etiny <=? 0) && (0 <=? Decimal.Emax))) with false. cbv iota.
  destruct (Z.eqb_spec c 0) as [|_]; [lia|].
  unfold Decimal.adjusted at 1 2. change Decimal.Emax with 999999. change Decimal.prec with 28.
  destruct (Z.ltb_spec 999999 (e + ndigits c - 1)) as [|_]; [lia|].
  destruct (Z.ltb_spec 28 (e + ndigits c - 1 - 0 + 1)) as [|_]; [lia|].
  unfold Decimal.rescale.
  destruct (Z.eqb_spec c 0) as [|_]; [lia|].
  destruct (Z.leb_spec 0 e) as [He0|He0].
  - (* the exponent is not negative: pad with zeros *)
    rewrite Z.sub_0_r.
    assert (Hp : 0 < 10 ^ e) by (apply Z.pow_pos_nonneg; lia).
    assert (Hlt : c * 10 ^ e < 10 ^ 28).
    { pose proof (ndigits_upper c ltac:(lia)) as Hu.
      assert (10 ^ ndigits c * 10 ^ e <= 10 ^ 28).
      { rewrite <- Z.pow_add_r by lia. apply Z.pow_le_mono_r; lia. }
      nia. }
    change 999999 with Decimal.Emax. change 28 with Decimal.prec at 1.
    rewrite quantize_finish by nia.
    exists (c * 10 ^ e). split; [reflexivity|]. split; [nia|]. split; [reflexivity|intros; lia].
  - destruct (Z.ltb_spec (ndigits c + e - 0) 0) as [Hd|Hd].
    + (* fewer digits than dropped places *)
      replace (0 - (0 - 1)) with 1 by lia. change (10 ^ 1) with 10.
      rewrite round_one_ten.
      change 999999 with Decimal.Emax. change 28 with Decimal.prec at 1.
      rewrite quantize_finish by (simpl; lia).
      exists 0. split; [reflexivity|]. split; [lia|]. split; [intros; lia|].
      intros _. apply nearest_even_zero; [lia|].
      pose proof (ndigits_upper c ltac:(lia)) as Hu.
      assert (Hle : 10 ^ (ndigits c + 1) <= 10 ^ (- e)) by (apply Z.pow_le_mono_r; lia).
      rewrite Z.pow_add_r in Hle by lia. change (10 ^ 1) with 10 in Hle.
      lia.
    + rewrite Z.sub_0_l.
      pose proof (round_pow10_lt c (- e) ltac:(lia) Hhi ltac:(lia)) as Hr.
      change 999999 with Decimal.Emax. change 28 with Decimal.prec at 1.
      rewrite quantize_finish by assumption.
      exists (round_half_even c (10 ^ (- e))).
      split; [reflexivity|]. split; [lia|]. split; [intros; lia|].
      intros _. apply round_half_even_nearest. apply Z.pow_pos_nonneg; lia.
Qed.

(** [quantize] to exponent 0 of a decimal at the least exponent. *)
Lemma quantize_one_tiny (s : bool) (c : Z) :
  0 <= c < 10 ^ 28 ->
  Decimal.quantize (Decimal.Finite s c Decimal.Etiny) (Decimal.of_int 1)
  = Return (Decimal.Finite s 0 0).
Proof.
  intros Hc.
  destruct (Z.eq_dec c 0) as [->|Hz]; [apply quantize_one_zero|].
  pose proof (ndigits_pos c ltac:(lia)) as Hnp.
  pose proof (ndigits_le c 28 Hc ltac:(lia)) as Hnd.
  unfold Decimal.quantize, Decimal.of_int.
  change (1 <? 0) with false. change (Z.abs 1) with 1.
  change (negb ((Decimal.Etiny <=? 0) && (0 <=? Decimal.Emax))) with false. cbv iota.
  destruct (Z.eqb_spec c 0) as [|_]; [lia|].
  unfold Decimal.adjusted at 1 2. change Decimal.Emax with 999999. change Decimal.prec with 28.
  change Decimal.Etiny with (-1000026).
  destruct (Z.ltb_spec 999999 (-1000026 + ndigits c - 1)) as [|_]; [lia|].
  destruct (Z.ltb_spec 28 (-1000026 + ndigits c - 1 - 0 + 1)) as [|_]; [lia|].
  unfold Decimal.rescale.
  destruct (Z.eqb_spec c 0) as [|_]; [lia|].
  change (0 <=? -1000026) with false. cbv iota.
  destruct (Z.ltb_spec (ndigits c + -1000026 - 0) 0) as [_|]; [|lia].
  reflexivity.
Qed.

(** The cents of a finite decimal whose hundredfold fits the context:
    exact for a non-negative exponent, the nearest integer (ties to even)
    otherwise. *)
Lemma scale_to_cents_in_range (s : bool) (c e : Z) :
  0 <= c -> 100 * c < 10 ^ 28 -> (0 < e -> 100 * c * 10 ^ e < 10 ^ 28) ->
  exists r,
    scale_to_cents (Decimal.Finite s c e) = Return (if s then - r else r)
    /\ 0 <= r
    /\ (0 <= e -> r = 100 * c * 10 ^ e)
    /\ (e < 0 -> nearest_even (100 * c) (10 ^ (- e)) r).
Proof.
  intros Hc Hhi Hbig.
  unfold scale_to_cents, Decimal.mul. unfold Decimal.of_int at 1.
  change (100 <? 0) with false. change (Z.abs 100) with 100.
  rewrite xorb_false_r, Z.add_0_r, (Z.mul_comm c 100).
  destruct (Z.eq_dec c 0) as [->|Hz].
  - (* zero *)
    rewrite Z.mul_0_r, fix_zero. cbn [bind].
    rewrite quantize_one_zero. cbn [bind]. rewrite to_int_exp0.
    exists 0. split; [destruct s; reflexivity|]. split; [lia|]. split; [intros; lia|].
    intros He. apply nearest_even_zero; [lia|].
    { pose proof (Z.pow_pos_nonneg 10 (- e) ltac:(lia) ltac:(lia)). lia. }
  - destruct (Z.lt_ge_cases e Decimal.Etiny) as [Hsub|Hnorm].
    + (* below the least exponent: the product is rounded first *)
      destruct (fix_subnormal s (100 * c) e ltac:(lia) Hhi Hsub) as (c' & -> & Hc').
      cbn [bind]. rewrite quantize_one_tiny by assumption. cbn [bind].
      rewrite to_int_exp0.
      pose proof Etiny_value as HE.
      exists 0. split; [destruct s; reflexivity|]. split; [lia|]. split; [intros; lia|].
      intros He. apply nearest_even_zero; [lia|].
      { assert (10 ^ 29 <= 10 ^ (- e)) by (apply Z.pow_le_mono_r; lia).
        change (10 ^ 29) with (10 * 10 ^ 28) in *. lia. }
    + assert (Hn : ndigits (100 * c) + e <= 28).
      { pose proof (ndigits_pos (100 * c) ltac:(lia)).
        pose proof (ndigits_le (100 * c) 28 ltac:(lia) ltac:(lia)).
        destruct (Z.le_gt_cases e 0) as [|He]; [lia|].
        specialize (Hbig He).
        pose proof (ndigits_lower (100 * c) ltac:(lia)) as Hl.
        destruct (Z.le_gt_cases (ndigits (100 * c) + e) 28) as [|Hgt]; [assumption|exfalso].
        assert (10 ^ 28 <= 10 ^ (ndigits (100 * c) - 1 + e)) by (apply Z.pow_le_mono_r; lia).
        rewrite Z.pow_add_r in * by lia.
        pose proof (Z.pow_pos_nonneg 10 e ltac:(lia) ltac:(lia)). nia. }
      rewrite fix_unchanged by lia. cbn [bind].
      destruct (quantize_one_in_range s (100 * c) e ltac:(lia) Hhi Hnorm Hn)
        as (r & -> & Hr0 & Hexact & Hnear).
      cbn [bind]. rewrite to_int_exp0.
      exists r. split; [reflexivity|]. split; [assumption|]. split; assumption.
Qed.

(** * Digits and text *)

Lemma digit_char_value (d : Z) : 0 <= d <= 9 -> digit_value (digit_char d) = d.
Proof.
  intros Hd.
  assert (H : d = 0 \/ d = 1 \/ d = 2 \/ d = 3 \/ d = 4 \/ d = 5 \/ d = 6 \/ d = 7
              \/ d = 8 \/ d = 9) by lia.
  repeat (destruct H as [->|H]; [reflexivity|]). subst d. reflexivity.
Qed.

Lemma digit_char_is_digit (d : Z) : 0 <= d <= 9 -> is_digit (digit_char d) = true.
Proof.
  intros Hd.
  assert (H : d = 0 \/ d = 1 \/ d = 2 \/ d = 3 \/ d = 4 \/ d = 5 \/ d = 6 \/ d = 7
              \/ d = 8 \/ d = 9) by lia.
  repeat (destruct H as [->|H]; [reflexivity|]). subst d. reflexivity.
Qed.

Lemma digit_value_bounds (c : ascii) : is_digit c = true -> 0 <= digit_value c <= 9.
Proof.
  unfold is_digit, digit_value. intros H.
  apply andb_true_iff in H. destruct H as [H1 H2].
  apply Z.leb_le in H1, H2. lia.
Qed.

Lemma append_assoc (a b c : string) : ((a ++ b) ++ c = a ++ (b ++ c))%string.
Proof. induction a as [|x a IH]; simpl; [reflexivity|now rewrite IH]. Qed.

Lemma append_empty_r (a : string) : (a ++ "")%string = a.
Proof. induction a as [|x a IH]; simpl; [reflexivity|now rewrite IH]. Qed.

Lemma all_digits_app (a b : string) :
  all_digits (a ++ b) = all_digits a && all_digits b.
Proof.
  induction a as [|x a IH]; simpl; [reflexivity|].
  rewrite IH, andb_assoc. reflexivity.
Qed.

Lemma digits_value_from_app (acc : Z) (a b : string) :
  digits_value_from acc (a ++ b) = digits_value_from (digits_value_from acc a) b.
Proof.
  revert acc. induction a as [|x a IH]; intros acc; simpl; [reflexivity|apply IH].
Qed.

Lemma digits_value_from_nonneg (ds : string) :
  forall acc, all_digits ds = true -> 0 <= acc -> 0 <= digits_value_from acc ds.
Proof.
  induction ds as [|c ds IH]; intros acc Hd Hacc; cbn [digits_value_from]; [assumption|].
  cbn [all_digits] in Hd. apply andb_true_iff in Hd. destruct Hd as [Hc Hds].
  apply IH; [assumption|]. pose proof (digit_value_bounds c Hc). lia.
Qed.

Lemma length_append (a b : string) :
  String.length (a ++ b) = (String.length a + String.length b)%nat.
Proof.
  induction a as [|c a IH]; [reflexivity|]. cbn [append String.length]. now rewrite IH.
Qed.

Lemma digits_value_from_bound (ds : string) :
  forall acc, all_digits ds = true -> 0 <= acc ->
  digits_value_from acc ds < (acc + 1) * 10 ^ Z.of_nat (String.length ds).
Proof.
  induction ds as [|c ds IH]; intros acc Hd Hacc.
  - cbn [digits_value_from String.length]. simpl. lia.
  - cbn [all_digits] in Hd. apply andb_true_iff in Hd. destruct Hd as [Hc Hds].
    cbn [digits_value_from String.length]. pose proof (digit_value_bounds c Hc).
    specialize (IH (10 * acc + digit_value c) Hds ltac:(lia)).
    rewrite Nat2Z.inj_succ, Z.pow_succ_r by lia.
    assert (0 < 10 ^ Z.of_nat (String.length ds)) by (apply Z.pow_pos_nonneg; lia).
    nia.
Qed.

Lemma ndigits_digits_value (ds : string) :
  all_digits ds = true -> ds <> EmptyString ->
  ndigits (digits_value ds) <= Z.of_nat (String.length ds).
Proof.
  intros Hd Hne. apply ndigits_le.
  - split; [apply digits_value_from_nonneg; [assumption|lia]|].
    pose proof (digits_value_from_bound ds 0 Hd ltac:(lia)) as H.
    unfold digits_value. lia.
  - destruct ds; [congruence|]. cbn [String.length]. lia.
Qed.

Lemma representable_bounds (c e : Z) :
  Decimal.MIN_ETINY <= e -> e + ndigits c - 1 <= Decimal.MAX_EMAX ->
  Decimal.representable c e = true.
Proof.
  intros Hlo Hhi. unfold Decimal.representable, Decimal.adjusted.
  apply andb_true_iff. split; apply Z.leb_le; assumption.
Qed.

Lemma span_digits_all_digits (s : string) :
  all_digits (fst (span_digits s)) = true.
Proof.
  induction s as [|c s IH]; simpl; [reflexivity|].
  destruct (is_digit c) eqn:Hc; [|reflexivity].
  destruct (span_digits s) as [d rest]. simpl in *. now rewrite Hc, IH.
Qed.

Lemma span_digits_app (ds : string) (c : ascii) (rest : string) :
  all_digits ds = true -> is_digit c = false ->
  span_digits (ds ++ String c rest) = (ds, String c rest).
Proof.
  intros Hds Hc. induction ds as [|x ds IH]; simpl.
  - now rewrite Hc.
  - simpl in Hds. apply andb_true_iff in Hds. destruct Hds as [Hx Hds].
    rewrite Hx, (IH Hds). reflexivity.
Qed.

Lemma span_digits_all (ds : string) :
  all_digits ds = true -> span_digits ds = (ds, EmptyString).
Proof.
  intros Hds. induction ds as [|x ds IH]; simpl; [reflexivity|].
  simpl in Hds. apply andb_true_iff in Hds. destruct Hds as [Hx Hds].
  rewrite Hx, (IH Hds). reflexivity.
Qed.

(** The text [str_digits_fuel] puts in front of the accumulator. *)
Lemma str_digits_fuel_spec (fuel : nat) :
  forall n acc, 0 <= n -> Z.log2 n < Z.of_nat fuel ->
  exists ds,
    str_digits_fuel fuel n acc = (ds ++ acc)%string
    /\ all_digits ds = true /\ ds <> EmptyString
    /\ exists p, forall a, digits_value_from a ds = a * p + n.
Proof.
  induction fuel as [|fuel IH]; intros n acc Hn Hlog.
  - pose proof (Z.log2_nonneg n). lia.
  - cbn [str_digits_fuel].
    pose proof (Z.div_mod n 10 ltac:(lia)) as Hdm.
    pose proof (Z.mod_pos_bound n 10 ltac:(lia)) as Hm.
    destruct (Z.ltb_spec n 10) as [Hs|Hb].
    + exists (String (digit_char (n mod 10)) EmptyString).
      split; [reflexivity|]. split.
      { cbn [all_digits]. rewrite digit_char_is_digit by lia. reflexivity. }
      split; [discriminate|].
      exists 10. intros a. cbn [digits_value_from]. rewrite digit_char_value by lia.
      rewrite Z.mod_small by lia. lia.
    + assert (H10 : 0 <= n / 10) by (apply Z.div_pos; lia).
      pose proof (log2_div10 n Hb) as Hl.
      destruct (IH (n / 10) (String (digit_char (n mod 10)) acc) H10 ltac:(lia))
        as (ds & Heq & Hall & Hne & p & Hval).
      exists (ds ++ String (digit_char (n mod 10)) EmptyString)%string.
      split; [rewrite Heq, append_assoc; reflexivity|]. split.
      { rewrite all_digits_app, Hall. cbn [all_digits]. rewrite digit_char_is_digit by lia. reflexivity. }
      split; [destruct ds; [congruence|discriminate]|].
      exists (10 * p). intros a. rewrite digits_value_from_app, Hval.
      cbn [digits_value_from]. rewrite digit_char_value by lia. lia.
Qed.

Lemma str_nonneg_spec (n : Z) :
  0 <= n ->
  all_digits (str_nonneg n) = true /\ str_nonneg n <> EmptyString
  /\ digits_value (str_nonneg n) = n.
Proof.
  intros Hn. unfold str_nonneg.
  destruct (str_digits_fuel_spec (S (Z.to_nat (Z.log2 n))) n EmptyString Hn)
    as (ds & Heq & Hall & Hne & p & Hval).
  { rewrite Nat2Z.inj_succ, Z2Nat.id by apply Z.log2_nonneg. lia. }
  rewrite Heq, append_empty_r. repeat split; try assumption.
  unfold digits_value. rewrite Hval. lia.
Qed.

Lemma plain_text_app (a b : string) :
  plain_text (a ++ b) = plain_text a && plain_text b.
Proof.
  induction a as [|x a IH]; simpl; [reflexivity|].
  rewrite IH, andb_assoc. reflexivity.
Qed.

Lemma digit_is_plain (c : ascii) : is_digit c = true -> plain_char c = true.
Proof.
  intros H. pose proof (digit_value_bounds c H) as Hb.
  unfold plain_char, is_space, digit_value in *.
  assert (Hc : (c =? "_")%char = false).
  { apply Ascii.eqb_neq. intros ->. unfold code in Hb. simpl in Hb. lia. }
  rewrite Hc.
  destruct (Z.leb_spec 9 (code c)), (Z.leb_spec (code c) 13),
    (Z.leb_spec 28 (code c)), (Z.leb_spec (code c) 32); simpl; try reflexivity; lia.
Qed.

Lemma all_digits_plain (s : string) : all_digits s = true -> plain_text s = true.
Proof.
  induction s as [|c s IH]; simpl; [reflexivity|].
  intros H. apply andb_true_iff in H. destruct H as [Hc Hs].
  now rewrite (digit_is_plain c Hc), (IH Hs).
Qed.

Lemma strip_plain (s : string) : plain_text s = true -> strip s = s.
Proof.
  intros H. unfold strip.
  assert (Hl : lstrip s = s).
  { destruct s as [|c r]; [reflexivity|]. simpl in *.
    apply andb_true_iff in H. destruct H as [Hc _].
    unfold plain_char in Hc. apply andb_true_iff in Hc. destruct Hc as [Hc _].
    apply negb_true_iff in Hc. now rewrite Hc. }
  rewrite Hl. clear Hl.
  induction s as [|c r IH]; [reflexivity|].
  simpl in *. apply andb_true_iff in H. destruct H as [Hc Hr].
  rewrite (IH Hr).
  unfold plain_char in Hc. apply andb_true_iff in Hc. destruct Hc as [Hc _].
  apply negb_true_iff in Hc. rewrite Hc. destruct r; reflexivity.
Qed.

Lemma remove_underscores_plain (s : string) :
  plain_text s = true -> remove_underscores s = s.
Proof.
  induction s as [|c r IH]; [reflexivity|].
  simpl. intros H. apply andb_true_iff in H. destruct H as [Hc Hr].
  unfold plain_char in Hc. apply andb_true_iff in Hc. destruct Hc as [_ Hc].
  apply negb_true_iff in Hc. now rewrite Hc, (IH Hr).
Qed.

Lemma split_sign_digit (c : ascii) (r : string) :
  is_digit c = true -> Decimal.split_sign (String c r) = (false, String c r).
Proof.
  intros H. destruct c as [[] [] [] [] [] [] [] []]; try discriminate H; reflexivity.
Qed.

(** * The two-decimal form is read back exactly *)

Lemma two_digits_value (a : Z) :
  0 <= a -> 100 * (a / 100) + 10 * (a mod 100 / 10) + a mod 10 = a.
Proof. intros Ha. Z.div_mod_to_equations. lia. Qed.

Lemma parse_number_fixed_point (D frac : string) :
  all_digits D = true -> D <> EmptyString -> all_digits frac = true ->
  Decimal.parse_number (D ++ String "." frac)
  = Some (digits_value (D ++ frac), - Z.of_nat (String.length frac)).
Proof.
  intros HD Hne Hfrac. unfold Decimal.parse_number.
  rewrite (span_digits_app D "." frac HD eq_refl).
  rewrite (span_digits_all frac Hfrac).
  destruct D as [|x D']; [congruence|].
  reflexivity.
Qed.

Lemma of_string_plain_number (neg : bool) (D frac : string) :
  all_digits D = true -> D <> EmptyString -> all_digits frac = true ->
  Decimal.representable (digits_value (D ++ frac)) (- Z.of_nat (String.length frac))
  = true ->
  Decimal.of_string ((if neg then "-" else "") ++ D ++ String "." frac)
  = Some (Decimal.Finite neg (digits_value (D ++ frac)) (- Z.of_nat (String.length frac))).
Proof.
  intros HD Hne Hfrac Hrep.
  set (body := (D ++ String "." frac)%string).
  assert (Hplain : plain_text ((if neg then "-" else "") ++ body) = true).
  { unfold body. rewrite !plain_text_app. cbn [plain_text].
    rewrite (all_digits_plain D HD), (all_digits_plain frac Hfrac).
    destruct neg; reflexivity. }
  unfold Decimal.of_string.
  rewrite (strip_plain _ Hplain), (remove_underscores_plain _ Hplain).
  assert (Hsign : Decimal.split_sign ((if neg then "-" else "") ++ body) = (neg, body)).
  { destruct neg; [reflexivity|].
    unfold body. destruct D as [|x D']; [congruence|].
    cbn [all_digits] in HD. apply andb_true_iff in HD. destruct HD as [Hx _].
    cbn [append]. apply split_sign_digit. assumption. }
  rewrite Hsign. unfold body. rewrite parse_number_fixed_point by assumption.
  rewrite Hrep. reflexivity.
Qed.

Lemma of_string_two_decimal_form (c : Z) :
  Z.abs c < 10 ^ 28 ->
  Decimal.of_string (two_decimal_form c)
  = Some (Decimal.Finite (c <? 0) (Z.abs c) (-2)).
Proof.
  intros Hc. unfold two_decimal_form.
  set (a := Z.abs c) in *. assert (Ha : 0 <= a) by apply Z.abs_nonneg.
  assert (Hq : 0 <= a / 100) by (apply Z.div_pos; lia).
  destruct (str_nonneg_spec (a / 100) Hq) as (Hall & Hne & Hval).
  assert (H1 : 0 <= a mod 100 / 10 <= 9) by (Z.div_mod_to_equations; lia).
  assert (H2 : 0 <= a mod 10 <= 9) by (Z.div_mod_to_equations; lia).
  cbv zeta.
  change ("." ++ ?x)%string with (String "." x).
  assert (Hv : digits_value
                 (str_nonneg (a / 100)
                  ++ String (digit_char (a mod 100 / 10))
                       (String (digit_char (a mod 10)) EmptyString)) = a).
  { unfold digits_value in *. rewrite digits_value_from_app, Hval.
    cbn [digits_value_from]. rewrite !digit_char_value by assumption.
    pose proof (two_digits_value a Ha). lia. }
  rewrite of_string_plain_number; try assumption.
  - rewrite Hv. reflexivity.
  - cbn [all_digits]. now rewrite !digit_char_is_digit by assumption.
  - rewrite Hv. cbn [String.length]. apply representable_bounds.
    + unfold Decimal.MIN_ETINY. lia.
    + pose proof (ndigits_le a 28 ltac:(lia) ltac:(lia)).
      unfold Decimal.MAX_EMAX. lia.
Qed.

Lemma nearest_even_exact (n d r : Z) :
  0 < d -> nearest_even (n * d) d r -> r = n.
Proof. unfold nearest_even. intros Hd [H _]. nia. Qed.

Lemma display_range_value : display_range = 7036874417766400.
Proof. reflexivity. Qed.

Lemma parse_two_decimal_form (c : Z) :
  Z.abs c < display_range -> parse_amount_to_cents (two_decimal_form c) = Return c.
Proof.
  intros Hc. rewrite display_range_value in Hc.
  unfold parse_amount_to_cents.
  rewrite of_string_two_decimal_form
    by (change (10 ^ 28) with 10000000000000000000000000000; lia).
  destruct (scale_to_cents_in_range (c <? 0) (Z.abs c) (-2)) as (r & -> & _ & _ & Hn).
  - apply Z.abs_nonneg.
  - change (10 ^ 28) with 10000000000000000000000000000. lia.
  - lia.
  - specialize (Hn ltac:(lia)). change (10 ^ (- -2)) with 100 in Hn.
    rewrite (Z.mul_comm 100) in Hn. apply nearest_even_exact in Hn; [|lia]. subst r.
    destruct (Z.ltb_spec c 0); f_equal; lia.
Qed.

(** * Binary floating point keeps two decimals below [display_range] *)

Lemma floor_log2_ratio_100 (c : Z) :
  0 < c < display_range -> Float.floor_log2_ratio c 100 <= 45.
Proof.
  intros [Hc Hr]. rewrite display_range_value in Hr.
  unfold Float.floor_log2_ratio. change (Z.log2 100) with 6.
  assert (Hl : Z.log2 c < 53).
  { apply Z.log2_lt_pow2; [assumption|]. change (2 ^ 53) with 9007199254740992. lia. }
  destruct (Z.eq_dec (Z.log2 c - 6) 46) as [E|E].
  - rewrite E. change (0 <=? 46) with true. cbv iota.
    change (100 * 2 ^ 46) with 7036874417766400.
    destruct (Z.ltb_spec c 7036874417766400); lia.
  - destruct (if 0 <=? Z.log2 c - 6
              then c <? 100 * 2 ^ (Z.log2 c - 6)
              else c * 2 ^ (- (Z.log2 c - 6)) <? 100); lia.
Qed.

Lemma of_ratio_hundredths (neg : bool) (c : Z) :
  0 < c < display_range ->
  exists x, Float.of_ratio neg c 100 = Return x
            /\ Float.sign x = neg /\ Float.hundredths x = c.
Proof.
  intros Hc. pose proof (floor_log2_ratio_100 c Hc) as Hk.
  destruct Hc as [Hc Hr].
  unfold Float.of_ratio.
  destruct (Z.eqb_spec c 0) as [|_]; [lia|].
  set (shift := Z.max (Float.floor_log2_ratio c 100 - 52) (-1074)).
  assert (Hs : -1074 <= shift <= -7) by (unfold shift; lia).
  set (k := - shift). assert (Hk7 : 7 <= k <= 1074) by (unfold k; lia).
  assert (Hp : 128 <= 2 ^ k).
  { change 128 with (2 ^ 7). apply Z.pow_le_mono_r; lia. }
  unfold Float.round_scaled.
  destruct (Z.leb_spec 0 shift) as [|_]; [lia|]. fold k.
  set (m := round_half_even (c * 2 ^ k) 100).
  pose proof (round_half_even_nearest (c * 2 ^ k) 100 ltac:(lia)) as [Hnear _].
  fold m in Hnear.
  pose proof (round_half_even_bounds (c * 2 ^ k) 100 ltac:(lia)) as Hb. fold m in Hb.
  assert (Hm : 1 <= m <= c * 2 ^ k).
  { assert (c * 2 ^ k / 100 <= (c * 2 ^ k) / 2)
      by (apply Z.div_le_compat_l; nia).
    assert (1 <= c * 2 ^ k / 100) by (apply Z.div_le_lower_bound; nia).
    assert ((c * 2 ^ k) / 2 + 1 <= c * 2 ^ k).
    { Z.div_mod_to_equations. nia. }
    lia. }
  assert (Hlog : Z.log2 m + shift < 1024).
  { assert (Z.log2 m <= Z.log2 (c * 2 ^ k)) by (apply Z.log2_le_mono; lia).
    rewrite Z.log2_mul_pow2 in H by lia.
    assert (Z.log2 c < 53).
    { apply Z.log2_lt_pow2; [assumption|]. rewrite display_range_value in Hr.
      change (2 ^ 53) with 9007199254740992. lia. }
    unfold k in *. lia. }
  destruct (Z.leb_spec 1024 (Z.log2 m + shift)) as [|_]; [lia|].
  eexists. split; [reflexivity|]. split; [reflexivity|].
  unfold Float.hundredths. cbn [Float.expo Float.mant].
  destruct (Z.leb_spec 0 shift) as [|_]; [lia|]. fold k.
  apply round_half_even_unique; [lia|]. lia.
Qed.

Lemma cents_to_display_exact (c : Z) :
  Z.abs c < display_range -> cents_to_display c = Return (two_decimal_form c).
Proof.
  intros Hc. unfold cents_to_display, Float.true_divide.
  change (100 =? 0) with false. change (100 <? 0) with false. cbv iota.
  rewrite xorb_false_r. change (Z.abs 100) with 100.
  destruct (Z.eq_dec c 0) as [->|Hz]; [reflexivity|].
  destruct (of_ratio_hundredths (c <? 0) (Z.abs c) ltac:(lia)) as (x & -> & Hs & Hh).
  cbn [bind]. unfold Float.format_2f, two_decimal_form. rewrite Hs, Hh. reflexivity.
Qed.

(** * What the decimal parser returns *)

Lemma parse_number_nonneg (s : string) (c e : Z) :
  Decimal.parse_number s = Some (c, e) -> 0 <= c.
Proof.
  unfold Decimal.parse_number.
  pose proof (span_digits_all_digits s) as Hi.
  destruct (span_digits s) as [intpart rest]. cbn [fst] in Hi.
  set (p := match rest with
            | String "." r => span_digits r
            | _ => (EmptyString, rest)
            end).
  assert (Hf : all_digits (fst p) = true).
  { unfold p. destruct rest as [|x r]; [reflexivity|].
    destruct (Ascii.eqb_spec x ".") as [->|Hx].
    - apply span_digits_all_digits.
    - destruct x as [[] [] [] [] [] [] [] []]; try reflexivity. congruence. }
  destruct p as [fracpart rest']. cbn [fst] in Hf.
  assert (Hall : all_digits (intpart ++ fracpart) = true)
    by (rewrite all_digits_app, Hi, Hf; reflexivity).
  destruct (intpart ++ fracpart)%string as [|x ds] eqn:Hds; [discriminate|].
  destruct (Decimal.parse_exponent rest'); [|discriminate].
  intros H. inversion H. subst.
  apply digits_value_from_nonneg; [assumption|lia].
Qed.

Lemma of_string_coeff_nonneg (text : string) (s : bool) (c e : Z) :
  Decimal.of_string text = Some (Decimal.Finite s c e) -> 0 <= c.
Proof.
  unfold Decimal.of_string.
  destruct (Decimal.split_sign (remove_underscores (strip text))) as [sign body].
  destruct (Decimal.parse_number body) as [[c' e']|] eqn:Hp.
  - destruct (Decimal.representable c' e'); [|discriminate].
    intros H. inversion H. subst. eapply parse_number_nonneg. eassumption.
  - destruct (Decimal.is_infinity_text body); [discriminate|].
    destruct (Decimal.parse_nan body); discriminate.
Qed.

Lemma parse_exact_cents (s : string) (cents : Z) :
  exact_cents s = Some cents -> Z.abs cents < display_range ->
  parse_amount_to_cents s = Return cents.
Proof.
  unfold exact_cents, parse_amount_to_cents. rewrite display_range_value.
  destruct (Decimal.of_string s) as [[sg c e| |]|] eqn:Hs; try discriminate.
  pose proof (of_string_coeff_nonneg s sg c e Hs) as Hc.
  destruct (Z.leb_spec (-2) e) as [He|]; [|discriminate].
  intros H Hr. inversion H as [Hcents]. clear H.
  assert (Hp : 1 <= 10 ^ (e + 2)).
  { pose proof (Z.pow_pos_nonneg 10 (e + 2) ltac:(lia) ltac:(lia)). lia. }
  assert (Habs : c * 10 ^ (e + 2) < 7036874417766400).
  { subst cents. destruct sg.
    - rewrite Z.abs_neq in Hr by nia. lia.
    - rewrite Z.abs_eq in Hr by nia. lia. }
  assert (Hc28 : 100 * c < 10 ^ 28).
  { change (10 ^ 28) with 10000000000000000000000000000. nia. }
  destruct (scale_to_cents_in_range sg c e Hc Hc28) as (r & -> & _ & Hex & Hn).
  - intros He0. replace (100 * c * 10 ^ e) with (c * 10 ^ (e + 2)).
    + change (10 ^ 28) with 10000000000000000000000000000. lia.
    + rewrite Z.pow_add_r by lia. change (10 ^ 2) with 100. lia.
  - assert (Hrv : r = c * 10 ^ (e + 2)).
    { destruct (Z.le_gt_cases 0 e) as [He0|He0].
      - rewrite (Hex He0), Z.pow_add_r by lia. change (10 ^ 2) with 100. lia.
      - specialize (Hn He0).
        assert (He2 : e = -1 \/ e = -2) by lia.
        destruct He2 as [-> | ->].
        + change (10 ^ (- -1)) with 10 in Hn. change (10 ^ (-1 + 2)) with 10.
          replace (100 * c) with (c * 10 * 10) in Hn by lia.
          apply nearest_even_exact in Hn; lia.
        + change (10 ^ (- -2)) with 100 in Hn. change (10 ^ (-2 + 2)) with 1.
          rewrite (Z.mul_comm 100) in Hn.
          apply nearest_even_exact in Hn; lia. }
    rewrite Hrv. destruct sg; f_equal; lia.
Qed.

(** * What the conversion can raise *)

Lemma fix_raises (d : Decimal.t) (e : exn) :
  Decimal.fix_ d = Raise e -> e = Overflow.
Proof.
  unfold Decimal.fix_. destruct d as [s c x| |]; try discriminate.
  repeat match goal with
         | |- context [if ?b then _ else _] => destruct b
         end; intros H; inversion H; reflexivity.
Qed.

Lemma mul_raises (a b : Decimal.t) (e : exn) :
  Decimal.mul a b = Raise e -> e = InvalidOperation \/ e = Overflow.
Proof.
  unfold Decimal.mul.
  destruct a as [sa ca ea|sa|sa [|]], b as [sb cb eb|sb|sb [|]];
    try (intros H; inversion H; auto; fail);
    try (destruct (_ =? 0); intros H; inversion H; auto; fail).
  intros H. apply fix_raises in H. auto.
Qed.

Lemma quantize_raises (a b : Decimal.t) (e : exn) :
  Decimal.quantize a b = Raise e -> e = InvalidOperation \/ e = Overflow.
Proof.
  unfold Decimal.quantize.
  destruct a as [sa ca ea|sa|sa [|]], b as [sb cb eb|sb|sb [|]];
    try (intros H; inversion H; auto; fail).
  destruct (negb _); [intros H; inversion H; auto|].
  destruct (ca =? 0); [intros H; apply fix_raises in H; auto|].
  destruct (_ <? _); [intros H; inversion H; auto|].
  destruct (_ <? _); [intros H; inversion H; auto|].
  destruct (Decimal.rescale sa ca ea eb) as [s' c' e'| |]; try discriminate.
  destruct (_ <? _); [intros H; inversion H; auto|].
  destruct (_ <? _); [intros H; inversion H; auto|].
  intros H; apply fix_raises in H; auto.
Qed.

Lemma to_int_raises (d : Decimal.t) (e : exn) :
  Decimal.to_int d = Raise e ->
  e = ValueError "cannot convert NaN to integer" \/ e = OverflowError.
Proof.
  destruct d; cbn [Decimal.to_int]; intros H; inversion H; auto.
Qed.

Lemma scale_to_cents_raises (v : Decimal.t) (e : exn) :
  scale_to_cents v = Raise e -> arithmetic_error e.
Proof.
  unfold scale_to_cents, arithmetic_error.
  destruct (Decimal.mul v (Decimal.of_int 100)) as [scaled|e1] eqn:Hm; cbn [bind].
  - destruct (Decimal.quantize scaled (Decimal.of_int 1)) as [q|e2] eqn:Hq; cbn [bind].
    + intros H. apply to_int_raises in H. tauto.
    + intros H. inversion H. subst. apply quantize_raises in Hq. tauto.
  - intros H. inversion H. subst. apply mul_raises in Hm. tauto.
Qed.

Lemma strptime_raises (text : string) (e : exn) :
  Date.strptime text = Raise e -> exists msg, e = ValueError msg.
Proof.
  unfold Date.strptime, Date.make.
  destruct (Date.match_ymd text) as [[[[y m] d] rest]|].
  - destruct rest.
    + destruct (_ && _); intros H; inversion H; eauto.
    + intros H; inversion H; eauto.
  - intros H; inversion H; eauto.
Qed.

(** * [LIKE] against substring search *)

Lemma like_percent_unfold (rest text : string) :
  like_chars (String "%" rest) text
  = like_chars rest text
    || match text with
       | EmptyString => false
       | String _ t => like_chars (String "%" rest) t
       end.
Proof. destruct text; reflexivity. Qed.

Lemma like_char_unfold (p : ascii) (rest text : string) :
  (p =? "%")%char = false ->
  like_chars (String p rest) text
  = match text with
    | EmptyString => false
    | String c t => ((p =? "_")%char || same_char p c) && like_chars rest t
    end.
Proof. intros Hp. cbn [like_chars]. rewrite Hp. reflexivity. Qed.

Lemma like_percent_iff (rest text : string) :
  like_chars (String "%" rest) text = true
  <-> exists pre post, text = (pre ++ post)%string /\ like_chars rest post = true.
Proof.
  induction text as [|c t IH]; rewrite like_percent_unfold, orb_true_iff.
  - split.
    + intros [H|H]; [|discriminate]. exists EmptyString, EmptyString. auto.
    + intros (pre & post & Heq & H). left.
      destruct pre; [|discriminate]. simpl in Heq. now subst post.
  - split.
    + intros [H|H].
      * exists EmptyString, (String c t). auto.
      * apply IH in H. destruct H as (pre & post & -> & H).
        exists (String c pre), post. auto.
    + intros (pre & post & Heq & H). destruct pre as [|x pre].
      * left. simpl in Heq. now subst post.
      * right. simpl in Heq. inversion Heq. subst. apply IH. eauto.
Qed.

(** A pattern without wildcards matches the texts that begin with it,
    the case of the letters A-Z apart. *)
Lemma like_literal (k : string) :
  no_wildcard k = true ->
  forall rest text,
    like_chars (k ++ rest) text = true
    <-> exists mid post,
          text = (mid ++ post)%string /\ lower mid = lower k
          /\ like_chars rest post = true.
Proof.
  induction k as [|p k IH]; intros Hk rest text.
  - cbn [append lower]. split.
    + intros H. exists EmptyString, text. auto.
    + intros (mid & post & -> & Hmid & H). destruct mid; [assumption|discriminate].
  - cbn [no_wildcard] in Hk. apply andb_true_iff in Hk. destruct Hk as [Hp Hk].
    apply andb_true_iff in Hp. destruct Hp as [Hp1 Hp2].
    apply negb_true_iff in Hp1, Hp2.
    cbn [append]. rewrite (like_char_unfold p _ _ Hp1), Hp2. cbn [orb].
    destruct text as [|c t].
    + split; [discriminate|]. intros (mid & post & Heq & Hmid & _).
      destruct mid; discriminate.
    + rewrite andb_true_iff, (IH Hk). unfold same_char. split.
      * intros [Hc (mid & post & -> & Hmid & H)]. apply Ascii.eqb_eq in Hc.
        exists (String c mid), post. cbn [append lower].
        rewrite Hmid, Hc. auto.
      * intros (mid & post & Heq & Hmid & H). destruct mid as [|x mid]; [discriminate|].
        cbn [append lower] in Heq, Hmid. inversion Heq. inversion Hmid. subst.
        split; [apply Ascii.eqb_eq; congruence|eauto].
Qed.

Lemma like_anything (text : string) : like_chars "%" text = true.
Proof.
  apply like_percent_iff. exists text, EmptyString.
  split; [now rewrite append_empty_r|reflexivity].
Qed.

Lemma like_contains (k text : string) :
  no_wildcard k = true ->
  like_chars ("%" ++ k ++ "%") text = true
  <-> exists pre mid post,
        text = (pre ++ mid ++ post)%string /\ lower mid = lower k.
Proof.
  intros Hk. change ("%" ++ k ++ "%")%string with (String "%" (k ++ "%")).
  rewrite like_percent_iff. split.
  - intros (pre & post & -> & H). apply (like_literal k Hk) in H.
    destruct H as (mid & post' & -> & Hmid & _). eauto.
  - intros (pre & mid & post & -> & Hmid). exists pre, (mid ++ post)%string.
    split; [reflexivity|].
    apply (like_literal k Hk). exists mid, post.
    split; [reflexivity|]. split; [assumption|apply like_anything].
Qed.

Lemma lower_char_wildcard (c : ascii) :
  (lower_char c =? "%")%char = (c =? "%")%char
  /\ (lower_char c =? "_")%char = (c =? "_")%char.
Proof. destruct c as [[] [] [] [] [] [] [] []]; split; reflexivity. Qed.

Lemma no_wildcard_lower (k : string) : no_wildcard (lower k) = no_wildcard k.
Proof.
  induction k as [|c k IH]; [reflexivity|].
  cbn [lower no_wildcard]. destruct (lower_char_wildcard c) as [-> ->].
  now rewrite IH.
Qed.

Lemma lower_char_idem (c : ascii) : lower_char (lower_char c) = lower_char c.
Proof. destruct c as [[] [] [] [] [] [] [] []]; reflexivity. Qed.

Lemma lower_idem (s : string) : lower (lower s) = lower s.
Proof.
  induction s as [|c s IH]; [reflexivity|].
  cbn [lower]. now rewrite lower_char_idem, IH.
Qed.

Lemma lower_split (s a b : string) :
  lower s = (a ++ b)%string ->
  exists a0 b0, s = (a0 ++ b0)%string /\ lower a0 = a /\ lower b0 = b.
Proof.
  revert s. induction a as [|c a IH]; intros s H.
  - exists EmptyString, s. auto.
  - destruct s as [|x s]; [discriminate|].
    cbn [lower append] in H. inversion H as [[Hc Hs]].
    destruct (IH s Hs) as (a0 & b0 & -> & Ha & Hb).
    exists (String x a0), b0. cbn [append lower]. rewrite Ha. auto.
Qed.

(** What [str.lower] has produced is left alone by SQL [lower]. *)
Lemma str_lower_char_spec (c : ascii) :
  lower_char (str_lower_char c) = str_lower_char c
  /\ (str_lower_char c =? "%")%char = (c =? "%")%char
  /\ (str_lower_char c =? "_")%char = (c =? "_")%char
  /\ (code (str_lower_char c) =? 0) = (code c =? 0)
  /\ ((code c <? 128) = true -> str_lower_char c = lower_char c).
Proof.
  destruct c as [[] [] [] [] [] [] [] []];
    (split; [reflexivity|]); (split; [reflexivity|]); (split; [reflexivity|]);
    (split; [reflexivity|]); intros H; first [reflexivity|discriminate H].
Qed.

Lemma lower_str_lower (k : string) : lower (str_lower k) = str_lower k.
Proof.
  induction k as [|c k IH]; [reflexivity|]. cbn [str_lower lower].
  now rewrite (proj1 (str_lower_char_spec c)), IH.
Qed.

Lemma no_wildcard_str_lower (k : string) :
  no_wildcard (str_lower k) = no_wildcard k.
Proof.
  induction k as [|c k IH]; [reflexivity|]. cbn [str_lower no_wildcard].
  destruct (str_lower_char_spec c) as (_ & -> & -> & _). now rewrite IH.
Qed.

Lemma no_nul_str_lower (k : string) : no_nul (str_lower k) = no_nul k.
Proof.
  induction k as [|c k IH]; [reflexivity|]. cbn [str_lower no_nul].
  destruct (str_lower_char_spec c) as (_ & _ & _ & -> & _). now rewrite IH.
Qed.

Lemma str_lower_ascii (k : string) : ascii_text k = true -> str_lower k = lower k.
Proof.
  induction k as [|c k IH]; [reflexivity|]. cbn [ascii_text str_lower lower].
  intros H. apply andb_true_iff in H. destruct H as [Hc Hk].
  rewrite (proj2 (proj2 (proj2 (proj2 (str_lower_char_spec c)))) Hc), (IH Hk).
  reflexivity.
Qed.

Lemma lower_char_nul (c : ascii) : (code (lower_char c) =? 0) = (code c =? 0).
Proof. destruct c as [[] [] [] [] [] [] [] []]; reflexivity. Qed.

Lemma no_nul_lower (s : string) : no_nul (lower s) = no_nul s.
Proof.
  induction s as [|c s IH]; [reflexivity|]. cbn [lower no_nul].
  now rewrite lower_char_nul, IH.
Qed.

Lemma no_nul_app (a b : string) : no_nul (a ++ b) = no_nul a && no_nul b.
Proof.
  induction a as [|c a IH]; [reflexivity|]. cbn [append no_nul].
  now rewrite IH, andb_assoc.
Qed.

Lemma c_string_no_nul (s : string) : no_nul s = true -> c_string s = s.
Proof.
  induction s as [|c s IH]; [reflexivity|]. cbn [no_nul c_string].
  intros H. apply andb_true_iff in H. destruct H as [Hc Hs].
  apply negb_true_iff in Hc. now rewrite Hc, (IH Hs).
Qed.

(** The keyword pattern against one column. *)
Lemma like_keyword (k column : string) :
  no_wildcard k = true -> no_nul k = true -> no_nul column = true ->
  like ("%" ++ str_lower k ++ "%") (lower column) = true
  <-> is_substring (str_lower k) (lower column).
Proof.
  intros Hw Hk Hc. unfold like.
  rewrite !c_string_no_nul.
  - rewrite like_contains by (rewrite no_wildcard_str_lower; assumption).
    unfold is_substring. split.
    + intros (pre & mid & post & Heq & Hmid).
      exists pre, post. rewrite Heq. f_equal. f_equal.
      apply lower_split in Heq. destruct Heq as (a0 & b0 & _ & _ & Hb).
      apply lower_split in Hb. destruct Hb as (m0 & p0 & _ & Hm & _).
      rewrite <- Hm, lower_idem in Hmid. rewrite <- Hm, Hmid.
      apply lower_str_lower.
    + intros (pre & post & Heq). exists pre, (str_lower k), post.
      split; [assumption|reflexivity].
  - rewrite no_nul_lower. assumption.
  - change ("%" ++ str_lower k ++ "%")%string with (String "%" (str_lower k ++ "%")).
    cbn [no_nul]. rewrite no_nul_app, no_nul_str_lower, Hk. reflexivity.
Qed.

(** * The sign of the converted amount *)

Lemma fix_keeps_sign (s : bool) (c e : Z) (d : Decimal.t) :
  0 <= c -> Decimal.fix_ (Decimal.Finite s c e) = Return d ->
  exists c' e', d = Decimal.Finite s c' e' /\ 0 <= c'.
Proof.
  intros Hc. unfold Decimal.fix_.
  destruct (Z.eqb_spec c 0) as [->|Hz].
  { intros H. inversion H. eauto with zarith. }
  destruct (_ <? _); [discriminate|].
  set (exp_min := if ndigits c + e - Decimal.prec <? Decimal.Etiny
                  then Decimal.Etiny else ndigits c + e - Decimal.prec).
  destruct (Z.ltb_spec e exp_min) as [He|He].
  2:{ intros H. inversion H. eauto. }
  set (p := if _ <? 0 then (1, exp_min - 1) else (c, e)).
  assert (Hp : 0 <= fst p /\ snd p < exp_min).
  { unfold p. destruct (_ <? 0); cbn [fst snd]; lia. }
  destruct p as [c1 e1]. cbn [fst snd] in Hp.
  assert (Hr : 0 <= round_half_even c1 (10 ^ (exp_min - e1))).
  { apply round_half_even_nonneg; [lia|]. apply Z.pow_pos_nonneg; lia. }
  set (r := round_half_even c1 (10 ^ (exp_min - e1))) in *.
  destruct (Decimal.prec <? ndigits r); cbv beta iota.
  - destruct (Decimal.Etop <? exp_min + 1); [discriminate|]. intros H. inversion H.
    do 2 eexists. split; [reflexivity|]. apply Z.div_pos; lia.
  - destruct (Decimal.Etop <? exp_min); [discriminate|]. intros H. inversion H. eauto.
Qed.

Lemma rescale_keeps_sign (s : bool) (c e exp : Z) :
  0 <= c -> exists c', Decimal.rescale s c e exp = Decimal.Finite s c' exp /\ 0 <= c'.
Proof.
  intros Hc. unfold Decimal.rescale.
  destruct (c =? 0); [eauto with zarith|].
  destruct (Z.leb_spec exp e) as [He|He].
  - eexists. split; [reflexivity|].
    pose proof (Z.pow_pos_nonneg 10 (e - exp) ltac:(lia) ltac:(lia)). nia.
  - set (p := if _ <? 0 then (1, exp - 1) else (c, e)).
    assert (Hp : 0 <= fst p /\ snd p < exp).
    { unfold p. destruct (_ <? 0); cbn [fst snd]; lia. }
    destruct p as [c1 e1]. cbn [fst snd] in Hp.
    eexists. split; [reflexivity|].
    apply round_half_even_nonneg; [lia|]. apply Z.pow_pos_nonneg; lia.
Qed.

Lemma quantize_keeps_sign (s : bool) (c e : Z) (d : Decimal.t) :
  0 <= c -> Decimal.quantize (Decimal.Finite s c e) (Decimal.of_int 1) = Return d ->
  exists c' e', d = Decimal.Finite s c' e' /\ 0 <= c'.
Proof.
  intros Hc. unfold Decimal.quantize, Decimal.of_int.
  change (1 <? 0) with false. change (Z.abs 1) with 1.
  destruct (negb _); [discriminate|].
  destruct (c =? 0).
  { intros H. apply fix_keeps_sign in H; [assumption|lia]. }
  destruct (_ <? _); [discriminate|].
  destruct (_ <? _); [discriminate|].
  destruct (rescale_keeps_sign s c e 0 Hc) as (c' & -> & Hc').
  destruct (_ <? _); [discriminate|].
  destruct (_ <? _); [discriminate|].
  intros H. apply fix_keeps_sign in H; assumption.
Qed.

Lemma scale_to_cents_sign (s : bool) (c e cents : Z) :
  0 <= c -> scale_to_cents (Decimal.Finite s c e) = Return cents ->
  if s then cents <= 0 else 0 <= cents.
Proof.
  intros Hc. unfold scale_to_cents, Decimal.mul. unfold Decimal.of_int at 1.
  change (100 <? 0) with false. change (Z.abs 100) with 100.
  rewrite xorb_false_r.
  destruct (Decimal.fix_ (Decimal.Finite s (c * 100) (e + 0))) as [d1|] eqn:H1;
    [|discriminate].
  apply fix_keeps_sign in H1; [|lia]. destruct H1 as (c1 & e1 & -> & Hc1).
  cbn [bind].
  destruct (Decimal.quantize (Decimal.Finite s c1 e1) (Decimal.of_int 1)) as [d2|] eqn:H2;
    [|discriminate].
  apply quantize_keeps_sign in H2; [|assumption]. destruct H2 as (c2 & e2 & -> & Hc2).
  cbn [bind Decimal.to_int]. intros H. inversion H as [Hv]. clear H.
  assert (Hnn : 0 <= (if 0 <=? e2 then c2 * 10 ^ e2 else c2 / 10 ^ (- e2))).
  { destruct (Z.leb_spec 0 e2).
    - pose proof (Z.pow_pos_nonneg 10 e2 ltac:(lia) ltac:(lia)). nia.
    - apply Z.div_pos; [assumption|]. apply Z.pow_pos_nonneg; lia. }
  destruct s; lia.
Qed.

Lemma parse_amount_negative_has_minus (text : string) (cents : Z) :
  parse_amount_to_cents text = Return cents -> cents < 0 ->
  exists c e, Decimal.of_string text = Some (Decimal.Finite true c e).
Proof.
  unfold parse_amount_to_cents.
  destruct (Decimal.of_string text) as [[s c e|s|s sg]|] eqn:Hs.
  - intros H Hneg. pose proof (of_string_coeff_nonneg _ _ _ _ Hs) as Hc.
    pose proof (scale_to_cents_sign s c e cents Hc H) as Hsign.
    destruct s; [eauto|lia].
  - intros H. discriminate H.
  - intros H. destruct sg; discriminate H.
  - intros H. discriminate H.
Qed.

Lemma parse_amount_raises (text : string) (e : exn) :
  parse_amount_to_cents text = Raise e ->
  e = ValueError "Invalid amount" \/ arithmetic_error e.
Proof.
  unfold parse_amount_to_cents.
  destruct (Decimal.of_string text) as [v|].
  - intros H. right. eapply scale_to_cents_raises. eassumption.
  - intros H. inversion H. auto.
Qed.

(** * Plain numerals are accepted by the constructor *)

Lemma span_digits_concat (s : string) :
  s = (fst (span_digits s) ++ snd (span_digits s))%string.
Proof.
  induction s as [|c s IH]; [reflexivity|].
  cbn [span_digits]. destruct (is_digit c); [|reflexivity].
  destruct (span_digits s) as [d rest]. cbn [fst snd append] in *. now rewrite <- IH.
Qed.

Lemma split_sign_cases (s : string) :
  (s = String "-" (snd (Decimal.split_sign s)) /\ fst (Decimal.split_sign s) = true)
  \/ (s = String "+" (snd (Decimal.split_sign s)) /\ fst (Decimal.split_sign s) = false)
  \/ (s = snd (Decimal.split_sign s) /\ fst (Decimal.split_sign s) = false).
Proof.
  destruct s as [|c r]; [right; right; split; reflexivity|].
  destruct c as [[] [] [] [] [] [] [] []]; cbn; auto.
Qed.

Lemma representable_digits (ds : string) (k : nat) :
  all_digits ds = true -> ds <> EmptyString -> (k <= String.length ds)%nat ->
  Z.of_nat (String.length ds) <= Decimal.MAX_EMAX ->
  Decimal.representable (digits_value ds) (0 - Z.of_nat k) = true.
Proof.
  intros Hd Hne Hk Hlen. pose proof (ndigits_digits_value ds Hd Hne).
  unfold Decimal.MAX_EMAX in Hlen.
  apply representable_bounds; unfold Decimal.MIN_ETINY, Decimal.MAX_EMAX; lia.
Qed.

Lemma plain_numeral_accepted (s : string) :
  plain_numeral s = true -> Z.of_nat (String.length s) <= Decimal.MAX_EMAX ->
  exists sign c e, Decimal.of_string s = Some (Decimal.Finite sign c e) /\ e <= 0.
Proof.
  intros Hplain0 Hlen. revert Hplain0. unfold plain_numeral.
  pose proof (split_sign_cases s) as Hsign.
  destruct (Decimal.split_sign s) as [sg body] eqn:Hss. cbn [fst snd] in Hsign.
  pose proof (span_digits_concat body) as Hbody.
  pose proof (span_digits_all_digits body) as Hip.
  destruct (span_digits body) as [ip rest] eqn:Hspan. cbn [fst snd] in *.
  intros Hplain.
  assert (Hshape : (rest = EmptyString /\ ip <> EmptyString)
                   \/ exists frac, rest = String "." frac /\ all_digits frac = true
                                   /\ (ip ++ frac)%string <> EmptyString).
  { destruct rest as [|x frac].
    - left. split; [reflexivity|]. intros ->. discriminate.
    - destruct (Ascii.eqb_spec x ".") as [->|Hx].
      + right. exists frac. apply andb_true_iff in Hplain. destruct Hplain as [Hf Hne].
        split; [reflexivity|]. split; [assumption|].
        intros E. rewrite E in Hne. discriminate.
      + exfalso. destruct x as [[] [] [] [] [] [] [] []];
          try discriminate Hplain. apply Hx. reflexivity. }
  assert (Hpb : plain_text body = true).
  { rewrite Hbody, plain_text_app, (all_digits_plain ip Hip).
    destruct Hshape as [[-> _]|(frac & -> & Hf & _)]; [reflexivity|].
    cbn [plain_text]. now rewrite (all_digits_plain frac Hf). }
  assert (Hps : plain_text s = true).
  { destruct Hsign as [[-> _]|[[-> _]|[-> _]]]; cbn [plain_text]; rewrite ?Hpb; reflexivity. }
  assert (Hbs : (String.length body <= String.length s)%nat).
  { destruct Hsign as [[-> _]|[[-> _]|[-> _]]]; cbn [String.length]; lia. }
  unfold Decimal.of_string.
  rewrite (strip_plain s Hps), (remove_underscores_plain s Hps), Hss.
  unfold Decimal.parse_number. rewrite Hspan.
  destruct Hshape as [[-> Hne]|(frac & -> & Hf & Hne)].
  - rewrite append_empty_r in *.
    assert (Hrep : Decimal.representable (digits_value ip)
                     (0 - Z.of_nat (String.length EmptyString)) = true).
    { apply representable_digits; try assumption; [cbn; lia|]. subst body. lia. }
    destruct ip as [|x ip']; [congruence|].
    cbn [Decimal.parse_exponent]. rewrite Hrep.
    do 3 eexists. split; [reflexivity|]. simpl. lia.
  - rewrite (span_digits_all frac Hf).
    assert (Hrep : Decimal.representable (digits_value (ip ++ frac))
                     (0 - Z.of_nat (String.length frac)) = true).
    { rewrite Hbody, !length_append in Hbs. cbn [String.length] in Hbs.
      apply representable_digits; try assumption.
      - rewrite all_digits_app, Hip, Hf. reflexivity.
      - rewrite length_append. lia.
      - rewrite length_append. lia. }
    destruct (ip ++ frac)%string as [|x ds]; [congruence|].
    cbn [Decimal.parse_exponent]. rewrite Hrep.
    do 3 eexists. split; [reflexivity|]. lia.
Qed.

(** * Scoping, filtering and ordering *)

Lemma scoped_query_spec (db : DB) (user : User.t) (tx : Transaction.t) :
  In tx (scoped_query db user)
  <-> In tx (transactions db)
      /\ Transaction.org_id tx = User.org_id user
      /\ (User.role user = ROLE_USER -> Transaction.user_id tx = User.id user).
Proof.
  unfold scoped_query.
  destruct (String.eqb_spec (User.role user) ROLE_USER) as [Hr|Hr].
  - rewrite !filter_In, !Z.eqb_eq. tauto.
  - rewrite filter_In, Z.eqb_eq. tauto.
Qed.

Lemma filter_filter {A : Type} (f g : A -> bool) (l : list A) :
  filter f (filter g l) = filter (fun x => g x && f x) l.
Proof.
  induction l as [|x l IH]; [reflexivity|].
  cbn [filter]. destruct (g x); cbn [filter andb]; rewrite IH; reflexivity.
Qed.

Lemma filter_true {A : Type} (l : list A) : filter (fun _ => true) l = l.
Proof. induction l as [|x l IH]; [reflexivity|]. cbn [filter]. now rewrite IH. Qed.

Lemma and_app (a b : list clause) (tx : Transaction.t) :
  and_ (a ++ b) tx = and_ a tx && and_ b tx.
Proof. unfold and_. apply forallb_app. Qed.

Lemma apply_filters_filter (filters : list clause) (query : list Transaction.t) :
  apply_filters filters query = filter (and_ filters) query.
Proof.
  destruct filters as [|f fs]; [|reflexivity].
  cbn [apply_filters]. symmetry. apply filter_true.
Qed.

Lemma filter_and_app (a b : list clause) (query : list Transaction.t) :
  filter (and_ (a ++ b)) query = filter (and_ b) (filter (and_ a) query).
Proof.
  rewrite filter_filter. apply filter_ext. intros tx. apply and_app.
Qed.

Lemma filter_and_single (f : clause) (query : list Transaction.t) :
  filter (and_ [f]) query = filter f query.
Proof.
  apply filter_ext. intros tx. unfold and_. cbn [forallb]. apply andb_true_r.
Qed.

Lemma insert_sorted_perm {A : Type} (ahead : A -> A -> bool) (x : A) (l : list A) :
  Permutation (insert_sorted ahead x l) (x :: l).
Proof.
  induction l as [|y l IH]; [reflexivity|].
  cbn [insert_sorted]. destruct (ahead y x); [|reflexivity].
  rewrite IH. apply perm_swap.
Qed.

Lemma sort_by_perm {A : Type} (ahead : A -> A -> bool) (l : list A) :
  Permutation (sort_by ahead l) l.
Proof.
  induction l as [|x l IH]; [reflexivity|].
  unfold sort_by in *. cbn [fold_right].
  rewrite insert_sorted_perm. now constructor.
Qed.

Lemma sort_by_In {A : Type} (ahead : A -> A -> bool) (l : list A) (x : A) :
  In x (sort_by ahead l) <-> In x l.
Proof.
  split; apply Permutation_in; [|symmetry]; apply sort_by_perm.
Qed.

Lemma date_ltb_leb (a b : Date.t) : Date.ltb a b = true -> Date.leb a b = true.
Proof.
  unfold Date.ltb, Date.leb. rewrite negb_true_iff.
  destruct (Z.ltb_spec (Date.year a) (Date.year b)),
    (Z.ltb_spec (Date.year b) (Date.year a)),
    (Z.eqb_spec (Date.year a) (Date.year b)),
    (Z.eqb_spec (Date.year b) (Date.year a)),
    (Z.ltb_spec (Date.month a) (Date.month b)),
    (Z.ltb_spec (Date.month b) (Date.month a)),
    (Z.eqb_spec (Date.month a) (Date.month b)),
    (Z.eqb_spec (Date.month b) (Date.month a)),
    (Z.leb_spec (Date.day a) (Date.day b)),
    (Z.leb_spec (Date.day b) (Date.day a)); cbn; intros; try reflexivity; try discriminate; lia.
Qed.

Lemma insert_desc_sorted (x : Transaction.t) (l : list Transaction.t) :
  Sorted not_before l ->
  Sorted not_before
    (insert_sorted
       (fun y x => Date.ltb (Transaction.occurred_at x) (Transaction.occurred_at y)) x l).
Proof.
  induction 1 as [|y l Hs IH Hhd]; cbn [insert_sorted].
  - repeat constructor.
  - destruct (Date.ltb (Transaction.occurred_at x) (Transaction.occurred_at y)) eqn:Hlt.
    + constructor; [assumption|].
      destruct l as [|z l]; cbn [insert_sorted] in *.
      * constructor. apply date_ltb_leb. assumption.
      * destruct (Date.ltb (Transaction.occurred_at x) (Transaction.occurred_at z)).
        -- constructor. inversion Hhd. assumption.
        -- constructor. apply date_ltb_leb. assumption.
    + constructor; [constructor; assumption|].
      constructor. unfold not_before, Date.ltb in *.
      apply negb_false_iff in Hlt. assumption.
Qed.

Lemma order_by_sorted (query : list Transaction.t) :
  Sorted not_before (order_by_occurred_at_desc query).
Proof.
  unfold order_by_occurred_at_desc, sort_by.
  induction query as [|x l IH]; cbn [fold_right]; [constructor|].
  apply insert_desc_sorted. assumption.
Qed.

(** * The export against the listing *)

Lemma filter_and_nil (query : list Transaction.t) : filter (and_ []) query = query.
Proof. apply filter_true. Qed.

Lemma export_date_step_clause (raw : option string) (cmp : Date.t -> Date.t -> bool)
  (query : list Transaction.t) :
  export_date_step raw cmp query
  = (d <- parse_date_param raw ;; Return (filter (and_ (date_clause d cmp)) query)).
Proof.
  unfold export_date_step, parse_date_param.
  destruct (truthy raw) as [text|]; cbn [bind date_clause].
  - destruct (Date.strptime text) as [d|e]; cbn [bind date_clause].
    + now rewrite filter_and_single.
    + destruct e; cbn [bind date_clause]; try reflexivity. now rewrite filter_and_nil.
  - now rewrite filter_and_nil.
Qed.

Lemma export_id_step_clause (raw : option string) (column : Transaction.t -> Z)
  (query : list Transaction.t) :
  export_id_step raw column query
  = (c <- id_clause raw column ;; Return (filter (and_ c) query)).
Proof.
  unfold export_id_step, id_clause.
  destruct (truthy raw) as [text|]; cbn [bind].
  - destruct (py_int text) as [v|e]; cbn [bind]; [|reflexivity].
    now rewrite filter_and_single.
  - now rewrite filter_and_nil.
Qed.

Lemma keyword_step_clause (raw : option string) (query : list Transaction.t) :
  match truthy raw with
  | Some keyword => filter (keyword_clause keyword) query
  | None => query
  end = filter (and_ (keyword_clauses raw)) query.
Proof.
  unfold keyword_clauses. destruct (truthy raw).
  - now rewrite filter_and_single.
  - now rewrite filter_and_nil.
Qed.

(** Without amount bounds the export selects the rows of the listing
    query, all of them, in the listing's order. *)
Lemma export_query_without_amounts (db : DB) (user : User.t) (p : query_params) :
  truthy (min_amount p) = None -> truthy (max_amount p) = None ->
  export_query db user p
  = (query <- listing_query db user p ;; Return (order_by_occurred_at_desc query)).
Proof.
  intros Hmin Hmax.
  unfold export_query, listing_query, listing_filters, amount_clause.
  rewrite Hmin, Hmax, !export_date_step_clause.
  destruct (parse_date_param (start_date p)) as [d1|]; cbn [bind]; [|reflexivity].
  rewrite export_date_step_clause.
  destruct (parse_date_param (end_date p)) as [d2|]; cbn [bind]; [|reflexivity].
  rewrite export_id_step_clause.
  destruct (id_clause (category_id p) Transaction.category_id) as [c1|]; cbn [bind];
    [|reflexivity].
  rewrite export_id_step_clause.
  destruct (id_clause (account_id p) Transaction.account_id) as [c2|]; cbn [bind];
    [|reflexivity].
  rewrite keyword_step_clause, apply_filters_filter.
  cbn [app]. rewrite !filter_and_app. reflexivity.
Qed.

(** * The listing page *)

Lemma firstn_length_le {A : Type} (n : nat) (l : list A) :
  (List.length (firstn n l) <= n)%nat.
Proof. rewrite length_firstn. apply Nat.le_min_l. Qed.

Lemma in_firstn {A : Type} (n : nat) (l : list A) (x : A) :
  In x (firstn n l) -> In x l.
Proof.
  revert l. induction n as [|n IH]; intros l; [contradiction|].
  destruct l as [|y l]; [contradiction|].
  cbn [firstn In]. intros [H|H]; [left; assumption|right; apply IH; assumption].
Qed.

Lemma transactions_list_page (db : DB) (user : User.t) (p : query_params)
  (ctx : listing_context) :
  transactions_list db (Some user) p = Return (Page ctx) ->
  exists filters,
    listing_filters p = Return filters
    /\ listing_transactions ctx
       = firstn 500 (order_by_occurred_at_desc
                       (filter (and_ filters) (scoped_query db user)))
    /\ listing_income_cents ctx
       = sum_amount_cents (of_type "income" (filter (and_ filters) (scoped_query db user)))
    /\ listing_expense_cents ctx
       = sum_amount_cents (of_type "expense" (filter (and_ filters) (scoped_query db user)))
    /\ (List.length (listing_transactions ctx) <= 500)%nat.
Proof.
  unfold transactions_list, listing_query.
  destruct (listing_filters p) as [filters|]; cbn [bind]; [|discriminate].
  rewrite apply_filters_filter.
  destruct (cents_to_display _) as [t1|]; cbn [bind]; [|discriminate].
  destruct (cents_to_display _) as [t2|]; cbn [bind]; [|discriminate].
  destruct (cents_to_display _) as [t3|]; cbn [bind]; [|discriminate].
  intros H. injection H as <-.
  exists filters. split; [reflexivity|]. split; [reflexivity|].
  split; [reflexivity|]. split; [reflexivity|].
  exact (firstn_length_le 500 _).
Qed.

Lemma malformed_date_ignored (text : string) (e : exn) :
  Date.strptime text = Raise e -> parse_date_param (Some text) = Return None.
Proof.
  intros H. destruct (strptime_raises text e H) as [msg ->].
  unfold parse_date_param. destruct text as [|c r]; [reflexivity|].
  cbn [truthy]. now rewrite H.
Qed.

Lemma rejected_amount_ignored (text : string) (cmp : Z -> Z -> bool) :
  Decimal.of_string text = None -> amount_clause (Some text) cmp = Return [].
Proof.
  intros H. unfold amount_clause. destruct text as [|c r]; [reflexivity|].
  cbn [truthy]. unfold parse_amount_to_cents. now rewrite H.
Qed.

(** * Reads that go through the scoped query *)

Lemma scoped_reads_agree (db1 db2 : DB) (user : User.t) (p : query_params)
  (today : Date.t) :
  scoped_query db1 user = scoped_query db2 user ->
  transactions_list db1 (Some user) p = transactions_list db2 (Some user) p
  /\ export_query db1 user p = export_query db2 user p
  /\ dashboard_month_sums db1 user today = dashboard_month_sums db2 user today.
Proof.
  intros H.
  unfold transactions_list, listing_query, export_query, dashboard_month_sums.
  rewrite H. repeat split; reflexivity.
Qed.

Lemma listing_rows_scoped (db : DB) (user : User.t) (p : query_params)
  (ctx : listing_context) (tx : Transaction.t) :
  transactions_list db (Some user) p = Return (Page ctx) ->
  In tx (listing_transactions ctx) ->
  Transaction.org_id tx = User.org_id user
  /\ (User.role user = ROLE_USER -> Transaction.user_id tx = User.id user).
Proof.
  intros H Hin. destruct (transactions_list_page _ _ _ _ H) as (fs & _ & Hrows & _).
  rewrite Hrows in Hin. apply in_firstn in Hin. apply sort_by_In in Hin.
  apply filter_In in Hin. destruct Hin as [Hin _].
  apply scoped_query_spec in Hin. tauto.
Qed.

(** The reads that are not narrowed to the user still stay inside the
    user's organization. *)
Lemma org_reads_agree (db1 db2 : DB) (user : User.t) (today : Date.t) (b : Budget.t) :
  filter (fun tx => Transaction.org_id tx =? User.org_id user) (transactions db1)
  = filter (fun tx => Transaction.org_id tx =? User.org_id user) (transactions db2) ->
  categories db1 = categories db2 ->
  scoped_query db1 user = scoped_query db2 user
  /\ category_breakdown db1 user today = category_breakdown db2 user today
  /\ budget_spent db1 user b = budget_spent db2 user b.
Proof.
  intros Htx Hcat.
  split; [unfold scoped_query; now rewrite Htx|]. split.
  - unfold category_breakdown, breakdown_rows. rewrite Hcat. do 2 f_equal.
    apply flat_map_ext. intros c. f_equal.
    transitivity
      (filter
         (fun tx =>
            (Transaction.category_id tx =? Category.id c)
            && (Transaction.type tx =? "expense")%string
            && Date.leb (month_start today) (Transaction.occurred_at tx))
         (filter (fun tx => Transaction.org_id tx =? User.org_id user)
            (transactions db1))).
    + rewrite filter_filter. apply filter_ext. intros tx.
      destruct (Transaction.category_id tx =? Category.id c),
        (Transaction.org_id tx =? User.org_id user); reflexivity.
    + rewrite Htx, filter_filter. apply filter_ext. intros tx.
      destruct (Transaction.category_id tx =? Category.id c),
        (Transaction.org_id tx =? User.org_id user); reflexivity.
  - unfold budget_spent, budget_query.
    assert (Hq : forall d : DB,
               filter
                 (fun tx =>
                    (Transaction.org_id tx =? User.org_id user)
                    && (Transaction.type tx =? "expense")%string
                    && Date.leb (Budget.start_date b) (Transaction.occurred_at tx)
                    && Date.leb (Transaction.occurred_at tx) (Budget.end_date b))
                 (transactions d)
               = filter
                   (fun tx =>
                      (Transaction.type tx =? "expense")%string
                      && Date.leb (Budget.start_date b) (Transaction.occurred_at tx)
                      && Date.leb (Transaction.occurred_at tx) (Budget.end_date b))
                   (filter (fun tx => Transaction.org_id tx =? User.org_id user)
                      (transactions d))).
    { intros d. rewrite filter_filter. apply filter_ext. intros tx.
      now rewrite <- !andb_assoc. }
    now rewrite !Hq, Htx.
Qed.

(** * Budget spend *)

Lemma budget_spent_spec (db : DB) (user : User.t) (b : Budget.t) :
  Budget.category_id b <> Some 0 ->
  budget_spent db user b
  = sum_amount_cents
      (filter
         (fun tx =>
            (Transaction.org_id tx =? User.org_id user)
            && (Transaction.type tx =? "expense")%string
            && Date.leb (Budget.start_date b) (Transaction.occurred_at tx)
            && Date.leb (Transaction.occurred_at tx) (Budget.end_date b)
            && match Budget.category_id b with
               | Some c => Transaction.category_id tx =? c
               | None => true
               end)
         (transactions db)).
Proof.
  intros Hz. unfold budget_spent, budget_query, truthy_int.
  destruct (Budget.category_id b) as [c|].
  - destruct (Z.eqb_spec c 0) as [->|_]; [congruence|].
    now rewrite filter_filter.
  - f_equal. apply filter_ext. intros tx. now rewrite andb_true_r.
Qed.

Lemma budget_summaries_remaining (db : DB) (user : User.t) (s : budget_summary) :
  In s (budget_summaries db user) ->
  summary_spent s = budget_spent db user (summary_budget s)
  /\ summary_remaining s = Budget.amount_cents (summary_budget s) - summary_spent s
  /\ (summary_remaining s < 0 <-> Budget.amount_cents (summary_budget s) < summary_spent s).
Proof.
  unfold budget_summaries. rewrite in_map_iff. intros (b & <- & _). cbn. lia.
Qed.

(** * The claims *)

(** Closes a goal in which a parser is assumed to have raised the HTTP
    error that the handler's outcome [H] shows. *)
Ltac raised_by_parser H :=
  cbn [snd] in H; inversion H; subst;
  match goal with
  | Hd : Date.strptime _ = Raise _ |- _ =>
      destruct (strptime_raises _ _ Hd) as [? Hm]; discriminate Hm
  | Hp : parse_amount_to_cents _ = Raise _ |- _ =>
      destruct (parse_amount_raises _ _ Hp) as [E|[E|[E|[E|E]]]]; discriminate E
  end.

(** Splits a handler's outcome [H] at [db.commit()]: the new row fits
    its columns, or the commit raises. *)
Ltac at_commit H :=
  match type of H with
  | context [if ?fits then _ else _] => destruct fits
  end.

(** C1 (the code departs from the claim).  Every transaction-reading
    operation is to compute its result from the acting user's own rows
    when the role is [user], and from the rows of the user's organization
    otherwise.  The listing, the export, the dashboard sums and the report
    sums do ([scoped_query_spec], [scoped_reads_agree],
    [listing_rows_scoped]) and no read leaves the organization
    ([org_reads_agree]); but the category breakdown of the report page is
    not narrowed to the user: Bob, whose role is [user] and who owns no
    transaction, is shown the totals of Alice's expenses next to sums of
    0.00. *)
Theorem category_breakdown_ignores_user_scope :
  User.role Sample.bob = ROLE_USER
  /\ scoped_query Sample.db Sample.bob = []
  /\ (forall tx, In tx (transactions Sample.db) ->
        Transaction.user_id tx <> User.id Sample.bob)
  /\ category_breakdown Sample.db Sample.bob Sample.today
     = [("Rent", 5000); ("Food", 1000)]
  /\ reports_page Sample.db (Some Sample.bob) Sample.today
     = Return (Page (mkReports "0.00" "0.00" "0.00" "0.00" "0.00" "0.00"
                       [("Rent", 5000); ("Food", 1000)])).
Proof.
  split; [reflexivity|]. split; [reflexivity|].
  split; [|split; reflexivity].
  intros tx [<-|[<-|[<-|[]]]]; discriminate.
Qed.

(** C2 (the code departs from the claim).  The export is to select the
    rows the listing query selects.  It does so when no amount bound is
    given ([export_query_without_amounts]), but it never reads
    [min_amount] and [max_amount]: with the bounds 20 and 60 the listing
    keeps the 50.00 row only and the export returns all three rows. *)
Theorem export_ignores_amount_bounds :
  listing_query Sample.db Sample.alice Sample.amounts_20_to_60
  = Return [Sample.flight]
  /\ export_query Sample.db Sample.alice Sample.amounts_20_to_60
     = Return [Sample.coffee; Sample.salary; Sample.flight]
  /\ export_csv Sample.db (Some Sample.alice) Sample.amounts_20_to_60
     = Return (Page [export_header;
                     ["2024-05-20"; "expense"; "10.00"; "Food"; "Cash"; "coffee";
                      "morning"; "Alice"];
                     ["2024-05-20"; "income"; "1000.00"; "Food"; "Cash"; "salary";
                      "income"; "Alice"];
                     ["2024-05-19"; "expense"; "50.00"; "Rent"; "Cash"; "flight";
                      "trip"; "Alice"]]).
Proof. repeat split; reflexivity. Qed.

(** C3, counterexample: a user whose role is the unrecognized text
    [guest] creates a transaction. *)
Lemma unrecognized_role_creates_transaction :
  User.role Sample.gus <> ROLE_ADMIN
  /\ User.role Sample.gus <> ROLE_USER
  /\ transaction_create Sample.db (Some Sample.gus) (Sample.form "12.50")
     = (add_transaction Sample.db
          (Transaction.mk 4 1 4 1 3 1250 "expense" (Date.mk 2024 5 20)
             (Some "lunch") None),
        Return (Redirect "/transactions")).
Proof.
  split; [discriminate|]. split; [discriminate|]. reflexivity.
Qed.

(** C3 (amended).  [require_role] raises the 403 error exactly when the
    user's role is not among the allowed ones.  Creating a transaction or
    a budget raises a 403 error exactly when the actor's role is
    [readonly], and then nothing is stored; every other role, recognized
    or not, passes the guard. *)
Theorem create_denied_exactly_for_readonly (db : DB) (user : User.t) :
  (forall allowed,
      require_role user allowed = Raise (HTTPException 403 "Access denied")
      <-> ~ In (User.role user) allowed)
  /\ (forall allowed,
        require_role user allowed = Return tt <-> In (User.role user) allowed)
  /\ (forall form,
        (exists detail, snd (transaction_create db (Some user) form)
                        = Raise (HTTPException 403 detail))
        <-> User.role user = ROLE_READONLY)
  /\ (forall form,
        (exists detail, snd (budgets_create db (Some user) form)
                        = Raise (HTTPException 403 detail))
        <-> User.role user = ROLE_READONLY)
  /\ (User.role user = ROLE_READONLY ->
      forall tform bform,
        fst (transaction_create db (Some user) tform) = db
        /\ fst (budgets_create db (Some user) bform) = db).
Proof.
  assert (Hin : forall allowed,
             existsb (String.eqb (User.role user)) allowed = true
             <-> In (User.role user) allowed).
  { intros allowed. rewrite existsb_exists. split.
    - intros (x & Hx & E). apply String.eqb_eq in E. now subst x.
    - intros H. exists (User.role user). split; [assumption|apply String.eqb_refl]. }
  split; [|split; [|split; [|split]]].
  - intros allowed. unfold require_role. rewrite <- Hin.
    destruct (existsb _ allowed); split; intros H.
    + discriminate H.
    + exfalso. apply H. reflexivity.
    + intros E. discriminate E.
    + reflexivity.
  - intros allowed. unfold require_role. rewrite <- Hin.
    destruct (existsb _ allowed); split; intros H; try discriminate; reflexivity.
  - intros form. unfold transaction_create.
    destruct (String.eqb_spec (User.role user) ROLE_READONLY) as [Hr|Hr].
    + split; [intros _; assumption|intros _; eexists; reflexivity].
    + split; [|contradiction]. intros [detail H]. exfalso.
      destruct (parse_amount_to_cents (form_amount form)) as [cents|e] eqn:Hp;
        [|raised_by_parser H].
      destruct (Date.strptime (form_occurred_at form)) as [d|e] eqn:Hd;
        [at_commit H; discriminate H|raised_by_parser H].
  - intros form. unfold budgets_create.
    destruct (String.eqb_spec (User.role user) ROLE_READONLY) as [Hr|Hr].
    + split; [intros _; assumption|intros _; eexists; reflexivity].
    + split; [|contradiction]. intros [detail H]. exfalso.
      destruct (parse_amount_to_cents (form_budget_amount form)) as [cents|e] eqn:Hp;
        [|raised_by_parser H].
      destruct (Date.strptime (form_start_date form)) as [d|e] eqn:Hd;
        [|raised_by_parser H].
      destruct (Date.strptime (form_end_date form)) as [d'|e] eqn:Hd';
        [at_commit H; discriminate H|raised_by_parser H].
  - intros Hr tform bform. unfold transaction_create, budgets_create.
    rewrite Hr. split; reflexivity.
Qed.

(** C3, witness: the read-only user of the sample data. *)
Lemma create_denied_exactly_for_readonly_witness :
  User.role Sample.rita = ROLE_READONLY
  /\ fst (transaction_create Sample.db (Some Sample.rita) (Sample.form "3.00"))
     = Sample.db
  /\ fst (budgets_create Sample.db (Some Sample.rita) Sample.budget_form_food)
     = Sample.db.
Proof.
  split; [reflexivity|].
  apply (proj2 (proj2 (proj2 (proj2
           (create_denied_exactly_for_readonly Sample.db Sample.rita))))).
  reflexivity.
Defined.

(** C4 (the code departs from the claim).  A bound that cannot be turned
    into cents is to be dropped, never to fail the listing.  A text the
    decimal constructor rejects is dropped ([rejected_amount_ignored]) and
    otherwise the page is the filtered, ordered and capped query with the
    two sums over all matching rows ([transactions_list_page]); but the
    error raised after the constructor has accepted the text is not the
    one the listing catches: with [min_amount = "Infinity"] the whole
    listing fails. *)
Theorem listing_aborts_on_infinite_bound :
  parse_amount_to_cents "Infinity" = Raise InvalidOperation
  /\ is_value_error InvalidOperation = false
  /\ transactions_list Sample.db (Some Sample.alice) Sample.min_infinity
     = Raise InvalidOperation.
Proof. repeat split; reflexivity. Qed.

(** C5, counterexample: a plain numeral of 27 digits is refused with
    [InvalidOperation], and an amount just above half a cent, written
    with 29 significant digits, is rounded down to 0 although the integer
    nearest to its hundredfold is 1. *)
Lemma amount_precision_counterexample :
  plain_numeral "100000000000000000000000000" = true
  /\ parse_amount_to_cents "100000000000000000000000000" = Raise InvalidOperation
  /\ Decimal.of_string "0.0050000000000000000000000000001"
     = Some (Decimal.Finite false 50000000000000000000000000001 (-31))
  /\ parse_amount_to_cents "0.0050000000000000000000000000001" = Return 0
  /\ ~ nearest_even (100 * 50000000000000000000000000001) (10 ^ 31) 0.
Proof.
  split; [reflexivity|]. split; [reflexivity|]. split; [reflexivity|].
  split; [reflexivity|].
  unfold nearest_even. intros [H _]. vm_compute in H. apply H. reflexivity.
Qed.

(** C5 (amended).  [parse_amount_to_cents] works on exact decimals.  It
    raises [ValueError("Invalid amount")] for every text that the decimal
    constructor rejects, as it does the empty string and non-numeric text
    and never a plain numeral (of fewer than 10^18 characters); a text
    that reads as a quiet NaN ends in a [ValueError] as well.  For a text
    that denotes a finite decimal [c * 10^e] whose hundredfold fits the 28
    digits of the context, it returns the hundredfold rounded to the
    nearest integer, ties to the even one.  Whenever it raises, the create
    handlers store nothing. *)
Theorem parse_amount_to_cents_rounds_half_even :
  (forall s,
      Decimal.of_string s = None ->
      parse_amount_to_cents s = Raise (ValueError "Invalid amount"))
  /\ parse_amount_to_cents "" = Raise (ValueError "Invalid amount")
  /\ parse_amount_to_cents "abc" = Raise (ValueError "Invalid amount")
  /\ (forall s, plain_numeral s = true ->
        Z.of_nat (String.length s) <= Decimal.MAX_EMAX ->
        exists sign c e,
          Decimal.of_string s = Some (Decimal.Finite sign c e) /\ e <= 0)
  /\ (forall s sign c e,
        Decimal.of_string s = Some (Decimal.Finite sign c e) ->
        100 * c < 10 ^ 28 ->
        (0 < e -> 100 * c * 10 ^ e < 10 ^ 28) ->
        exists r,
          parse_amount_to_cents s = Return (if sign then - r else r)
          /\ 0 <= r
          /\ (0 <= e -> r = 100 * c * 10 ^ e)
          /\ (e < 0 -> nearest_even (100 * c) (10 ^ (- e)) r))
  /\ (forall db user tform bform e,
        (parse_amount_to_cents (form_amount tform) = Raise e ->
         fst (transaction_create db user tform) = db)
        /\ (parse_amount_to_cents (form_budget_amount bform) = Raise e ->
            fst (budgets_create db user bform) = db))
  /\ (forall s sign,
        Decimal.of_string s = Some (Decimal.NaN sign false) ->
        exists msg, parse_amount_to_cents s = Raise (ValueError msg)).
Proof.
  split; [|split; [reflexivity|split; [reflexivity|split; [|split; [|split]]]]].
  - intros s Hs. unfold parse_amount_to_cents. rewrite Hs. reflexivity.
  - intros s Hp Hlen. apply plain_numeral_accepted; assumption.
  - intros s sg c e Hs Hc He. unfold parse_amount_to_cents. rewrite Hs.
    apply scale_to_cents_in_range; try assumption.
    eapply of_string_coeff_nonneg. eassumption.
  - intros db user tform bform e. split; intros H.
    + unfold transaction_create. destruct user as [user|]; [|reflexivity].
      destruct (_ =? _)%string; [reflexivity|]. rewrite H. reflexivity.
    + unfold budgets_create. destruct user as [user|]; [|reflexivity].
      destruct (_ =? _)%string; [reflexivity|]. rewrite H. reflexivity.
  - intros s sg Hs. unfold parse_amount_to_cents. rewrite Hs.
    eexists. reflexivity.
Qed.

(** C5, witness: 0.125 becomes 12 cents, the tie going to the even
    neighbour. *)
Lemma parse_amount_to_cents_rounds_half_even_witness :
  Decimal.of_string "0.125" = Some (Decimal.Finite false 125 (-3))
  /\ exists r,
       parse_amount_to_cents "0.125" = Return r
       /\ 0 <= r
       /\ (0 <= -3 -> r = 100 * 125 * 10 ^ (-3))
       /\ (-3 < 0 -> nearest_even (100 * 125) (10 ^ (- -3)) r).
Proof.
  split; [reflexivity|].
  apply (proj1 (proj2 (proj2 (proj2 (proj2 parse_amount_to_cents_rounds_half_even))))
           "0.125" false 125 (-3)).
  - reflexivity.
  - reflexivity.
  - intros H. discriminate H.
Defined.

(** C6, counterexample: a valid amount with two fractional digits whose
    display differs from its two-decimal form. *)
Lemma display_inexact_counterexample :
  normalizedTwoDecimalForm "90071992547409.93" = Some "90071992547409.93"
  /\ (c <- parse_amount_to_cents "90071992547409.93" ;; cents_to_display c)
     = Return "90071992547409.94".
Proof. split; reflexivity. Qed.

(** C6 (amended).  For every integer [c] of magnitude below
    [display_range] (100 * 2^46 cents), [cents_to_display c] is [c / 100]
    written with exactly two fractional digits and no grouping
    separators, and [parse_amount_to_cents] reads it back as [c]; and for
    every decimal text with at most two fractional digits whose value in
    cents is below that bound, displaying the parsed amount gives the
    normalized two-decimal form of the text. *)
Theorem display_round_trip_in_range :
  (forall c, Z.abs c < display_range ->
      cents_to_display c = Return (two_decimal_form c)
      /\ Decimal.of_string (two_decimal_form c)
         = Some (Decimal.Finite (c <? 0) (Z.abs c) (-2))
      /\ (text <- cents_to_display c ;; parse_amount_to_cents text) = Return c)
  /\ (forall s c, exact_cents s = Some c -> Z.abs c < display_range ->
        normalizedTwoDecimalForm s = Some (two_decimal_form c)
        /\ (x <- parse_amount_to_cents s ;; cents_to_display x)
           = Return (two_decimal_form c)).
Proof.
  split.
  - intros c Hc. rewrite (cents_to_display_exact c Hc). cbn [bind].
    split; [reflexivity|]. split; [|apply parse_two_decimal_form; assumption].
    apply of_string_two_decimal_form. rewrite display_range_value in Hc.
    change (10 ^ 28) with 10000000000000000000000000000. lia.
  - intros s c Hs Hc. unfold normalizedTwoDecimalForm. rewrite Hs.
    split; [reflexivity|].
    rewrite (parse_exact_cents s c Hs Hc). cbn [bind].
    apply cents_to_display_exact. assumption.
Qed.

(** C6, witness: 1200.50 and its cents. *)
Lemma display_round_trip_in_range_witness :
  (Z.abs 120050 < display_range
   /\ cents_to_display 120050 = Return "1200.50"
   /\ (text <- cents_to_display 120050 ;; parse_amount_to_cents text) = Return 120050)
  /\ (exact_cents "1200.5" = Some 120050
      /\ (x <- parse_amount_to_cents "1200.5" ;; cents_to_display x) = Return "1200.50").
Proof.
  split.
  - split; [reflexivity|].
    destruct (proj1 display_round_trip_in_range 120050 eq_refl) as (H1 & _ & H3).
    split; [exact H1|exact H3].
  - split; [reflexivity|].
    exact (proj2 (proj2 display_round_trip_in_range "1200.5" 120050 eq_refl eq_refl)).
Defined.

(** C7 (the code departs from the claim).  The spend of a budget is the
    organization-wide sum of the expenses in the budget's window, narrowed
    to the budget's category when that field is set ([budget_spent_spec],
    [budget_summaries_remaining]).  The code tests the field for
    truthiness, so a budget whose category key is 0 is treated as having
    none: no sample transaction has category 0, yet the spend is the sum
    of all expenses of the month. *)
Theorem budget_with_zero_category_counts_everything :
  Budget.category_id Sample.budget_zero = Some 0
  /\ (forall tx, In tx (transactions Sample.db_with_budgets) ->
        Transaction.category_id tx <> 0)
  /\ budget_spent Sample.db_with_budgets Sample.bob Sample.budget_zero = 6000
  /\ budget_summaries Sample.db_with_budgets Sample.bob
     = [mkSummary Sample.budget_zero 6000 (-3000);
        mkSummary Sample.budget_food 1000 (-500)].
Proof.
  split; [reflexivity|]. split; [|split; reflexivity].
  intros tx [<-|[<-|[<-|[]]]]; discriminate.
Qed.

(** C8, counterexample: the amount [-5] is stored as -500 cents. *)
Lemma negative_amount_is_stored :
  transaction_create Sample.db (Some Sample.alice) (Sample.form "-5")
  = (add_transaction Sample.db
       (Transaction.mk 4 1 1 1 3 (-500) "expense" (Date.mk 2024 5 20)
          (Some "lunch") None),
     Return (Redirect "/transactions")).
Proof. reflexivity. Qed.

(** C8 (amended).  A created transaction stores the cents that
    [parse_amount_to_cents] returns for the submitted amount, whatever
    their sign; the stored value is negative only when the submitted
    amount carries a minus sign. *)
Theorem stored_amount_is_parsed_amount :
  forall db user form db' r,
    transaction_create db (Some user) form = (db', Return r) ->
    exists tx cents,
      db' = add_transaction db tx
      /\ parse_amount_to_cents (form_amount form) = Return cents
      /\ Transaction.amount_cents tx = cents
      /\ (cents < 0 ->
          exists c e,
            Decimal.of_string (form_amount form) = Some (Decimal.Finite true c e)).
Proof.
  intros db user form db' r. unfold transaction_create.
  destruct (_ =? _)%string; [intros H; discriminate H|].
  destruct (parse_amount_to_cents (form_amount form)) as [cents|e] eqn:Hp;
    [|intros H; discriminate H].
  destruct (Date.strptime (form_occurred_at form)) as [d|e];
    [|intros H; discriminate H].
  destruct (_ && _); [|intros H; discriminate H].
  intros H. inversion H. subst. do 2 eexists.
  split; [reflexivity|]. split; [reflexivity|]. split; [reflexivity|].
  apply parse_amount_negative_has_minus. assumption.
Qed.

(** C8, witness: Alice's lunch of 12.50. *)
Lemma stored_amount_is_parsed_amount_witness :
  exists tx cents,
    fst (transaction_create Sample.db (Some Sample.alice) (Sample.form "12.50"))
    = add_transaction Sample.db tx
    /\ parse_amount_to_cents "12.50" = Return cents
    /\ Transaction.amount_cents tx = cents
    /\ (cents < 0 ->
        exists c e, Decimal.of_string "12.50" = Some (Decimal.Finite true c e)).
Proof.
  exact (stored_amount_is_parsed_amount Sample.db Sample.alice (Sample.form "12.50")
           _ _ eq_refl).
Defined.

(** C9, counterexample: the keyword [%] matches a transaction that has
    neither note nor tags, in which it does not occur; and the keyword
    CAFE in capitals with an acute accent on the E does not match the note
    that is that very word, because Python lowers the accented letter and
    SQL does not. *)
Lemma keyword_wildcard_counterexample :
  keyword_clause "%" Sample.blank = true
  /\ ~ is_substring (str_lower "%") (lower (coalesce (Transaction.note Sample.blank)))
  /\ ~ is_substring (str_lower "%") (lower (coalesce (Transaction.tags Sample.blank)))
  /\ Transaction.note Sample.outing = Some Sample.cafe
  /\ keyword_clause Sample.cafe Sample.outing = false.
Proof.
  split; [reflexivity|].
  split; [intros (pre & post & H); destruct pre; discriminate H|].
  split; [intros (pre & post & H); destruct pre; discriminate H|].
  split; reflexivity.
Qed.

(** C9 (amended).  For every keyword of at most 24999 characters that
    contains neither [%] nor [_] nor NUL, and every transaction whose
    note and tags contain no NUL, the transaction satisfies the keyword
    clause exactly when the keyword as Python lowers it occurs as a
    substring of the note or of the tags as SQL lowers them, a null note
    or null tags counting as the empty text.  For a keyword of ASCII
    characters the two ways of lowering agree, and the clause is the
    substring search that ignores the case of the letters A-Z. *)
Theorem keyword_clause_is_substring_search (keyword : string) (tx : Transaction.t) :
  no_wildcard keyword = true ->
  no_nul keyword = true ->
  Z.of_nat (String.length keyword) <= 24999 ->
  no_nul (coalesce (Transaction.note tx)) = true ->
  no_nul (coalesce (Transaction.tags tx)) = true ->
  (keyword_clause keyword tx = true
   <-> is_substring (str_lower keyword) (lower (coalesce (Transaction.note tx)))
       \/ is_substring (str_lower keyword) (lower (coalesce (Transaction.tags tx))))
  /\ (ascii_text keyword = true ->
      (keyword_clause keyword tx = true
       <-> is_substring (lower keyword) (lower (coalesce (Transaction.note tx)))
           \/ is_substring (lower keyword) (lower (coalesce (Transaction.tags tx))))).
Proof.
  intros Hw Hk _ Hnote Htags.
  assert (H : keyword_clause keyword tx = true
              <-> is_substring (str_lower keyword)
                    (lower (coalesce (Transaction.note tx)))
                  \/ is_substring (str_lower keyword)
                       (lower (coalesce (Transaction.tags tx)))).
  { unfold keyword_clause. rewrite orb_true_iff, !like_keyword by assumption.
    reflexivity. }
  split; [exact H|].
  intros Ha. rewrite <- (str_lower_ascii keyword Ha). exact H.
Qed.

(** C9, witness: a null note and the tags [TRIP] match the keyword
    [trip]. *)
Lemma keyword_clause_is_substring_search_witness :
  no_wildcard "trip" = true
  /\ Transaction.note Sample.trip = None
  /\ Transaction.tags Sample.trip = Some "TRIP"
  /\ keyword_clause "trip" Sample.trip = true.
Proof.
  split; [reflexivity|]. split; [reflexivity|]. split; [reflexivity|].
  apply (proj1 (keyword_clause_is_substring_search "trip" Sample.trip
                  eq_refl eq_refl ltac:(discriminate) eq_refl eq_refl)).
  right. exists EmptyString, EmptyString. reflexivity.
Defined.

(** C10.  Whenever [transaction_create] succeeds for an acting user, it
    has stored exactly one new row, whose [org_id] and [user_id] are the
    acting user's, whatever the form holds. *)
Theorem created_transaction_belongs_to_actor :
  forall db user form db' r,
    transaction_create db (Some user) form = (db', Return r) ->
    exists tx,
      db' = add_transaction db tx
      /\ Transaction.org_id tx = User.org_id user
      /\ Transaction.user_id tx = User.id user
      /\ Transaction.account_id tx = form_account_id form
      /\ Transaction.category_id tx = form_category_id form.
Proof.
  intros db user form db' r. unfold transaction_create.
  destruct (_ =? _)%string; [intros H; discriminate H|].
  destruct (parse_amount_to_cents (form_amount form)) as [cents|e];
    [|intros H; discriminate H].
  destruct (Date.strptime (form_occurred_at form)) as [d|e];
    [|intros H; discriminate H].
  destruct (_ && _); [|intros H; discriminate H].
  intros H. inversion H. subst. eexists. repeat split; reflexivity.
Qed.

(** C10, witness: Bob's lunch is stored under Bob's organization and key. *)
Lemma created_transaction_belongs_to_actor_witness :
  exists tx,
    fst (transaction_create Sample.db (Some Sample.bob) (Sample.form "12.50"))
    = add_transaction Sample.db tx
    /\ Transaction.org_id tx = 1
    /\ Transaction.user_id tx = 2
    /\ Transaction.account_id tx = 1
    /\ Transaction.category_id tx = 3.
Proof.
  exact (created_transaction_belongs_to_actor Sample.db Sample.bob
           (Sample.form "12.50") _ _ eq_refl).
Defined.

(** * Further properties of the handlers *)

(** * Dates: order and text *)

Lemma date_leb_iff (a b : Date.t) :
  Date.leb a b = true
  <-> Date.year a < Date.year b
      \/ (Date.year a = Date.year b
          /\ (Date.month a < Date.month b
              \/ (Date.month a = Date.month b /\ Date.day a <= Date.day b))).
Proof.
  unfold Date.leb.
  rewrite orb_true_iff, andb_true_iff, orb_true_iff, andb_true_iff.
  rewrite !Z.ltb_lt, !Z.eqb_eq, Z.leb_le. reflexivity.
Qed.

Lemma date_leb_trans (a b c : Date.t) :
  Date.leb a b = true -> Date.leb b c = true -> Date.leb a c = true.
Proof. rewrite !date_leb_iff. lia. Qed.

Lemma date_ltb_iff (a b : Date.t) :
  Date.ltb a b = true <-> Date.leb b a = false.
Proof. unfold Date.ltb. apply negb_true_iff. Qed.

Lemma date_leb_false (a b : Date.t) :
  Date.leb a b = false -> Date.leb b a = true.
Proof.
  intros H. destruct (Date.leb b a) eqn:E; [reflexivity|].
  assert (Ha : ~ (Date.leb a b = true)) by congruence.
  assert (Hb : ~ (Date.leb b a = true)) by congruence.
  rewrite date_leb_iff in Ha, Hb. lia.
Qed.

Lemma pad2_digits (n : Z) :
  0 <= n ->
  Date.pad2 n
  = String (digit_char (n / 10 mod 10)) (String (digit_char (n mod 10)) EmptyString)
  /\ 0 <= n / 10 mod 10 <= 9 /\ 0 <= n mod 10 <= 9.
Proof. intros Hn. split; [reflexivity|]. Z.div_mod_to_equations. lia. Qed.

Lemma parse_year_iso (y : Z) (rest : string) :
  1 <= y <= 9999 ->
  Date.parse_year (Date.pad2 (y / 100) ++ Date.pad2 y ++ rest) = Some (y, rest).
Proof.
  intros Hy.
  assert (H0 : 0 <= y / 100) by (Z.div_mod_to_equations; lia).
  destruct (pad2_digits (y / 100) H0) as (-> & Ha & Hb).
  destruct (pad2_digits y ltac:(lia)) as (-> & Hc & Hd).
  cbn [append Date.parse_year].
  rewrite !digit_char_is_digit by assumption. cbn [andb].
  f_equal. f_equal. unfold digits_value. cbn [digits_value_from].
  rewrite !digit_char_value by assumption.
  Z.div_mod_to_equations. lia.
Qed.

Lemma month_day_iso (y m d : Z) :
  1 <= m <= 12 -> 1 <= d <= 31 ->
  match Date.expect_dash ("-" ++ Date.pad2 m ++ "-" ++ Date.pad2 d) with
  | None => None
  | Some r2 =>
      Date.first_match
        (fun '(m, r3) =>
           match Date.expect_dash r3 with
           | None => None
           | Some r4 =>
               match Date.day_alternatives r4 with
               | (d, r5) :: _ => Some (y, m, d, r5)
               | [] => None
               end
           end)
        (Date.month_alternatives r2)
  end = Some (y, m, d, EmptyString).
Proof.
  intros Hm Hd.
  assert (Em : m = 1 \/ m = 2 \/ m = 3 \/ m = 4 \/ m = 5 \/ m = 6 \/ m = 7 \/ m = 8
               \/ m = 9 \/ m = 10 \/ m = 11 \/ m = 12) by lia.
  assert (Ed : d = 1 \/ d = 2 \/ d = 3 \/ d = 4 \/ d = 5 \/ d = 6 \/ d = 7 \/ d = 8
               \/ d = 9 \/ d = 10 \/ d = 11 \/ d = 12 \/ d = 13 \/ d = 14 \/ d = 15
               \/ d = 16 \/ d = 17 \/ d = 18 \/ d = 19 \/ d = 20 \/ d = 21 \/ d = 22
               \/ d = 23 \/ d = 24 \/ d = 25 \/ d = 26 \/ d = 27 \/ d = 28 \/ d = 29
               \/ d = 30 \/ d = 31) by lia.
  clear Hm Hd.
  repeat (destruct Em as [->|Em]);
    repeat (destruct Ed as [->|Ed]); subst; reflexivity.
Qed.

Lemma match_ymd_iso (y m d : Z) :
  1 <= y <= 9999 -> 1 <= m <= 12 -> 1 <= d <= 31 ->
  Date.match_ymd (Date.isoformat (Date.mk y m d)) = Some (y, m, d, EmptyString).
Proof.
  intros Hy Hm Hd. unfold Date.match_ymd, Date.isoformat.
  cbn [Date.year Date.month Date.day].
  rewrite parse_year_iso by assumption.
  apply month_day_iso; assumption.
Qed.

Lemma valid_date_bounds (d : Date.t) :
  valid_date d ->
  1 <= Date.year d <= 9999 /\ 1 <= Date.month d <= 12
  /\ 1 <= Date.day d <= Date.days_in_month (Date.year d) (Date.month d)
  /\ Date.days_in_month (Date.year d) (Date.month d) <= 31.
Proof.
  unfold valid_date, Date.make.
  destruct (_ && _) eqn:E; [|discriminate]. intros _.
  repeat (apply andb_true_iff in E; destruct E as [E ?]).
  rewrite ?Z.leb_le in *.
  assert (Date.days_in_month (Date.year d) (Date.month d) <= 31).
  { unfold Date.days_in_month.
    destruct (_ =? 2); [destruct (Date.is_leap _); lia|].
    destruct (_ || _); lia. }
  lia.
Qed.

Lemma strptime_isoformat (d : Date.t) :
  valid_date d -> Date.strptime (Date.isoformat d) = Return d.
Proof.
  intros Hv. destruct (valid_date_bounds d Hv) as (Hy & Hm & Hd & H31).
  unfold Date.strptime. destruct d as [y m dd]. cbn [Date.year Date.month Date.day] in *.
  rewrite match_ymd_iso by lia. exact Hv.
Qed.

(** X1.  A valid date written by [isoformat] is read back by
    [strptime(..., "%Y-%m-%d")] as the same date: the dates the pages and
    the export print can be submitted as they are. *)
Theorem strptime_isoformat_round_trip (d : Date.t) :
  valid_date d -> Date.strptime (Date.isoformat d) = Return d.
Proof. apply strptime_isoformat. Qed.

Lemma strptime_isoformat_round_trip_witness :
  valid_date (Date.mk 2024 2 29)
  /\ Date.isoformat (Date.mk 2024 2 29) = "2024-02-29"
  /\ Date.strptime "2024-02-29" = Return (Date.mk 2024 2 29).
Proof.
  split; [reflexivity|]. split; [reflexivity|].
  exact (strptime_isoformat_round_trip (Date.mk 2024 2 29) eq_refl).
Defined.

(** X2.  Whoever is shown the new-transaction form can submit it with
    the date the form pre-fills: if the amount converts to cents, and the
    cents and the two keys of the form fit a 64-bit column, the
    transaction is stored with that amount and today's date; if one of
    them does not fit, the commit fails with [OverflowError] and nothing
    is stored. *)
Theorem prefilled_form_is_accepted :
  forall db user today page form cents,
    transaction_new_page db (Some user) today = Return (Page page) ->
    valid_date today ->
    form_occurred_at form = form_today page ->
    parse_amount_to_cents (form_amount form) = Return cents ->
    (fits_int64 (form_account_id form) && fits_int64 (form_category_id form)
     && fits_int64 cents = true ->
     exists tx,
       transaction_create db (Some user) form
       = (add_transaction db tx, Return (Redirect "/transactions"))
       /\ Transaction.occurred_at tx = today
       /\ Transaction.amount_cents tx = cents
       /\ Transaction.type tx = form_type form)
    /\ (fits_int64 (form_account_id form) && fits_int64 (form_category_id form)
        && fits_int64 cents = false ->
        transaction_create db (Some user) form = (db, Raise OverflowError)).
Proof.
  intros db user today page form cents Hpage Hv Hdate Hamount.
  unfold transaction_new_page in Hpage. unfold transaction_create.
  destruct (User.role user =? ROLE_READONLY)%string; [discriminate Hpage|].
  injection Hpage as <-. cbn [form_today] in Hdate.
  rewrite Hamount, Hdate, (strptime_isoformat today Hv).
  split; intros ->; [|reflexivity].
  eexists. split; [reflexivity|]. repeat split; reflexivity.
Qed.

Lemma prefilled_form_is_accepted_witness :
  exists tx,
    transaction_create Sample.db (Some Sample.bob) (Sample.form "12.50")
    = (add_transaction Sample.db tx, Return (Redirect "/transactions"))
    /\ Transaction.occurred_at tx = Sample.today
    /\ Transaction.amount_cents tx = 1250
    /\ Transaction.type tx = "expense".
Proof.
  exact (proj1 (prefilled_form_is_accepted Sample.db Sample.bob Sample.today _
                  (Sample.form "12.50") 1250 eq_refl eq_refl eq_refl eq_refl)
           eq_refl).
Defined.

(** * A stored transaction in later reads *)

Lemma transaction_create_success (db : DB) (user : User.t) (form : transaction_form)
  (db' : DB) (r : response unit) :
  transaction_create db (Some user) form = (db', Return r) ->
  exists cents d,
    User.role user <> ROLE_READONLY
    /\ parse_amount_to_cents (form_amount form) = Return cents
    /\ Date.strptime (form_occurred_at form) = Return d
    /\ db' = add_transaction db (created_row db user form cents d)
    /\ r = Redirect "/transactions".
Proof.
  unfold transaction_create.
  destruct (String.eqb_spec (User.role user) ROLE_READONLY) as [|Hr];
    [intros H; discriminate H|].
  destruct (parse_amount_to_cents (form_amount form)) as [cents|e];
    [|intros H; discriminate H].
  destruct (Date.strptime (form_occurred_at form)) as [d|e];
    [|intros H; discriminate H].
  destruct (_ && _); [|intros H; discriminate H].
  intros H. injection H as <- <-. exists cents, d. repeat split; auto.
Qed.

Lemma scoped_query_add (db : DB) (tx : Transaction.t) (viewer : User.t) :
  scoped_query (add_transaction db tx) viewer
  = (scoped_query db viewer
       ++ if (Transaction.org_id tx =? User.org_id viewer)
             && (negb (User.role viewer =? ROLE_USER)%string
                 || (Transaction.user_id tx =? User.id viewer))
          then [tx] else [])%list.
Proof.
  unfold scoped_query, add_transaction. cbn [transactions].
  rewrite filter_app. cbn [filter].
  destruct (Transaction.org_id tx =? User.org_id viewer);
    destruct (User.role viewer =? ROLE_USER)%string; cbn [andb orb negb];
    rewrite ?filter_app; cbn [filter];
    try destruct (Transaction.user_id tx =? User.id viewer);
    rewrite ?app_nil_r; reflexivity.
Qed.

(** X3.  A created transaction is added to the creator's own scoped
    query, after the rows already there (tables are kept in insertion
    order), and to that of every member of the organization who is not a
    [user]-role actor; it changes nothing for the other [user]-role actors
    and for the other organizations. *)
Theorem created_transaction_visibility :
  forall db user form db' r,
    transaction_create db (Some user) form = (db', Return r) ->
    exists tx,
      scoped_query db' user = (scoped_query db user ++ [tx])%list
      /\ (forall viewer,
             User.org_id viewer = User.org_id user ->
             User.role viewer <> ROLE_USER ->
             scoped_query db' viewer = (scoped_query db viewer ++ [tx])%list)
      /\ (forall viewer,
             User.org_id viewer <> User.org_id user
             \/ (User.role viewer = ROLE_USER /\ User.id viewer <> User.id user) ->
             scoped_query db' viewer = scoped_query db viewer).
Proof.
  intros db user form db' r H.
  destruct (transaction_create_success db user form db' r H)
    as (cents & d & _ & _ & _ & -> & _).
  set (tx := created_row db user form cents d).
  assert (Horg : Transaction.org_id tx = User.org_id user) by reflexivity.
  assert (Huser : Transaction.user_id tx = User.id user) by reflexivity.
  clearbody tx. exists tx. split; [|split].
  - rewrite scoped_query_add, Horg, Huser, !Z.eqb_refl, orb_true_r. reflexivity.
  - intros viewer Ho Hr. rewrite scoped_query_add, Horg, Ho, Z.eqb_refl.
    destruct (String.eqb_spec (User.role viewer) ROLE_USER); [contradiction|reflexivity].
  - intros viewer Hv. rewrite scoped_query_add, Horg, Huser.
    destruct Hv as [Ho|[Hr Hi]].
    + destruct (Z.eqb_spec (User.org_id user) (User.org_id viewer)); [congruence|].
      cbn [andb]. apply app_nil_r.
    + rewrite Hr, String.eqb_refl. cbn [negb orb].
      destruct (Z.eqb_spec (User.id user) (User.id viewer)); [congruence|].
      rewrite andb_false_r. apply app_nil_r.
Qed.

Lemma created_transaction_visibility_witness :
  exists tx,
    scoped_query (fst (transaction_create Sample.db (Some Sample.bob)
                         (Sample.form "12.50"))) Sample.bob
    = (scoped_query Sample.db Sample.bob ++ [tx])%list.
Proof.
  destruct (created_transaction_visibility Sample.db Sample.bob (Sample.form "12.50")
              _ _ eq_refl) as (tx & H & _).
  exists tx. exact H.
Defined.

(** * Budgets after a write *)

Lemma sum_amount_cents_app (a b : list Transaction.t) :
  sum_amount_cents (a ++ b) = sum_amount_cents a + sum_amount_cents b.
Proof.
  unfold sum_amount_cents.
  induction a as [|x a IH]; cbn [app fold_right]; [reflexivity|].
  rewrite IH. apply Z.add_assoc.
Qed.

Lemma budget_query_counts (db : DB) (viewer : User.t) (b : Budget.t) :
  budget_query db viewer b = filter (counts_for_budget viewer b) (transactions db).
Proof.
  unfold budget_query, counts_for_budget.
  destruct (truthy_int (Budget.category_id b)) as [c|].
  - now rewrite filter_filter.
  - apply filter_ext. intros tx. now rewrite andb_true_r.
Qed.

Lemma budget_spent_add (db : DB) (viewer : User.t) (b : Budget.t) (tx : Transaction.t) :
  budget_spent (add_transaction db tx) viewer b
  = budget_spent db viewer b
    + (if counts_for_budget viewer b tx then Transaction.amount_cents tx else 0).
Proof.
  unfold budget_spent. rewrite !budget_query_counts.
  unfold add_transaction. cbn [transactions].
  rewrite filter_app, sum_amount_cents_app. cbn [filter].
  destruct (counts_for_budget viewer b tx).
  - change (sum_amount_cents [tx]) with (Transaction.amount_cents tx + 0). lia.
  - change (sum_amount_cents []) with 0. lia.
Qed.

(** X4.  A created transaction raises the spend of a budget by its
    amount exactly when it is an expense of the viewer's organization
    dated inside the budget's window and of the budget's category (when
    the budget has one); a transaction of any other type leaves every
    budget as it was. *)
Theorem created_transaction_in_budgets :
  forall db user form db' r,
    transaction_create db (Some user) form = (db', Return r) ->
    exists tx,
      db' = add_transaction db tx
      /\ (forall viewer b,
             budget_spent db' viewer b
             = budget_spent db viewer b
               + (if counts_for_budget viewer b tx
                  then Transaction.amount_cents tx else 0))
      /\ (form_type form <> "expense" ->
          forall viewer b, budget_spent db' viewer b = budget_spent db viewer b).
Proof.
  intros db user form db' r H.
  destruct (transaction_create_success db user form db' r H)
    as (cents & d & _ & _ & _ & -> & _).
  exists (created_row db user form cents d).
  split; [reflexivity|]. split.
  - intros viewer b. apply budget_spent_add.
  - intros Hty viewer b. rewrite budget_spent_add.
    unfold counts_for_budget. cbn [created_row Transaction.type].
    destruct (String.eqb_spec (form_type form) "expense"); [contradiction|].
    rewrite andb_false_r. cbn [andb]. lia.
Qed.

Lemma created_transaction_in_budgets_witness :
  exists tx,
    fst (transaction_create Sample.db_with_budgets (Some Sample.bob)
           (Sample.form "12.50"))
    = add_transaction Sample.db_with_budgets tx
    /\ (forall viewer b,
           budget_spent
             (fst (transaction_create Sample.db_with_budgets (Some Sample.bob)
                     (Sample.form "12.50"))) viewer b
           = budget_spent Sample.db_with_budgets viewer b
             + (if counts_for_budget viewer b tx
                then Transaction.amount_cents tx else 0)).
Proof.
  destruct (created_transaction_in_budgets Sample.db_with_budgets Sample.bob
              (Sample.form "12.50")
              (fst (transaction_create Sample.db_with_budgets (Some Sample.bob)
                      (Sample.form "12.50")))
              (Redirect "/transactions") eq_refl) as (tx & H1 & H2 & _).
  exists tx. split; assumption.
Defined.

Lemma filter_none {A : Type} (f : A -> bool) (l : list A) :
  (forall x, In x l -> f x = false) -> filter f l = [].
Proof.
  induction l as [|x l IH]; intros H; [reflexivity|].
  cbn [filter]. rewrite (H x (or_introl eq_refl)). apply IH.
  intros y Hy. apply H. now right.
Qed.

(** X5.  A budget whose end date lies before its start date never shows
    any spend, whatever is stored: its window is empty. *)
Theorem backwards_budget_spends_nothing (db : DB) (viewer : User.t) (b : Budget.t) :
  Date.ltb (Budget.end_date b) (Budget.start_date b) = true ->
  budget_spent db viewer b = 0.
Proof.
  intros Hlt. unfold budget_spent. rewrite budget_query_counts, filter_none; [reflexivity|].
  intros tx _. unfold counts_for_budget.
  destruct (Date.leb (Budget.start_date b) (Transaction.occurred_at tx)) eqn:H1;
    [|now rewrite andb_false_r].
  destruct (Date.leb (Transaction.occurred_at tx) (Budget.end_date b)) eqn:H2;
    [|now rewrite andb_false_r].
  pose proof (date_leb_trans _ _ _ H1 H2) as H3.
  apply date_ltb_iff in Hlt. congruence.
Qed.

Lemma backwards_budget_spends_nothing_witness :
  budget_spent Sample.db Sample.alice
    (Budget.mk 5 1 "Backwards" "monthly" None 1000 (Date.mk 2024 5 31) (Date.mk 2024 5 1))
  = 0.
Proof.
  exact (backwards_budget_spends_nothing Sample.db Sample.alice
           (Budget.mk 5 1 "Backwards" "monthly" None 1000 (Date.mk 2024 5 31)
              (Date.mk 2024 5 1)) eq_refl).
Defined.

(** The row a successful [budgets_create] stores. *)
Lemma budgets_create_success (db : DB) (user : User.t) (form : budget_form)
  (db' : DB) (r : response unit) :
  budgets_create db (Some user) form = (db', Return r) ->
  exists cents start end_,
    User.role user <> ROLE_READONLY
    /\ parse_amount_to_cents (form_budget_amount form) = Return cents
    /\ Date.strptime (form_start_date form) = Return start
    /\ Date.strptime (form_end_date form) = Return end_
    /\ db' = add_budget db
               (Budget.mk (next_id Budget.id (budgets db)) (User.org_id user)
                  (form_name form) (form_period form)
                  (form_budget_category_id form) cents start end_)
    /\ r = Redirect "/budgets".
Proof.
  unfold budgets_create.
  destruct (String.eqb_spec (User.role user) ROLE_READONLY) as [|Hr];
    [intros H; discriminate H|].
  destruct (parse_amount_to_cents (form_budget_amount form)) as [cents|e];
    [|intros H; discriminate H].
  destruct (Date.strptime (form_start_date form)) as [d1|e];
    [|intros H; discriminate H].
  destruct (Date.strptime (form_end_date form)) as [d2|e];
    [|intros H; discriminate H].
  destruct (_ && _); [|intros H; discriminate H].
  intros H. injection H as <- <-. exists cents, d1, d2. repeat split; auto.
Qed.

(** X6.  A created budget belongs to the actor's organization and holds
    the converted amount and the parsed dates; on the dashboard of every
    member of that organization it is added after the summaries already
    there (tables are kept in insertion order), with the spend already on
    record, and nothing changes for other organizations.  The order of the
    two dates is not checked. *)
Theorem created_budget_on_dashboard :
  forall db user form db' r,
    budgets_create db (Some user) form = (db', Return r) ->
    exists b,
      db' = add_budget db b
      /\ Budget.org_id b = User.org_id user
      /\ parse_amount_to_cents (form_budget_amount form) = Return (Budget.amount_cents b)
      /\ Date.strptime (form_start_date form) = Return (Budget.start_date b)
      /\ Date.strptime (form_end_date form) = Return (Budget.end_date b)
      /\ Budget.category_id b = form_budget_category_id form
      /\ (forall viewer,
             User.org_id viewer = User.org_id user ->
             budget_summaries db' viewer
             = (budget_summaries db viewer
                  ++ [mkSummary b (budget_spent db viewer b)
                        (Budget.amount_cents b - budget_spent db viewer b)])%list)
      /\ (forall viewer,
             User.org_id viewer <> User.org_id user ->
             budget_summaries db' viewer = budget_summaries db viewer).
Proof.
  intros db user form db' r H.
  destruct (budgets_create_success db user form db' r H)
    as (cents & d1 & d2 & _ & Hp & H1 & H2 & -> & _).
  eexists. split; [reflexivity|].
  cbn [Budget.org_id Budget.amount_cents Budget.start_date Budget.end_date
         Budget.category_id].
  repeat (split; [assumption || reflexivity|]).
  split.
  - intros viewer Ho. unfold budget_summaries, org_budgets, add_budget.
    cbn [budgets]. rewrite filter_app, map_app. cbn [filter Budget.org_id].
    rewrite Ho, Z.eqb_refl. reflexivity.
  - intros viewer Ho. unfold budget_summaries, org_budgets, add_budget.
    cbn [budgets]. rewrite filter_app, map_app. cbn [filter Budget.org_id].
    destruct (Z.eqb_spec (User.org_id user) (User.org_id viewer)); [congruence|].
    cbn [map]. apply app_nil_r.
Qed.

Lemma created_budget_on_dashboard_witness :
  exists b,
    fst (budgets_create Sample.db (Some Sample.bob) Sample.budget_form_food)
    = add_budget Sample.db b
    /\ Budget.org_id b = User.org_id Sample.bob
    /\ parse_amount_to_cents "300.00" = Return (Budget.amount_cents b).
Proof.
  destruct (created_budget_on_dashboard Sample.db Sample.bob Sample.budget_form_food
              (fst (budgets_create Sample.db (Some Sample.bob) Sample.budget_form_food))
              (Redirect "/budgets") eq_refl) as (b & Hdb & Horg & Hamount & _).
  exists b. split; [exact Hdb|]. split; [exact Horg|exact Hamount].
Defined.

(** * The listing page against the export *)

Lemma filter_perm {A : Type} (f : A -> bool) (l l' : list A) :
  Permutation l l' -> Permutation (filter f l) (filter f l').
Proof.
  induction 1 as [|x l l' _ IH|x y l|l l' l'' _ IH1 _ IH2]; cbn [filter].
  - constructor.
  - destruct (f x); [constructor|]; assumption.
  - destruct (f x), (f y); try reflexivity. apply perm_swap.
  - etransitivity; eassumption.
Qed.

Lemma sum_amount_cents_perm (l l' : list Transaction.t) :
  Permutation l l' -> sum_amount_cents l = sum_amount_cents l'.
Proof.
  unfold sum_amount_cents.
  induction 1 as [|x l l' _ IH|x y l|l l' l'' _ IH1 _ IH2]; cbn [fold_right]; lia.
Qed.

Lemma listing_query_of_page (db : DB) (user : User.t) (p : query_params)
  (ctx : listing_context) :
  transactions_list db (Some user) p = Return (Page ctx) ->
  exists query,
    listing_query db user p = Return query
    /\ listing_transactions ctx = firstn 500 (order_by_occurred_at_desc query)
    /\ listing_income_cents ctx = sum_amount_cents (of_type "income" query)
    /\ listing_expense_cents ctx = sum_amount_cents (of_type "expense" query).
Proof.
  unfold transactions_list.
  destruct (listing_query db user p) as [query|]; cbn [bind]; [|discriminate].
  destruct (cents_to_display _) as [t1|]; cbn [bind]; [|discriminate].
  destruct (cents_to_display _) as [t2|]; cbn [bind]; [|discriminate].
  destruct (cents_to_display _) as [t3|]; cbn [bind]; [|discriminate].
  intros H. injection H as <-. exists query.
  split; [reflexivity|]. split; [reflexivity|]. split; reflexivity.
Qed.

(** X7.  When no amount bound is given, the rows of the listing page are
    the first 500 rows of the export for the same parameters, and all of
    them when the export has at most 500 rows. *)
Theorem listing_is_head_of_export :
  forall db user p ctx,
    truthy (min_amount p) = None -> truthy (max_amount p) = None ->
    transactions_list db (Some user) p = Return (Page ctx) ->
    exists rows,
      export_query db user p = Return rows
      /\ listing_transactions ctx = firstn 500 rows
      /\ ((List.length rows <= 500)%nat -> listing_transactions ctx = rows).
Proof.
  intros db user p ctx Hmin Hmax H.
  destruct (listing_query_of_page db user p ctx H) as (query & Hq & Hrows & _).
  exists (order_by_occurred_at_desc query).
  split; [|split].
  - rewrite (export_query_without_amounts db user p Hmin Hmax), Hq. reflexivity.
  - exact Hrows.
  - intros Hlen. rewrite Hrows. apply firstn_all2. exact Hlen.
Qed.

Lemma listing_is_head_of_export_witness :
  exists rows,
    export_query Sample.db Sample.alice Sample.no_params = Return rows
    /\ (exists ctx,
          transactions_list Sample.db (Some Sample.alice) Sample.no_params
          = Return (Page ctx)
          /\ listing_transactions ctx = firstn 500 rows).
Proof.
  destruct (listing_is_head_of_export Sample.db Sample.alice Sample.no_params
              (mkListing [Sample.coffee; Sample.salary; Sample.flight] 100000 6000
                 "1000.00" "60.00" "940.00")
              eq_refl eq_refl eq_refl) as (rows & H1 & H2 & _).
  exists rows. split; [exact H1|].
  eexists. split; [reflexivity|exact H2].
Defined.

(** X8.  The income and expense totals of the listing page are taken
    over all matching rows, not over the 500 shown: when no amount bound
    is given they are the totals of the rows of the export. *)
Theorem listing_totals_cover_export :
  forall db user p ctx rows,
    truthy (min_amount p) = None -> truthy (max_amount p) = None ->
    transactions_list db (Some user) p = Return (Page ctx) ->
    export_query db user p = Return rows ->
    listing_income_cents ctx = sum_amount_cents (of_type "income" rows)
    /\ listing_expense_cents ctx = sum_amount_cents (of_type "expense" rows).
Proof.
  intros db user p ctx rows Hmin Hmax H Hexp.
  destruct (listing_query_of_page db user p ctx H) as (query & Hq & _ & Hi & He).
  rewrite (export_query_without_amounts db user p Hmin Hmax), Hq in Hexp.
  cbn [bind] in Hexp. injection Hexp as <-.
  rewrite Hi, He. unfold of_type.
  split; apply sum_amount_cents_perm, filter_perm; symmetry; apply sort_by_perm.
Qed.

Lemma listing_totals_cover_export_witness :
  listing_income_cents
    (mkListing [Sample.coffee; Sample.salary; Sample.flight] 100000 6000
       "1000.00" "60.00" "940.00")
  = sum_amount_cents (of_type "income" [Sample.coffee; Sample.salary; Sample.flight])
  /\ listing_expense_cents
       (mkListing [Sample.coffee; Sample.salary; Sample.flight] 100000 6000
          "1000.00" "60.00" "940.00")
     = sum_amount_cents (of_type "expense" [Sample.coffee; Sample.salary; Sample.flight]).
Proof.
  exact (listing_totals_cover_export Sample.db Sample.alice Sample.no_params _ _
           eq_refl eq_refl eq_refl eq_refl).
Defined.

(** * Order of the rows *)

Lemma sorted_firstn {A : Type} (R : A -> A -> Prop) (n : nat) (l : list A) :
  Sorted R l -> Sorted R (firstn n l).
Proof.
  revert l. induction n as [|n IH]; intros l Hs; [constructor|].
  destruct l as [|x l]; [constructor|].
  cbn [firstn]. inversion Hs as [|? ? Hs' Hhd]. subst.
  constructor; [apply IH; assumption|].
  destruct l as [|y l]; [destruct n; constructor|].
  destruct n; cbn [firstn]; constructor. inversion Hhd. assumption.
Qed.

Lemma export_query_ordered (db : DB) (user : User.t) (p : query_params)
  (rows : list Transaction.t) :
  export_query db user p = Return rows ->
  exists query, rows = order_by_occurred_at_desc query
                /\ forall tx, In tx query -> In tx (scoped_query db user).
Proof.
  unfold export_query. rewrite !export_date_step_clause.
  destruct (parse_date_param (start_date p)) as [d1|]; cbn [bind]; [|discriminate].
  rewrite export_date_step_clause.
  destruct (parse_date_param (end_date p)) as [d2|]; cbn [bind]; [|discriminate].
  rewrite export_id_step_clause.
  destruct (id_clause (category_id p) Transaction.category_id) as [c1|]; cbn [bind];
    [|discriminate].
  rewrite export_id_step_clause.
  destruct (id_clause (account_id p) Transaction.account_id) as [c2|]; cbn [bind];
    [|discriminate].
  rewrite keyword_step_clause. intros H. injection H as <-.
  eexists. split; [reflexivity|].
  intros tx Hin. repeat (apply filter_In in Hin; destruct Hin as [Hin _]). exact Hin.
Qed.

(** X9.  The rows of the export and the rows of the listing page come
    latest date first: no row is followed by a row of a later date, and
    every row is one the acting user may see. *)
Theorem rows_are_ordered_and_scoped :
  forall db user p,
    (forall rows,
        export_query db user p = Return rows ->
        Sorted not_before rows
        /\ forall tx, In tx rows -> In tx (scoped_query db user))
    /\ (forall ctx,
          transactions_list db (Some user) p = Return (Page ctx) ->
          Sorted not_before (listing_transactions ctx)
          /\ forall tx, In tx (listing_transactions ctx) -> In tx (scoped_query db user)).
Proof.
  intros db user p. split.
  - intros rows H. destruct (export_query_ordered db user p rows H) as (q & -> & Hin).
    split; [apply order_by_sorted|].
    intros tx Htx. apply Hin. unfold order_by_occurred_at_desc in Htx.
    apply sort_by_In in Htx. exact Htx.
  - intros ctx H. destruct (transactions_list_page db user p ctx H)
      as (fs & _ & Hrows & _).
    rewrite Hrows. split; [apply sorted_firstn, order_by_sorted|].
    intros tx Htx. apply in_firstn in Htx. apply sort_by_In in Htx.
    apply filter_In in Htx. tauto.
Qed.

Lemma rows_are_ordered_and_scoped_witness :
  Sorted not_before [Sample.coffee; Sample.salary; Sample.flight].
Proof.
  exact (proj1 (proj1 (rows_are_ordered_and_scoped Sample.db Sample.alice
                         Sample.no_params)
                  [Sample.coffee; Sample.salary; Sample.flight] eq_refl)).
Defined.

(** * The rows handed to the CSV writer *)

Lemma map_result_forall2 {A B : Type} (f : A -> result B) (l : list A) (ys : list B) :
  map_result f l = Return ys -> Forall2 (fun x y => f x = Return y) l ys.
Proof.
  revert ys. induction l as [|x l IH]; intros ys; cbn [map_result].
  - intros H. injection H as <-. constructor.
  - destruct (f x) as [y|] eqn:Hx; cbn [bind]; [|discriminate].
    destruct (map_result f l) as [ys'|]; cbn [bind]; [|discriminate].
    intros H. injection H as <-. constructor; [assumption|]. apply IH. reflexivity.
Qed.

(** X10.  When the export succeeds it hands over the header and one row
    of eight fields per selected transaction, in the order of the query:
    the ISO date, the type, the displayed amount, the names of the
    category, the account and the user found by their keys, and the note
    and the tags with null written as the empty text. *)
Theorem export_csv_rows :
  forall db user p rows,
    export_csv db (Some user) p = Return (Page rows) ->
    exists txs body,
      export_query db user p = Return txs
      /\ rows = export_header :: body
      /\ Forall2
           (fun tx row =>
              exists amount category account uname,
                row = [Date.isoformat (Transaction.occurred_at tx);
                       Transaction.type tx; amount; category; account;
                       coalesce (Transaction.note tx);
                       coalesce (Transaction.tags tx); uname]
                /\ cents_to_display (Transaction.amount_cents tx) = Return amount
                /\ (exists c, In c (categories db)
                              /\ Category.id c = Transaction.category_id tx
                              /\ Category.name c = category)
                /\ (exists a, In a (accounts db)
                              /\ Account.id a = Transaction.account_id tx
                              /\ Account.name a = account)
                /\ (exists u, In u (users db)
                              /\ User.id u = Transaction.user_id tx
                              /\ User.name u = uname))
           txs body.
Proof.
  intros db user p rows. unfold export_csv.
  destruct (export_query db user p) as [txs|]; cbn [bind]; [|discriminate].
  destruct (map_result (export_row db) txs) as [body|] eqn:Hm; cbn [bind];
    [|discriminate].
  intros H. injection H as <-. exists txs, body.
  split; [reflexivity|]. split; [reflexivity|].
  apply map_result_forall2 in Hm.
  eapply Forall2_impl; [|exact Hm].
  intros tx row. unfold export_row, related_name.
  destruct (cents_to_display _) as [amount|]; cbn [bind]; [|discriminate].
  destruct (find _ (categories db)) as [c|] eqn:Hc; cbn [bind]; [|discriminate].
  destruct (find _ (accounts db)) as [a|] eqn:Ha; cbn [bind]; [|discriminate].
  destruct (find _ (users db)) as [u|] eqn:Hu; cbn [bind]; [|discriminate].
  intros H. injection H as <-.
  apply find_some in Hc, Ha, Hu. rewrite Z.eqb_eq in Hc, Ha, Hu.
  exists amount, (Category.name c), (Account.name a), (User.name u).
  split; [reflexivity|]. split; [reflexivity|].
  split; [exists c; tauto|]. split; [exists a; tauto|exists u; tauto].
Qed.

Lemma export_csv_rows_witness :
  exists (txs : list Transaction.t) (body : list (list string)),
    export_query Sample.db Sample.alice Sample.no_params = Return txs
    /\ List.length body = List.length txs.
Proof.
  destruct (export_csv_rows Sample.db Sample.alice Sample.no_params
              [export_header;
               ["2024-05-20"; "expense"; "10.00"; "Food"; "Cash"; "coffee"; "morning";
                "Alice"];
               ["2024-05-20"; "income"; "1000.00"; "Food"; "Cash"; "salary"; "income";
                "Alice"];
               ["2024-05-19"; "expense"; "50.00"; "Rent"; "Cash"; "flight"; "trip";
                "Alice"]]
              eq_refl) as (txs & body & H1 & _ & H3).
  exists txs, body. split; [exact H1|].
  symmetry. eapply Forall2_length. exact H3.
Defined.

(** * Dashboard and reports *)

Lemma dashboard_sums_are_report_sums (db : DB) (user : User.t) (today : Date.t) :
  dashboard_month_sums db user today
  = sum_for_range (scoped_query db user) (month_start today).
Proof.
  unfold dashboard_month_sums, sum_for_range, of_type, since.
  now rewrite !filter_filter.
Qed.

(** X11.  The dashboard and the report page show the same month: their
    income, expense and balance texts for the current month are equal. *)
Theorem dashboard_agrees_with_reports :
  forall db user today d r,
    dashboard db (Some user) today = Return (Page d) ->
    reports_page db (Some user) today = Return (Page r) ->
    dashboard_income d = month_income r
    /\ dashboard_expense d = month_expense r
    /\ dashboard_balance d = month_balance r.
Proof.
  intros db user today d r. unfold dashboard, reports_page.
  rewrite dashboard_sums_are_report_sums.
  destruct (sum_for_range (scoped_query db user) (month_start today)) as [mi me].
  destruct (sum_for_range (scoped_query db user) (year_start today)) as [yi ye].
  destruct (cents_to_display mi) as [t1|]; cbn [bind]; [|discriminate].
  destruct (cents_to_display me) as [t2|]; cbn [bind]; [|discriminate].
  destruct (cents_to_display (mi - me)) as [t3|]; cbn [bind]; [|discriminate].
  intros H. injection H as <-.
  destruct (cents_to_display yi) as [t4|]; cbn [bind]; [|discriminate].
  destruct (cents_to_display ye) as [t5|]; cbn [bind]; [|discriminate].
  destruct (cents_to_display (yi - ye)) as [t6|]; cbn [bind]; [|discriminate].
  intros H. injection H as <-. repeat split; reflexivity.
Qed.

Lemma dashboard_agrees_with_reports_witness :
  exists d r,
    dashboard Sample.db (Some Sample.alice) Sample.today = Return (Page d)
    /\ reports_page Sample.db (Some Sample.alice) Sample.today = Return (Page r)
    /\ dashboard_income d = month_income r
    /\ dashboard_expense d = month_expense r
    /\ dashboard_balance d = month_balance r.
Proof.
  exists (mkDashboard "1000.00" "60.00" "940.00" []),
    (mkReports "1000.00" "60.00" "940.00" "1000.00" "60.00" "940.00"
       [("Rent", 5000); ("Food", 1000)]).
  split; [reflexivity|]. split; [reflexivity|].
  exact (dashboard_agrees_with_reports Sample.db Sample.alice Sample.today _ _
           eq_refl eq_refl).
Defined.

Lemma sum_filter_split (f g : Transaction.t -> bool) (l : list Transaction.t) :
  sum_amount_cents (filter f l)
  = sum_amount_cents (filter (fun tx => f tx && g tx) l)
    + sum_amount_cents (filter (fun tx => f tx && negb (g tx)) l).
Proof.
  unfold sum_amount_cents.
  induction l as [|x l IH]; [reflexivity|].
  cbn [filter]. destruct (f x), (g x); cbn [andb negb fold_right]; lia.
Qed.

Lemma sum_filter_nonneg (f : Transaction.t -> bool) (l : list Transaction.t) :
  Forall (fun tx => 0 <= Transaction.amount_cents tx) l ->
  0 <= sum_amount_cents (filter f l).
Proof.
  unfold sum_amount_cents.
  induction 1 as [|x l Hx _ IH]; cbn [filter fold_right]; [lia|].
  destruct (f x); cbn [fold_right]; lia.
Qed.

Lemma year_start_before_month_start (today d : Date.t) :
  1 <= Date.month today ->
  Date.leb (month_start today) d = true -> Date.leb (year_start today) d = true.
Proof.
  intros Hm. apply date_leb_trans. apply date_leb_iff.
  unfold year_start, month_start. cbn [Date.year Date.month Date.day]. lia.
Qed.

(** X12.  On the report page the year figures contain the month
    figures: each year sum is the month sum plus the sum of the rows dated
    from January 1 up to the day before the month's first day, so with
    non-negative amounts no month figure exceeds its year figure. *)
Theorem year_sums_contain_month_sums :
  forall base_query today,
    1 <= Date.month today ->
    let earlier ty :=
      sum_amount_cents
        (filter (fun tx => Date.leb (year_start today) (Transaction.occurred_at tx)
                           && (Transaction.type tx =? ty)%string
                           && negb (Date.leb (month_start today)
                                      (Transaction.occurred_at tx)))
           base_query) in
    fst (sum_for_range base_query (year_start today))
    = fst (sum_for_range base_query (month_start today)) + earlier "income"
    /\ snd (sum_for_range base_query (year_start today))
       = snd (sum_for_range base_query (month_start today)) + earlier "expense"
    /\ (Forall (fun tx => 0 <= Transaction.amount_cents tx) base_query ->
        fst (sum_for_range base_query (month_start today))
        <= fst (sum_for_range base_query (year_start today))
        /\ snd (sum_for_range base_query (month_start today))
           <= snd (sum_for_range base_query (year_start today))).
Proof.
  intros q today Hm earlier.
  assert (Hsplit : forall ty,
             sum_amount_cents
               (filter (fun tx => Date.leb (year_start today) (Transaction.occurred_at tx)
                                  && (Transaction.type tx =? ty)%string) q)
             = sum_amount_cents
                 (filter (fun tx => Date.leb (month_start today) (Transaction.occurred_at tx)
                                    && (Transaction.type tx =? ty)%string) q)
               + earlier ty).
  { intros ty.
    rewrite (sum_filter_split _
               (fun tx => Date.leb (month_start today) (Transaction.occurred_at tx)) q).
    f_equal. f_equal. apply filter_ext. intros tx.
    destruct (Date.leb (month_start today) (Transaction.occurred_at tx)) eqn:E.
    - rewrite (year_start_before_month_start today _ Hm E).
      cbn [andb]. now rewrite andb_true_r.
    - now rewrite andb_false_r. }
  unfold sum_for_range. cbn [fst snd].
  split; [apply Hsplit|]. split; [apply Hsplit|].
  intros Hnn. rewrite !Hsplit.
  pose proof (sum_filter_nonneg
                (fun tx => Date.leb (year_start today) (Transaction.occurred_at tx)
                           && (Transaction.type tx =? "income")%string
                           && negb (Date.leb (month_start today)
                                      (Transaction.occurred_at tx))) q Hnn).
  pose proof (sum_filter_nonneg
                (fun tx => Date.leb (year_start today) (Transaction.occurred_at tx)
                           && (Transaction.type tx =? "expense")%string
                           && negb (Date.leb (month_start today)
                                      (Transaction.occurred_at tx))) q Hnn).
  unfold earlier. lia.
Qed.

Lemma year_sums_contain_month_sums_witness :
  snd (sum_for_range (transactions Sample.db) (year_start Sample.today))
  = snd (sum_for_range (transactions Sample.db) (month_start Sample.today))
    + sum_amount_cents
        (filter (fun tx => Date.leb (year_start Sample.today) (Transaction.occurred_at tx)
                           && (Transaction.type tx =? "expense")%string
                           && negb (Date.leb (month_start Sample.today)
                                      (Transaction.occurred_at tx)))
           (transactions Sample.db)).
Proof.
  assert (H : 1 <= Date.month Sample.today) by (cbn; lia).
  exact (proj1 (proj2 (year_sums_contain_month_sums (transactions Sample.db)
                         Sample.today H))).
Defined.

(** * The category breakdown *)

Lemma sort_by_sorted {A : Type} (ahead : A -> A -> bool) (R : A -> A -> Prop)
  (l : list A) :
  (forall x y, ahead y x = true -> R y x) ->
  (forall x y, ahead y x = false -> R x y) ->
  Sorted R (sort_by ahead l).
Proof.
  intros Hahead Hbehind. unfold sort_by.
  induction l as [|x l IH]; cbn [fold_right]; [constructor|].
  set (s := fold_right (insert_sorted ahead) [] l) in *. clearbody s.
  induction IH as [|y s Hs IHs Hhd]; cbn [insert_sorted].
  - repeat constructor.
  - destruct (ahead y x) eqn:E.
    + constructor; [assumption|].
      destruct s as [|z s]; cbn [insert_sorted] in *.
      * constructor. apply Hahead. assumption.
      * destruct (ahead z x).
        -- constructor. inversion Hhd. assumption.
        -- constructor. apply Hahead. assumption.
    + constructor; [constructor; assumption|].
      constructor. apply Hbehind. assumption.
Qed.

Lemma add_to_group_keys (n : string) (a : Z) (groups : list (string * Z)) (k : string) :
  In k (map fst (add_to_group n a groups)) <-> k = n \/ In k (map fst groups).
Proof.
  induction groups as [|[m t] groups IH]; cbn [add_to_group map fst In].
  - intuition congruence.
  - destruct (String.eqb_spec m n) as [->|Hne]; cbn [map fst In].
    + intuition congruence.
    + rewrite IH. intuition congruence.
Qed.

Lemma add_to_group_nodup (n : string) (a : Z) (groups : list (string * Z)) :
  NoDup (map fst groups) -> NoDup (map fst (add_to_group n a groups)).
Proof.
  induction groups as [|[m t] groups IH]; cbn [add_to_group map fst]; intros Hnd.
  - repeat constructor. intros [].
  - inversion Hnd as [|? ? Hnotin Hnd']. subst.
    destruct (String.eqb_spec m n) as [->|Hne]; cbn [map fst].
    + constructor; assumption.
    + constructor; [|apply IH; assumption].
      rewrite add_to_group_keys. intros [E|Hin]; [congruence|contradiction].
Qed.

Lemma add_to_group_total (n : string) (a : Z) (groups : list (string * Z)) :
  sum_totals (add_to_group n a groups) = sum_totals groups + a.
Proof.
  unfold sum_totals.
  induction groups as [|[m t] groups IH]; cbn [add_to_group fold_right snd]; [lia|].
  destruct (m =? n)%string; cbn [fold_right snd]; lia.
Qed.

Lemma group_fold_spec (rows groups : list (string * Z)) :
  let result :=
    fold_left (fun groups '(name, amount) => add_to_group name amount groups)
      rows groups in
  (forall k, In k (map fst result) <-> In k (map fst rows) \/ In k (map fst groups))
  /\ (NoDup (map fst groups) -> NoDup (map fst result))
  /\ sum_totals result = sum_totals groups + sum_totals rows.
Proof.
  revert groups. induction rows as [|[n a] rows IH]; intros groups; cbn [fold_left].
  - cbn [map In]. split; [tauto|]. split; [tauto|]. unfold sum_totals at 3. cbn. lia.
  - destruct (IH (add_to_group n a groups)) as (Hk & Hnd & Hsum).
    split; [|split].
    + intros k. rewrite Hk, add_to_group_keys. cbn [map fst In]. intuition congruence.
    + intros H. apply Hnd, add_to_group_nodup, H.
    + rewrite Hsum, add_to_group_total. unfold sum_totals at 4.
      cbn [fold_right snd]. fold (sum_totals rows). lia.
Qed.

Lemma sum_totals_perm (l l' : list (string * Z)) :
  Permutation l l' -> sum_totals l = sum_totals l'.
Proof.
  unfold sum_totals.
  induction 1 as [|x l l' _ IH|x y l|l l' l'' _ IH1 _ IH2]; cbn [fold_right]; lia.
Qed.

Lemma breakdown_rows_in (db : DB) (user : User.t) (today : Date.t) (name : string) :
  In name (map fst (breakdown_rows db user today))
  <-> exists c tx,
        In c (categories db) /\ In tx (month_expenses db user today)
        /\ Category.name c = name
        /\ Transaction.category_id tx = Category.id c.
Proof.
  unfold breakdown_rows, month_expenses. rewrite in_map_iff. split.
  - intros ([n a] & <- & Hin). apply in_flat_map in Hin.
    destruct Hin as (c & Hc & Hin). apply in_map_iff in Hin.
    destruct Hin as (tx & Heq & Htx). injection Heq as <- <-.
    apply filter_In in Htx. destruct Htx as [Htx Hcond].
    repeat (apply andb_true_iff in Hcond; destruct Hcond as [Hcond ?]).
    exists c, tx. split; [assumption|]. split.
    + apply filter_In. split; [assumption|].
      repeat (apply andb_true_iff; split); assumption.
    + split; [reflexivity|]. apply Z.eqb_eq. assumption.
  - intros (c & tx & Hc & Htx & <- & Hid).
    apply filter_In in Htx. destruct Htx as [Htx Hcond].
    repeat (apply andb_true_iff in Hcond; destruct Hcond as [Hcond ?]).
    exists (Category.name c, Transaction.amount_cents tx). split; [reflexivity|].
    apply in_flat_map. exists c. split; [assumption|].
    apply in_map_iff. exists tx. split; [reflexivity|].
    apply filter_In. split; [assumption|].
    repeat (apply andb_true_iff; split); try assumption.
    apply Z.eqb_eq. assumption.
Qed.

(** X13.  The category breakdown lists each category name once, largest
    total first, and lists a name exactly when some category of that name
    is the category of an expense of the organization dated in the
    current month: names without such an expense are left out. *)
Theorem category_breakdown_shape (db : DB) (user : User.t) (today : Date.t) :
  Sorted (fun a b => snd b <= snd a) (category_breakdown db user today)
  /\ NoDup (map fst (category_breakdown db user today))
  /\ (forall name,
         In name (map fst (category_breakdown db user today))
         <-> exists c tx,
               In c (categories db) /\ In tx (month_expenses db user today)
               /\ Category.name c = name
               /\ Transaction.category_id tx = Category.id c).
Proof.
  unfold category_breakdown.
  destruct (group_fold_spec (breakdown_rows db user today) []) as (Hk & Hnd & _).
  fold (group_by_name (breakdown_rows db user today)) in Hk, Hnd.
  split; [|split].
  - apply sort_by_sorted.
    + intros x y H. apply Z.ltb_lt in H. lia.
    + intros x y H. apply Z.ltb_ge in H. lia.
  - eapply Permutation_NoDup.
    + apply Permutation_map. symmetry. apply sort_by_perm.
    + apply Hnd. constructor.
  - intros name. rewrite <- breakdown_rows_in.
    transitivity (In name (map fst (group_by_name (breakdown_rows db user today)))).
    + split; apply Permutation_in, Permutation_map; [|symmetry]; apply sort_by_perm.
    + rewrite Hk. cbn [map In]. tauto.
Qed.

Lemma rows_total (db : DB) (user : User.t) (today : Date.t) :
  sum_totals (breakdown_rows db user today)
  = fold_right
      (fun tx total =>
         Transaction.amount_cents tx * Z.of_nat (category_matches db tx) + total)
      0 (month_expenses db user today).
Proof.
  unfold breakdown_rows, month_expenses, category_matches.
  induction (categories db) as [|c cs IH].
  - cbn [flat_map filter List.length]. unfold sum_totals. cbn [fold_right].
    induction (filter _ (transactions db)) as [|tx l IHl]; cbn [fold_right]; lia.
  - cbn [flat_map]. 
    assert (Happ : forall a b, sum_totals (a ++ b) = sum_totals a + sum_totals b).
    { intros a b. unfold sum_totals.
      induction a as [|x a IHa]; cbn [app fold_right]; lia. }
    rewrite Happ, IH. clear IH Happ.
    induction (transactions db) as [|tx l IHl]; [reflexivity|].
    cbn [filter] in IHl |- *.
    destruct (Transaction.org_id tx =? User.org_id user) eqn:Eo; cbn [andb];
      [|rewrite !andb_false_r; cbn [andb]; exact IHl].
    destruct (Transaction.type tx =? "expense")%string eqn:Et; cbn [andb];
      [|rewrite !andb_false_r; cbn [andb]; exact IHl].
    destruct (Date.leb (month_start today) (Transaction.occurred_at tx)) eqn:Ed;
      cbn [andb]; [|rewrite !andb_false_r; exact IHl].
    rewrite !andb_true_r.
    destruct (Transaction.category_id tx =? Category.id c) eqn:Ec;
      cbn [map fold_right List.length filter].
    + unfold sum_totals in *. cbn [fold_right snd]. rewrite Ec.
      cbn [List.length]. rewrite Nat2Z.inj_succ. lia.
    + rewrite Ec. lia.
Qed.

(** X14.  When the category of every expense of the month exists exactly
    once, the totals of the breakdown add up to the sum of these expenses;
    for an actor who is not a [user]-role actor this is the month expense
    figure of the same report page. *)
Theorem category_breakdown_adds_up (db : DB) (user : User.t) (today : Date.t) :
  (forall tx, In tx (month_expenses db user today) -> category_matches db tx = 1%nat) ->
  sum_totals (category_breakdown db user today)
  = sum_amount_cents (month_expenses db user today)
  /\ (User.role user <> ROLE_USER ->
      sum_totals (category_breakdown db user today)
      = snd (sum_for_range (scoped_query db user) (month_start today))).
Proof.
  intros Hone.
  assert (Hsum : sum_totals (category_breakdown db user today)
                 = sum_amount_cents (month_expenses db user today)).
  { unfold category_breakdown.
    rewrite (sum_totals_perm _ _ (sort_by_perm _ _)).
    destruct (group_fold_spec (breakdown_rows db user today) []) as (_ & _ & Hs).
    fold (group_by_name (breakdown_rows db user today)) in Hs.
    rewrite Hs, rows_total. unfold sum_totals at 1. cbn [fold_right].
    unfold sum_amount_cents. rewrite Z.add_0_l.
    induction (month_expenses db user today) as [|tx l IH]; [reflexivity|].
    cbn [fold_right]. rewrite (Hone tx (or_introl eq_refl)), IH; [lia|].
    intros tx' H'. apply Hone. now right. }
  split; [exact Hsum|].
  intros Hr. rewrite Hsum. unfold sum_for_range, scoped_query, month_expenses.
  cbn [snd].
  destruct (String.eqb_spec (User.role user) ROLE_USER); [contradiction|].
  rewrite filter_filter. f_equal. apply filter_ext. intros tx.
  destruct (Transaction.org_id tx =? User.org_id user),
    (Transaction.type tx =? "expense")%string,
    (Date.leb (month_start today) (Transaction.occurred_at tx)); reflexivity.
Qed.

Lemma category_breakdown_adds_up_witness :
  (forall tx, In tx (month_expenses Sample.db Sample.alice Sample.today) ->
              category_matches Sample.db tx = 1%nat)
  /\ sum_totals (category_breakdown Sample.db Sample.alice Sample.today)
     = sum_amount_cents (month_expenses Sample.db Sample.alice Sample.today).
Proof.
  assert (H : forall tx, In tx (month_expenses Sample.db Sample.alice Sample.today) ->
                         category_matches Sample.db tx = 1%nat).
  { intros tx Htx. vm_compute in Htx.
    destruct Htx as [<-|[<-|[]]]; reflexivity. }
  split; [exact H|].
  exact (proj1 (category_breakdown_adds_up Sample.db Sample.alice Sample.today H)).
Defined.

(** * Seeding, accounts and categories *)

Lemma string_ltb_leb (a b : string) : (a <? b)%string = true -> (a <=? b)%string = true.
Proof.
  unfold String.ltb, String.leb. destruct (String.compare a b); congruence.
Qed.

Lemma string_ltb_false_leb (a b : string) :
  (a <? b)%string = false -> (b <=? a)%string = true.
Proof.
  unfold String.ltb, String.leb. rewrite (String.compare_antisym a b).
  destruct (String.compare b a); cbn [CompOpp]; congruence.
Qed.

Lemma order_by_name_spec {A : Type} (name : A -> string) (rows : list A) :
  Permutation (order_by_name name rows) rows
  /\ Sorted (fun a b => (name a <=? name b)%string = true) (order_by_name name rows).
Proof.
  unfold order_by_name. split; [apply sort_by_perm|].
  apply sort_by_sorted.
  - intros x y. apply string_ltb_leb.
  - intros x y. apply string_ltb_false_leb.
Qed.

Lemma require_role_admin (user : User.t) :
  (User.role user = ROLE_ADMIN -> require_role user [ROLE_ADMIN] = Return tt)
  /\ (User.role user <> ROLE_ADMIN ->
      require_role user [ROLE_ADMIN] = Raise (HTTPException 403 "Access denied")).
Proof.
  unfold require_role. cbn [existsb]. rewrite orb_false_r.
  destruct (String.eqb_spec (User.role user) ROLE_ADMIN); split; intros; congruence.
Qed.

(** X15.  The administration pages for accounts, categories and users
    answer 403 to every logged-in user who is not an admin; to an admin
    they list the rows of the admin's organization, all of them and no
    others, in ascending order of name. *)
Theorem admin_pages_list_org_rows_by_name (db : DB) (user : User.t) :
  (User.role user <> ROLE_ADMIN ->
   accounts_page db (Some user) = Raise (HTTPException 403 "Access denied")
   /\ categories_page db (Some user) = Raise (HTTPException 403 "Access denied")
   /\ users_page db (Some user) = Raise (HTTPException 403 "Access denied"))
  /\ (User.role user = ROLE_ADMIN ->
      exists accounts categories users,
        accounts_page db (Some user) = Return (Page accounts)
        /\ categories_page db (Some user) = Return (Page categories)
        /\ users_page db (Some user) = Return (Page users)
        /\ Permutation accounts (org_accounts db (User.org_id user))
        /\ Permutation categories (org_categories db (User.org_id user))
        /\ Permutation users (org_users db (User.org_id user))
        /\ Sorted (fun a b => (Account.name a <=? Account.name b)%string = true) accounts
        /\ Sorted (fun a b => (Category.name a <=? Category.name b)%string = true)
             categories
        /\ Sorted (fun a b => (User.name a <=? User.name b)%string = true) users).
Proof.
  destruct (require_role_admin user) as [Hadmin Hother].
  unfold accounts_page, categories_page, users_page. split.
  - intros H. rewrite (Hother H). cbn. repeat split.
  - intros H. rewrite (Hadmin H). cbn.
    eexists _, _, _. split; [reflexivity|]. split; [reflexivity|].
    split; [reflexivity|].
    repeat split; apply order_by_name_spec.
Qed.

Lemma admin_pages_list_org_rows_by_name_witness :
  accounts_page Sample.db (Some Sample.bob) = Raise (HTTPException 403 "Access denied")
  /\ exists accounts, accounts_page Sample.db (Some Sample.alice) = Return (Page accounts).
Proof.
  destruct (admin_pages_list_org_rows_by_name Sample.db Sample.bob) as [Hb _].
  destruct (admin_pages_list_org_rows_by_name Sample.db Sample.alice) as [_ Ha].
  split.
  - apply Hb. discriminate.
  - destruct (Ha eq_refl) as (accounts & _ & _ & H & _). exists accounts. exact H.
Defined.

Lemma filter_nil_forall {A : Type} (f : A -> bool) (l : list A) :
  filter f l = [] -> forall x, In x l -> f x = false.
Proof.
  induction l as [|y l IH]; intros H x Hin; [destruct Hin|].
  cbn [filter] in H. destruct (f y) eqn:E; [discriminate|].
  destruct Hin as [<-|Hin]; [assumption|]. now apply IH.
Qed.

(** What [seed_defaults] amounts to: rows appended to the categories and
    to the accounts, all of the organization, and only where the
    organization had none. *)
Lemma seed_defaults_appends (db : DB) (org_id : Z) :
  exists new_categories new_accounts,
    seed_defaults db org_id
    = mkDB (users db) (accounts db ++ new_accounts)
        (categories db ++ new_categories) (transactions db) (budgets db)
    /\ map (fun c => (Category.org_id c, Category.name c, Category.type c))
         new_categories
       = match org_categories db org_id with
         | [] => map (fun '(name, ctype) => (org_id, name, ctype)) default_categories
         | _ => []
         end
    /\ map (fun a => (Account.org_id a, Account.name a, Account.type a,
                      Account.currency a)) new_accounts
       = match org_accounts db org_id with
         | [] => [(org_id, "Cash", "cash", "CNY")]
         | _ => []
         end.
Proof.
  destruct db as [us acs cs txs bs].
  unfold seed_defaults, org_categories, org_accounts.
  cbv [default_categories fold_left add_category add_account categories users
         accounts transactions budgets].
  destruct (filter _ cs) as [|c0 cs0] eqn:Ec;
    destruct (filter _ acs) as [|a0 as0] eqn:Ea.
  - eexists _, [_]. rewrite <- !app_assoc. cbn [app].
    split; [reflexivity|]. split; reflexivity.
  - eexists _, []. rewrite app_nil_r, <- !app_assoc. cbn [app].
    split; [reflexivity|]. split; reflexivity.
  - eexists [], [_]. rewrite app_nil_r. split; [reflexivity|]. split; reflexivity.
  - exists [], []. rewrite !app_nil_r. split; [reflexivity|]. split; reflexivity.
Qed.

Lemma seed_defaults_fills (db : DB) (org_id : Z) :
  org_categories (seed_defaults db org_id) org_id <> []
  /\ org_accounts (seed_defaults db org_id) org_id <> [].
Proof.
  destruct (seed_defaults_appends db org_id) as (nc & na & -> & Hc & Ha).
  unfold org_categories, org_accounts in *. cbn [categories accounts].
  rewrite !filter_app. split.
  - destruct (filter _ (categories db)); [|discriminate].
    destruct nc as [|c nc]; [discriminate|].
    cbn [map default_categories] in Hc. injection Hc as Ho _ _ _.
    cbn [filter]. rewrite Ho, Z.eqb_refl. discriminate.
  - destruct (filter _ (accounts db)); [|discriminate].
    destruct na as [|a na]; [discriminate|].
    cbn [map] in Ha. injection Ha as Ho _ _ _ _.
    cbn [filter]. rewrite Ho, Z.eqb_refl. discriminate.
Qed.

Lemma seed_defaults_filled (db : DB) (org_id : Z) :
  org_categories db org_id <> [] -> org_accounts db org_id <> [] ->
  seed_defaults db org_id = db.
Proof.
  intros Hc Ha. unfold seed_defaults.
  destruct (org_categories db org_id); [contradiction|].
  destruct (org_accounts db org_id); [contradiction|]. reflexivity.
Qed.

Lemma seed_defaults_users (db : DB) (org_id : Z) :
  users (seed_defaults db org_id) = users db.
Proof.
  destruct (seed_defaults_appends db org_id) as (nc & na & -> & _). reflexivity.
Qed.

(** X16.  Seeding leaves the organization with at least one category and
    one account, and seeding a second time changes nothing. *)
Theorem seed_defaults_idempotent (db : DB) (org_id : Z) :
  org_categories (seed_defaults db org_id) org_id <> []
  /\ org_accounts (seed_defaults db org_id) org_id <> []
  /\ seed_defaults (seed_defaults db org_id) org_id = seed_defaults db org_id.
Proof.
  destruct (seed_defaults_fills db org_id) as [Hc Ha].
  split; [exact Hc|]. split; [exact Ha|].
  apply seed_defaults_filled; assumption.
Qed.

(** X17.  Seeding only appends rows of the organization it is called
    for: users, transactions and budgets, every existing category and
    account, and what any other organization sees stay as they were. *)
Theorem seed_defaults_only_adds_to_org (db : DB) (org_id : Z) :
  users (seed_defaults db org_id) = users db
  /\ transactions (seed_defaults db org_id) = transactions db
  /\ budgets (seed_defaults db org_id) = budgets db
  /\ (exists new_categories new_accounts,
         categories (seed_defaults db org_id) = (categories db ++ new_categories)%list
         /\ accounts (seed_defaults db org_id) = (accounts db ++ new_accounts)%list
         /\ Forall (fun c => Category.org_id c = org_id) new_categories
         /\ Forall (fun a => Account.org_id a = org_id) new_accounts)
  /\ (forall other, other <> org_id ->
        org_categories (seed_defaults db org_id) other = org_categories db other
        /\ org_accounts (seed_defaults db org_id) other = org_accounts db other).
Proof.
  destruct (seed_defaults_appends db org_id) as (nc & na & -> & Hc & Ha).
  cbn [users transactions budgets categories accounts].
  assert (Hnc : Forall (fun c => Category.org_id c = org_id) nc).
  { apply Forall_forall. intros c Hin.
    apply (in_map (fun c => (Category.org_id c, Category.name c, Category.type c)))
      in Hin.
    rewrite Hc in Hin. destruct (org_categories db org_id); [|destruct Hin].
    apply in_map_iff in Hin. destruct Hin as ([n t] & Heq & _). congruence. }
  assert (Hna : Forall (fun a => Account.org_id a = org_id) na).
  { apply Forall_forall. intros a Hin.
    apply (in_map (fun a => (Account.org_id a, Account.name a, Account.type a,
                             Account.currency a))) in Hin.
    rewrite Ha in Hin. destruct (org_accounts db org_id); [|destruct Hin].
    destruct Hin as [Heq|[]]. congruence. }
  split; [reflexivity|]. split; [reflexivity|]. split; [reflexivity|].
  split; [exists nc, na; repeat split; assumption|].
  intros other Hother. unfold org_categories, org_accounts.
  cbn [categories accounts]. rewrite !filter_app.
  split.
  - rewrite (filter_none _ nc); [apply app_nil_r|].
    intros c Hin. rewrite Forall_forall in Hnc. rewrite (Hnc c Hin).
    apply Z.eqb_neq. congruence.
  - rewrite (filter_none _ na); [apply app_nil_r|].
    intros a Hin. rewrite Forall_forall in Hna. rewrite (Hna a Hin).
    apply Z.eqb_neq. congruence.
Qed.

Lemma nodup_app_disjoint {A : Type} (l l' : list A) :
  NoDup l -> NoDup l' -> (forall x, In x l -> ~ In x l') -> NoDup (l ++ l')%list.
Proof.
  intros Hl Hl' Hd. induction Hl as [|x l Hx Hl IH]; [exact Hl'|].
  cbn [app]. constructor.
  - rewrite in_app_iff. intros [H|H]; [contradiction|].
    apply (Hd x); [now left|assumption].
  - apply IH. intros y Hy. apply Hd. now right.
Qed.

(** X18.  Seeding keeps the schema's unique constraints: when no two
    categories share organization, name and type, and no two accounts
    share organization and name, the same holds afterwards, so the
    [commit] that follows [seed_defaults] cannot fail on them. *)
Theorem seed_defaults_keeps_constraints (db : DB) (org_id : Z) :
  categories_unique db -> accounts_unique db ->
  categories_unique (seed_defaults db org_id)
  /\ accounts_unique (seed_defaults db org_id).
Proof.
  unfold categories_unique, accounts_unique. intros Hcu Hau.
  destruct (seed_defaults_appends db org_id) as (nc & na & -> & Hc & Ha).
  cbn [categories accounts]. rewrite !map_app. split.
  - apply nodup_app_disjoint; [assumption| |].
    + rewrite Hc. destruct (org_categories db org_id); [|constructor].
      cbn [map default_categories].
      repeat (constructor; [cbn [In]; intuition congruence|]). constructor.
    + intros key Hin Hnew. rewrite Hc in Hnew.
      destruct (org_categories db org_id) eqn:Eo; [|destruct Hnew].
      apply in_map_iff in Hin. destruct Hin as (c & <- & Hin).
      apply in_map_iff in Hnew. destruct Hnew as ([n t] & Heq & _).
      pose proof (filter_nil_forall _ _ Eo c Hin) as Hf. cbn in Hf.
      apply Z.eqb_neq in Hf. congruence.
  - apply nodup_app_disjoint; [assumption| |].
    + destruct na as [|a [|a' na]]; cbn [map].
      * constructor.
      * constructor; [intros []|constructor].
      * destruct (org_accounts db org_id); discriminate.
    + intros key Hin Hnew.
      apply in_map_iff in Hin. destruct Hin as (a & <- & Hin).
      apply in_map_iff in Hnew. destruct Hnew as (a' & Heq & Hnew).
      apply (in_map (fun a => (Account.org_id a, Account.name a, Account.type a,
                               Account.currency a))) in Hnew.
      rewrite Ha in Hnew.
      destruct (org_accounts db org_id) eqn:Eo; [|destruct Hnew].
      destruct Hnew as [Hk|[]].
      pose proof (filter_nil_forall _ _ Eo a Hin) as Hf. cbn in Hf.
      apply Z.eqb_neq in Hf. congruence.
Qed.

Lemma seed_defaults_keeps_constraints_witness :
  categories_unique (seed_defaults Sample.db 7)
  /\ accounts_unique (seed_defaults Sample.db 7).
Proof.
  apply (seed_defaults_keeps_constraints Sample.db 7).
  - unfold categories_unique. cbn.
    repeat (constructor; [cbn [In]; intuition congruence|]). constructor.
  - unfold accounts_unique. cbn.
    repeat (constructor; [cbn [In]; intuition congruence|]). constructor.
Defined.

Lemma accounts_create_success (db db' : DB) (user : User.t)
  (name type currency : string) (r : response unit) :
  accounts_create db (Some user) name type currency = (db', Handled (Return r)) ->
  User.role user = ROLE_ADMIN
  /\ account_name_taken db (User.org_id user) name = false
  /\ db' = add_account db
             (Account.mk (next_id Account.id (accounts db)) (User.org_id user)
                name type currency)
  /\ r = Redirect "/accounts".
Proof.
  unfold accounts_create.
  destruct (require_role_admin user) as [Hadmin Hother].
  destruct (String.eqb_spec (User.role user) ROLE_ADMIN) as [E|E].
  - rewrite (Hadmin E).
    destruct (account_name_taken db (User.org_id user) name); [discriminate|].
    intros H. injection H as <- <-. repeat split. assumption.
  - rewrite (Hother E). discriminate.
Qed.

Lemma categories_create_success (db db' : DB) (user : User.t)
  (name type : string) (r : response unit) :
  categories_create db (Some user) name type = (db', Handled (Return r)) ->
  User.role user = ROLE_ADMIN
  /\ category_taken db (User.org_id user) name type = false
  /\ db' = add_category db
             (Category.mk (next_id Category.id (categories db)) (User.org_id user)
                name type)
  /\ r = Redirect "/categories".
Proof.
  unfold categories_create.
  destruct (require_role_admin user) as [Hadmin Hother].
  destruct (String.eqb_spec (User.role user) ROLE_ADMIN) as [E|E].
  - rewrite (Hadmin E).
    destruct (category_taken db (User.org_id user) name type); [discriminate|].
    intros H. injection H as <- <-. repeat split. assumption.
  - rewrite (Hother E). discriminate.
Qed.

(** X19.  An account that an admin has created is listed on the admin's
    accounts page, and is offered in the transaction form of every user of
    the organization who may create transactions. *)
Theorem created_account_is_listed (db db' : DB) (user : User.t)
  (name type currency : string) (r : response unit) :
  accounts_create db (Some user) name type currency = (db', Handled (Return r)) ->
  exists a,
    Account.org_id a = User.org_id user /\ Account.name a = name
    /\ Account.type a = type /\ Account.currency a = currency
    /\ ~ In a (accounts db)
    /\ (exists listed,
           accounts_page db' (Some user) = Return (Page listed) /\ In a listed)
    /\ (forall viewer today,
           User.org_id viewer = User.org_id user ->
           User.role viewer <> ROLE_READONLY ->
           exists ctx,
             transaction_new_page db' (Some viewer) today = Return (Page ctx)
             /\ In a (form_accounts ctx)).
Proof.
  intros H. apply accounts_create_success in H. destruct H as (Hrole & Hfree & -> & _).
  set (a := Account.mk (next_id Account.id (accounts db)) (User.org_id user)
              name type currency).
  assert (Hin : forall org, org = User.org_id user ->
                  In a (order_by_name Account.name (org_accounts (add_account db a) org))).
  { intros org ->. apply (Permutation_in a (Permutation_sym (proj1 (order_by_name_spec _ _)))).
    unfold org_accounts, add_account. cbn [accounts].
    apply filter_In. split; [apply in_or_app; right; now left|].
    cbn [Account.org_id a]. apply Z.eqb_refl. }
  exists a. repeat split.
  - intros Hold. unfold account_name_taken in Hfree.
    assert (Hex : existsb
                    (fun a0 => (Account.org_id a0 =? User.org_id user)
                               && (Account.name a0 =? name)%string) (accounts db) = true).
    { apply existsb_exists. exists a. split; [assumption|].
      cbn [Account.org_id Account.name a]. now rewrite Z.eqb_refl, String.eqb_refl. }
    congruence.
  - exists (order_by_name Account.name (org_accounts (add_account db a) (User.org_id user))).
    split; [|apply Hin; reflexivity].
    unfold accounts_page. now rewrite (proj1 (require_role_admin user) Hrole).
  - intros viewer today Horg Hro. unfold transaction_new_page.
    destruct (String.eqb_spec (User.role viewer) ROLE_READONLY); [contradiction|].
    eexists. split; [reflexivity|]. cbn [form_accounts]. apply Hin. assumption.
Qed.

Lemma created_account_is_listed_witness :
  exists a listed,
    Account.name a = "Bank"
    /\ accounts_page
         (fst (accounts_create Sample.db (Some Sample.alice) "Bank" "bank" "CNY"))
         (Some Sample.alice) = Return (Page listed)
    /\ In a listed.
Proof.
  destruct (created_account_is_listed Sample.db
              (fst (accounts_create Sample.db (Some Sample.alice) "Bank" "bank" "CNY"))
              Sample.alice "Bank" "bank" "CNY" (Redirect "/accounts") eq_refl)
    as (a & _ & Hname & _ & _ & _ & (listed & Hpage & Hin) & _).
  exists a, listed. repeat split; assumption.
Defined.

(** X20.  Account names are unique within an organization: once an
    account is created, a second creation under the same name by an admin
    of that organization ends in [IntegrityError] and stores nothing,
    whatever type and currency it gives. *)
Theorem account_created_twice_is_rejected (db db' : DB) (user admin : User.t)
  (name type currency type' currency' : string) (r : response unit) :
  accounts_create db (Some user) name type currency = (db', Handled (Return r)) ->
  User.org_id admin = User.org_id user -> User.role admin = ROLE_ADMIN ->
  accounts_create db' (Some admin) name type' currency' = (db', IntegrityError).
Proof.
  intros H Horg Hrole. apply accounts_create_success in H.
  destruct H as (_ & _ & -> & _).
  unfold accounts_create. rewrite (proj1 (require_role_admin admin) Hrole).
  unfold account_name_taken, add_account. cbn [accounts].
  rewrite existsb_app. cbn [existsb Account.org_id Account.name].
  rewrite Horg, Z.eqb_refl, String.eqb_refl. cbn [andb orb].
  rewrite orb_true_r. reflexivity.
Qed.

Lemma account_created_twice_is_rejected_witness :
  let db' := fst (accounts_create Sample.db (Some Sample.alice) "Bank" "bank" "CNY") in
  accounts_create db' (Some Sample.alice) "Bank" "cash" "USD" = (db', IntegrityError).
Proof.
  exact (account_created_twice_is_rejected Sample.db _ Sample.alice Sample.alice
           "Bank" "bank" "CNY" "cash" "USD" (Redirect "/accounts")
           eq_refl eq_refl eq_refl).
Defined.

(** X21.  A category that an admin has created is listed on the admin's
    categories page, and is offered in the transaction form of every user
    of the organization who may create transactions. *)
Theorem created_category_is_listed (db db' : DB) (user : User.t)
  (name type : string) (r : response unit) :
  categories_create db (Some user) name type = (db', Handled (Return r)) ->
  exists c,
    Category.org_id c = User.org_id user /\ Category.name c = name
    /\ Category.type c = type
    /\ ~ In c (categories db)
    /\ (exists listed,
           categories_page db' (Some user) = Return (Page listed) /\ In c listed)
    /\ (forall viewer today,
           User.org_id viewer = User.org_id user ->
           User.role viewer <> ROLE_READONLY ->
           exists ctx,
             transaction_new_page db' (Some viewer) today = Return (Page ctx)
             /\ In c (form_categories ctx)).
Proof.
  intros H. apply categories_create_success in H.
  destruct H as (Hrole & Hfree & -> & _).
  set (c := Category.mk (next_id Category.id (categories db)) (User.org_id user)
              name type).
  assert (Hin : forall org, org = User.org_id user ->
                  In c (order_by_name Category.name
                          (org_categories (add_category db c) org))).
  { intros org ->. apply (Permutation_in c (Permutation_sym (proj1 (order_by_name_spec _ _)))).
    unfold org_categories, add_category. cbn [categories].
    apply filter_In. split; [apply in_or_app; right; now left|].
    cbn [Category.org_id c]. apply Z.eqb_refl. }
  exists c. repeat split.
  - intros Hold. unfold category_taken in Hfree.
    assert (Hex : existsb
                    (fun c0 => (Category.org_id c0 =? User.org_id user)
                               && (Category.name c0 =? name)%string
                               && (Category.type c0 =? type)%string)
                    (categories db) = true).
    { apply existsb_exists. exists c. split; [assumption|].
      cbn [Category.org_id Category.name Category.type c].
      now rewrite Z.eqb_refl, !String.eqb_refl. }
    congruence.
  - exists (order_by_name Category.name
              (org_categories (add_category db c) (User.org_id user))).
    split; [|apply Hin; reflexivity].
    unfold categories_page. now rewrite (proj1 (require_role_admin user) Hrole).
  - intros viewer today Horg Hro. unfold transaction_new_page.
    destruct (String.eqb_spec (User.role viewer) ROLE_READONLY); [contradiction|].
    eexists. split; [reflexivity|]. cbn [form_categories]. apply Hin. assumption.
Qed.

Lemma created_category_is_listed_witness :
  exists c listed,
    Category.name c = "Travel"
    /\ categories_page
         (fst (categories_create Sample.db (Some Sample.alice) "Travel" "expense"))
         (Some Sample.alice) = Return (Page listed)
    /\ In c listed.
Proof.
  destruct (created_category_is_listed Sample.db
              (fst (categories_create Sample.db (Some Sample.alice) "Travel" "expense"))
              Sample.alice "Travel" "expense" (Redirect "/categories") eq_refl)
    as (c & _ & Hname & _ & _ & (listed & Hpage & Hin) & _).
  exists c, listed. repeat split; assumption.
Defined.

(** X22.  Categories are unique by organization, name and type together:
    after a category is created, creating it again ends in
    [IntegrityError] and stores nothing, while the same name under a type
    that the organization does not yet have for it is accepted. *)
Theorem category_created_twice_is_rejected (db db' : DB) (user admin : User.t)
  (name type : string) (r : response unit) :
  categories_create db (Some user) name type = (db', Handled (Return r)) ->
  User.org_id admin = User.org_id user -> User.role admin = ROLE_ADMIN ->
  categories_create db' (Some admin) name type = (db', IntegrityError)
  /\ (forall type',
         type' <> type ->
         category_taken db (User.org_id user) name type' = false ->
         exists db'',
           categories_create db' (Some admin) name type'
           = (db'', Handled (Return (Redirect "/categories")))).
Proof.
  intros H Horg Hrole. apply categories_create_success in H.
  destruct H as (_ & _ & -> & _).
  unfold categories_create. rewrite (proj1 (require_role_admin admin) Hrole).
  unfold category_taken, add_category. cbn [categories].
  rewrite !Horg. split.
  - rewrite existsb_app. cbn [existsb Category.org_id Category.name Category.type].
    rewrite Z.eqb_refl, !String.eqb_refl. cbn [andb orb].
    rewrite orb_true_r. reflexivity.
  - intros type' Hne Hfree. rewrite existsb_app.
    unfold category_taken in Hfree. rewrite Hfree.
    cbn [existsb Category.org_id Category.name Category.type].
    destruct (String.eqb_spec type type') as [E|_]; [congruence|].
    rewrite andb_false_r. cbn [orb]. eexists. reflexivity.
Qed.

Lemma category_created_twice_is_rejected_witness :
  let db' := fst (categories_create Sample.db (Some Sample.alice) "Travel" "expense") in
  categories_create db' (Some Sample.alice) "Travel" "expense" = (db', IntegrityError).
Proof.
  exact (proj1 (category_created_twice_is_rejected Sample.db _ Sample.alice Sample.alice
                  "Travel" "expense" (Redirect "/categories")
                  eq_refl eq_refl eq_refl)).
Defined.

Lemma not_taken_fresh_key {A K : Type} (key : A -> K) (test : A -> bool)
  (l : list A) (k : K) :
  (forall x, key x = k -> test x = true) ->
  existsb test l = false -> ~ In k (map key l).
Proof.
  intros Htest Hfree Hin. apply in_map_iff in Hin. destruct Hin as (x & Hk & Hx).
  assert (existsb test l = true); [|congruence].
  apply existsb_exists. exists x. split; [assumption|]. apply Htest, Hk.
Qed.

Lemma nodup_snoc {K : Type} (l : list K) (k : K) :
  NoDup l -> ~ In k l -> NoDup (l ++ [k])%list.
Proof.
  intros Hl Hk. apply nodup_app_disjoint; [assumption| |].
  - constructor; [intros []|constructor].
  - intros x Hx [<-|[]]. contradiction.
Qed.

(** X23.  Creating accounts and categories keeps the unique constraints
    of the schema, whoever asks and whatever the form holds, and writes to
    no table but its own. *)
Theorem catalog_writes_keep_constraints (db : DB) (user : option User.t)
  (name type currency cname ctype : string) :
  accounts_unique db -> categories_unique db ->
  let after_account := fst (accounts_create db user name type currency) in
  let after_category := fst (categories_create db user cname ctype) in
  accounts_unique after_account /\ categories_unique after_account
  /\ accounts_unique after_category /\ categories_unique after_category
  /\ categories after_account = categories db
  /\ accounts after_category = accounts db
  /\ users after_account = users db /\ users after_category = users db
  /\ transactions after_account = transactions db
  /\ transactions after_category = transactions db
  /\ budgets after_account = budgets db /\ budgets after_category = budgets db.
Proof.
  intros Ha Hc. cbv zeta.
  assert (Hacc :
    fst (accounts_create db user name type currency) = db
    \/ exists u,
         account_name_taken db (User.org_id u) name = false
         /\ fst (accounts_create db user name type currency)
            = add_account db (Account.mk (next_id Account.id (accounts db))
                                (User.org_id u) name type currency)).
  { unfold accounts_create. destruct user as [u|]; [|now left].
    destruct (require_role u [ROLE_ADMIN]); [|now left].
    destruct (account_name_taken db (User.org_id u) name) eqn:E; [now left|].
    right. exists u. split; [assumption|reflexivity]. }
  assert (Hcat :
    fst (categories_create db user cname ctype) = db
    \/ exists u,
         category_taken db (User.org_id u) cname ctype = false
         /\ fst (categories_create db user cname ctype)
            = add_category db (Category.mk (next_id Category.id (categories db))
                                 (User.org_id u) cname ctype)).
  { unfold categories_create. destruct user as [u|]; [|now left].
    destruct (require_role u [ROLE_ADMIN]); [|now left].
    destruct (category_taken db (User.org_id u) cname ctype) eqn:E; [now left|].
    right. exists u. split; [assumption|reflexivity]. }
  destruct Hacc as [->|(u & Hfree & ->)]; destruct Hcat as [->|(u' & Hfree' & ->)];
    unfold accounts_unique, categories_unique, add_account, add_category in *;
    cbn [accounts categories users transactions budgets];
    rewrite ?map_app; cbn [map Account.org_id Account.name Category.org_id
                                Category.name Category.type];
    repeat split; try assumption; apply nodup_snoc; try assumption.
  all: eapply not_taken_fresh_key; [|first [exact Hfree|exact Hfree']];
    intros x E; cbv beta in E |- *.
  all: first [ injection E as -> -> ->; now rewrite Z.eqb_refl, !String.eqb_refl
             | injection E as -> ->; now rewrite Z.eqb_refl, String.eqb_refl ].
Qed.

Lemma catalog_writes_keep_constraints_witness :
  accounts_unique (fst (accounts_create Sample.db (Some Sample.alice) "Bank" "bank" "CNY"))
  /\ categories_unique
       (fst (categories_create Sample.db (Some Sample.alice) "Travel" "expense")).
Proof.
  assert (Ha : accounts_unique Sample.db).
  { unfold accounts_unique. cbn.
    repeat (constructor; [cbn [In]; intuition congruence|]). constructor. }
  assert (Hc : categories_unique Sample.db).
  { unfold categories_unique. cbn.
    repeat (constructor; [cbn [In]; intuition congruence|]). constructor. }
  destruct (catalog_writes_keep_constraints Sample.db (Some Sample.alice)
              "Bank" "bank" "CNY" "Travel" "expense" Ha Hc) as (H1 & _ & _ & H2 & _).
  split; assumption.
Defined.

(** * Sessions and registration *)

Lemma find_by_id (db : DB) (user : User.t) :
  user_ids_unique db -> In user (users db) ->
  find (fun u => User.id u =? User.id user) (users db) = Some user.
Proof.
  unfold user_ids_unique. induction (users db) as [|u us IH]; intros Hnd Hin.
  - destruct Hin.
  - cbn [map] in Hnd. inversion Hnd as [|? ? Hfresh Hnd']. subst.
    cbn [find]. destruct (Z.eqb_spec (User.id u) (User.id user)) as [E|E].
    + destruct Hin as [->|Hin]; [reflexivity|].
      exfalso. apply Hfresh. rewrite E. now apply in_map.
    + destruct Hin as [->|Hin]; [congruence|]. now apply IH.
Qed.

(** X24.  A session that holds a user's id resolves to exactly that user,
    provided the id is not 0; a session without an id (as after [logout]),
    with the id 0, or with an id that no user has resolves to nobody. *)
Theorem session_resolves_to_its_user (db : DB) (user : User.t) :
  user_ids_unique db -> In user (users db) ->
  (User.id user <> 0 -> get_current_user (Some (User.id user)) db = Some user)
  /\ (forall session, get_current_user (fst (logout session)) db = None)
  /\ get_current_user (Some 0) db = None
  /\ (forall stale, (forall u, In u (users db) -> User.id u <> stale) ->
                    get_current_user (Some stale) db = None).
Proof.
  intros Hnd Hin. unfold get_current_user, truthy_int. repeat split.
  - intros Hid. destruct (Z.eqb_spec (User.id user) 0); [contradiction|].
    now apply find_by_id.
  - intros stale Hstale. destruct (stale =? 0); [reflexivity|].
    destruct (find _ (users db)) as [u|] eqn:E; [|reflexivity].
    apply find_some in E. destruct E as [Hu Hid].
    apply Z.eqb_eq in Hid. destruct (Hstale u Hu Hid).
Qed.

Lemma session_resolves_to_its_user_witness :
  get_current_user (Some (User.id Sample.bob)) Sample.db = Some Sample.bob.
Proof.
  refine (proj1 (session_resolves_to_its_user Sample.db Sample.bob _ _) _).
  - unfold user_ids_unique. cbn.
    repeat (constructor; [cbn [In]; intuition congruence|]). constructor.
  - cbn. tauto.
  - discriminate.
Defined.

(** X25.  Fourteen handlers begin with the [get_current_user] guard:
    [dashboard], [transactions_list], [transaction_new_page],
    [transaction_create], [accounts_page], [accounts_create],
    [categories_page], [categories_create], [budgets_page],
    [budgets_create], [reports_page], [users_page], [users_create] and
    [export_csv].  When the session resolves to nobody, each of them
    answers with the redirect to the login page, and the five that write
    leave the tables as they were.  [register] is not among them: what it
    stores and how it ends do not depend on the session. *)
Theorem anonymous_requests_are_redirected (db : DB) (session : option Z)
  (today : Date.t) (params : query_params)
  (tx_form : transaction_form) (b_form : budget_form)
  (name type currency email role : string) :
  get_current_user session db = None ->
  let user := get_current_user session db in
  dashboard db user today = Return (Redirect "/login")
  /\ transactions_list db user params = Return (Redirect "/login")
  /\ transaction_new_page db user today = Return (Redirect "/login")
  /\ export_csv db user params = Return (Redirect "/login")
  /\ reports_page db user today = Return (Redirect "/login")
  /\ budgets_page db user = Return (Redirect "/login")
  /\ accounts_page db user = Return (Redirect "/login")
  /\ categories_page db user = Return (Redirect "/login")
  /\ users_page db user = Return (Redirect "/login")
  /\ transaction_create db user tx_form = (db, Return (Redirect "/login"))
  /\ budgets_create db user b_form = (db, Return (Redirect "/login"))
  /\ users_create db user name email role
     = (db, Handled (Return (Redirect "/login")))
  /\ accounts_create db user name type currency
     = (db, Handled (Return (Redirect "/login")))
  /\ categories_create db user name type
     = (db, Handled (Return (Redirect "/login")))
  /\ (forall app other org_name password,
        fst (fst (register app session org_name name email password))
        = fst (fst (register app other org_name name email password))
        /\ snd (register app session org_name name email password)
           = snd (register app other org_name name email password)).
Proof.
  intros H. cbv zeta. rewrite H. repeat split.
  - unfold register. destruct (users (store app)); [|reflexivity].
    destruct (existsb _ (organizations app)); reflexivity.
  - unfold register. destruct (users (store app)); [|reflexivity].
    destruct (existsb _ (organizations app)); reflexivity.
Qed.

Lemma anonymous_requests_are_redirected_witness :
  transaction_create Sample.db (get_current_user (Some 99) Sample.db) (Sample.form "10.00")
  = (Sample.db, Return (Redirect "/login")).
Proof.
  destruct (anonymous_requests_are_redirected Sample.db (Some 99) Sample.today
              Sample.no_params (Sample.form "10.00") Sample.budget_form_food
              "Bank" "bank" "CNY" "eve@example.com" "user" eq_refl)
    as (_ & _ & _ & _ & _ & _ & _ & _ & _ & H & _).
  exact H.
Defined.

Lemma register_success (app app' : App) (session session' : option Z)
  (org_name name email password : string) :
  register app session org_name name email password
  = (app', session', Handled (Return (Redirect "/"))) ->
  users (store app) = []
  /\ existsb (fun o => (Organization.name o =? org_name)%string) (organizations app)
     = false
  /\ app' = mkApp
              (organizations app
               ++ [Organization.mk (next_id Organization.id (organizations app))
                     org_name])
              (seed_defaults
                 (add_user (store app)
                    (User.mk 1 (next_id Organization.id (organizations app))
                       name email ROLE_ADMIN))
                 (next_id Organization.id (organizations app)))
  /\ session' = Some 1.
Proof.
  unfold register. destruct (users (store app)) eqn:Eu; [|discriminate].
  destruct (existsb _ (organizations app)); [discriminate|].
  intros H. injection H as <- <-. repeat split.
Qed.

(** X26.  Registration is open only while there is no user.  A
    registration that succeeds logs the new user in as an admin of a newly
    created organization of the given name, which it leaves with at least
    one category and one account; from then on every registration is sent
    to the login page and changes neither the tables nor the session. *)
Theorem register_is_one_shot (app app' : App) (session session' : option Z)
  (org_name name email password : string) :
  register app session org_name name email password
  = (app', session', Handled (Return (Redirect "/"))) ->
  (exists admin org,
      get_current_user session' (store app') = Some admin
      /\ users (store app') = [admin]
      /\ User.role admin = ROLE_ADMIN
      /\ User.name admin = name /\ User.email admin = email
      /\ In org (organizations app')
      /\ ~ In org (organizations app)
      /\ Organization.name org = org_name
      /\ User.org_id admin = Organization.id org
      /\ org_categories (store app') (Organization.id org) <> []
      /\ org_accounts (store app') (Organization.id org) <> [])
  /\ (forall session2 org_name2 name2 email2 password2,
         register app' session2 org_name2 name2 email2 password2
         = (app', session2, Handled (Return (Redirect "/login")))).
Proof.
  intros H. apply register_success in H. destruct H as (Hu & Hfree & -> & ->).
  set (org_id := next_id Organization.id (organizations app)).
  set (admin := User.mk 1 org_id name email ROLE_ADMIN).
  assert (Husers : users (seed_defaults (add_user (store app) admin) org_id) = [admin]).
  { rewrite seed_defaults_users. unfold add_user. cbn [users]. now rewrite Hu. }
  split.
  - exists admin, (Organization.mk org_id org_name). cbn [store organizations].
    split; [unfold get_current_user; cbn [truthy_int Z.eqb]; rewrite Husers;
            reflexivity|].
    split; [exact Husers|].
    repeat split; try apply seed_defaults_fills.
    + apply in_or_app. right. now left.
    + intros Hin.
      assert (existsb (fun o => (Organization.name o =? org_name)%string)
                (organizations app) = true); [|congruence].
      apply existsb_exists. eexists. split; [exact Hin|].
      cbn [Organization.name]. apply String.eqb_refl.
  - intros. unfold register. cbn [store]. rewrite Husers. reflexivity.
Qed.

Lemma register_is_one_shot_witness :
  let first := register (mkApp [] (mkDB [] [] [] [] [])) None
                 "Acme Org" "Admin" "admin@example.com" "secret" in
  register (fst (fst first)) None "Other Org" "Eve" "eve@example.com" "pw"
  = (fst (fst first), None, Handled (Return (Redirect "/login"))).
Proof.
  exact (proj2 (register_is_one_shot (mkApp [] (mkDB [] [] [] [] [])) _ None _
                  "Acme Org" "Admin" "admin@example.com" "secret" eq_refl)
           None "Other Org" "Eve" "eve@example.com" "pw").
Defined.
